(** * fasttrips.PathSet: weight configuration, link costs and path choice
      probabilities

    A shallow embedding of [src/fasttrips/PathSet.py].

    Conventions of the embedding.
    - A pandas DataFrame is a list of rows (row order is the frame's order);
      a row is a record whose fields are the columns the code reads.
    - A cell that pandas would hold as NaN / NaT / None is [None].
    - The cost columns, float64 in pandas, are exact rationals ([Q]): their
      rounding is outside the model.  The logit stage, which calls
      [numpy.exp] and divides, is over [float64] below: the underflow of the
      exponential to 0.0, its overflow to infinity and the NaN of 0.0/0.0 and
      of infinity/infinity are part of the model; a finite result that is
      not zero is kept exact.
    - Timestamps and durations are integers (nanoseconds, as in
      datetime64[ns] / timedelta64[ns]).
    - Python exceptions and [sys.exit] are explicit results. *)

From Stdlib Require Import List String Ascii ZArith QArith Qreals Reals Lia Lra Bool.
From Stdlib Require Import Sorting.Sorted Sorting.Permutation.
Import ListNotations.

Local Open Scope string_scope.
Local Open Scope Z_scope.

(* ================================================================== *)
(** * Python results *)

Inductive PyError : Type :=
| AssertionError
| KeyError (label : string)
| NotImplementedError (msg : string)
| Exception (msg : string).

Inductive Result (A : Type) : Type :=
| Ok (a : A)
| Raised (e : PyError).
Arguments Ok {A} a.
Arguments Raised {A} e.

Definition bind {A B : Type} (r : Result A) (k : A -> Result B) : Result B :=
  match r with
  | Ok a => k a
  | Raised e => Raised e
  end.

Notation "x <- c ;; k" := (bind c (fun x => k))
  (at level 61, c at next level, right associativity).
Notation "'py_assert' b ;; k" := (if b then k else Raised AssertionError)
  (at level 61, b at next level, right associativity).

(* ================================================================== *)
(** * DataFrame operations *)

Section Frames.
Context {A B : Type}.

(** [pandas.merge(left, right, how="inner")]: left order is kept and each
    left row is paired with its matches in right order. *)
Definition merge_inner (on : A -> B -> bool) (left : list A) (right : list B)
  : list (A * B) :=
  flat_map (fun a => map (pair a) (filter (on a) right)) left.

(** [pandas.merge(left, right, how="left")]: as above, and an unmatched
    left row is kept once with missing right columns. *)
Definition left_matches (on : A -> B -> bool) (right : list B) (a : A)
  : list (A * option B) :=
  match filter (on a) right with
  | [] => [(a, None)]
  | bs => map (fun b => (a, Some b)) bs
  end.

Definition merge_left (on : A -> B -> bool) (left : list A) (right : list B)
  : list (A * option B) :=
  flat_map (left_matches on right) left.
End Frames.

Section DropDuplicates.
Context {A : Type} (eqb : A -> A -> bool).

(** [DataFrame.drop_duplicates()]: the first occurrence is kept. *)
Fixpoint drop_duplicates (l : list A) : list A :=
  match l with
  | [] => []
  | x :: l' => x :: filter (fun y => negb (eqb x y)) (drop_duplicates l')
  end.
End DropDuplicates.

Section SortValues.
Context {A : Type} (leb : A -> A -> bool).

Fixpoint insert_sorted (x : A) (l : list A) : list A :=
  match l with
  | [] => [x]
  | y :: l' => if leb x y then x :: l else y :: insert_sorted x l'
  end.

(** [DataFrame.sort_values(by=[...])] on several columns: a stable sort on
    the lexicographic key. *)
Definition sort_values (l : list A) : list A :=
  fold_right insert_sorted [] l.
End SortValues.

(** Lexicographic chaining of three-way comparisons. *)
Definition lex (c k : comparison) : comparison :=
  match c with
  | Eq => k
  | _ => c
  end.

Definition not_gt (c : comparison) : bool :=
  match c with
  | Gt => false
  | _ => true
  end.

(* ================================================================== *)
(** * The PathSet object *)

Module PathSet.

(** Class constants. *)
Definition WEIGHTS_COLUMN_USER_CLASS       := "user_class".
Definition WEIGHTS_COLUMN_DEMAND_MODE_TYPE := "demand_mode_type".
Definition WEIGHTS_COLUMN_DEMAND_MODE      := "demand_mode".
Definition WEIGHTS_COLUMN_SUPPLY_MODE      := "supply_mode".
Definition WEIGHTS_COLUMN_WEIGHT_NAME      := "weight_name".
Definition WEIGHTS_COLUMN_WEIGHT_VALUE     := "weight_value".
Definition WEIGHTS_COLUMN_SUPPLY_MODE_NUM  := "supply_mode_num".
Definition OUTPUT_WEIGHTS_FILE             := "ft_intermediate_weights.txt".

Definition DIR_OUTBOUND : Z := 1.
Definition DIR_INBOUND  : Z := 2.

Definition STATE_MODE_ACCESS   := "access".
Definition STATE_MODE_EGRESS   := "egress".
Definition STATE_MODE_TRANSFER := "transfer".
Definition STATE_MODE_TRIP     := "transit".

Definition BUMP_EXPERIENCED_COST : Z := 999999.
Definition HUGE_COST : Z := 9999.

(** One entry of a path's state list (the ten [STATE_IDX_*] positions). *)
Record State : Type := {
  st_label        : Z;
  st_deparr       : Z;
  st_deparrmode   : Z;
  st_trip         : Z;
  st_succpred     : Z;
  st_seq          : Z;
  st_seq_succpred : Z;
  st_linktime     : Z;
  st_cost         : Q;
  st_arrdep       : Z
}.

(** A value of [pathdict]: [{ cost:, probability:, states: [(stop_id, state)] }]. *)
Record PathEntry : Type := {
  pf_cost        : Q;
  pf_probability : Q;
  states         : list (Z * State)
}.

(** What [self.pathdict] can hold: the constructor stores a dict, [reset]
    stores a list. *)
Inductive PyContainer : Type :=
| PyDict (items : list (Z * PathEntry))
| PyList (items : list PathEntry).

Definition len (c : PyContainer) : Z :=
  match c with
  | PyDict items => Z.of_nat (List.length items)
  | PyList items => Z.of_nat (List.length items)
  end.

(** The row of the trip list a PathSet is constructed from.  [tl_other]
    holds the remaining attributes copied by [__dict__.update]. *)
Record TripListDict : Type := {
  tl_time_target        : string;
  tl_arrival_time       : Z;
  tl_arrival_time_min   : Q;
  tl_departure_time     : Z;
  tl_departure_time_min : Q;
  tl_o_taz              : string;
  tl_d_taz              : string;
  tl_other              : list (string * string)
}.

Record t : Type := {
  trip_attrs    : TripListDict;
  direction     : Z;
  pref_time     : Z;
  pref_time_min : Q;
  pathdict      : PyContainer
}.

(** [Timestamp.to_datetime().time()]: the time of day, in nanoseconds. *)
Definition time_of_day (ts : Z) : Z := ts mod 86400000000000.

Definition __init__ (trip_list_dict : TripListDict) : Result t :=
  if (tl_time_target trip_list_dict =? "arrival")%string then
    Ok {| trip_attrs    := trip_list_dict;
          direction     := DIR_OUTBOUND;
          pref_time     := time_of_day (tl_arrival_time trip_list_dict);
          pref_time_min := tl_arrival_time_min trip_list_dict;
          pathdict      := PyDict [] |}
  else if (tl_time_target trip_list_dict =? "departure")%string then
    Ok {| trip_attrs    := trip_list_dict;
          direction     := DIR_INBOUND;
          pref_time     := time_of_day (tl_departure_time trip_list_dict);
          pref_time_min := tl_departure_time_min trip_list_dict;
          pathdict      := PyDict [] |}
  else Raised (Exception "Don't understand trip_list time_target").

Definition goes_somewhere (self : t) : bool :=
  negb (tl_o_taz (trip_attrs self) =? tl_d_taz (trip_attrs self))%string.

Definition path_found (self : t) : bool := 0 <? len (pathdict self).

Definition num_paths (self : t) : Z := len (pathdict self).

Definition reset (self : t) : t :=
  {| trip_attrs    := trip_attrs self;
     direction     := direction self;
     pref_time     := pref_time self;
     pref_time_min := pref_time_min self;
     pathdict      := PyList [] |}.

Definition outbound (self : t) : bool := direction self =? DIR_OUTBOUND.


(* ------------------------------------------------------------------ *)
(** ** The weight table *)

(** A row of [PathSet.WEIGHTS_DF] as read from the weights file. *)
Record WeightRow : Type := {
  user_class       : string;
  demand_mode_type : string;
  demand_mode      : string;
  supply_mode      : string;
  weight_name      : string;
  weight_value     : Q
}.

(** A row of [PathSet.WEIGHTS_DF] once the [supply_mode_num] column has been
    added; the number is missing for a supply mode the network does not
    know. *)
Record NumWeightRow : Type := {
  w_row           :> WeightRow;
  supply_mode_num : option Z
}.

(** The process-wide [PathSet.WEIGHTS_DF]. *)
Inductive WeightsDF : Type :=
| Unnumbered (rows : list WeightRow)
| Numbered (rows : list NumWeightRow).

Definition weight_rows (df : WeightsDF) : list WeightRow :=
  match df with
  | Unnumbered rows => rows
  | Numbered rows => map w_row rows
  end.

(** A row of [modes_df]: a combination found in the demand file. *)
Record ModeRow : Type := {
  m_user_class       : string;
  m_demand_mode_type : string;
  m_demand_mode      : string
}.

(** The blocks [verify_weight_config] appends to [error_str]; every block is
    a non-empty text, so [len(error_str) > 0] iff the list is non-empty. *)
Inductive ConfigError : Type :=
| MissingDemandModes (rows : list ModeRow)
| MissingImplicitModes (rows : list (string * string * string * string))
| ExplicitAtCapacity (rows : list WeightRow).

(** [DataFrame.to_csv]. *)
Inductive Cell : Type :=
| CStr (s : string)
| CInt (z : Z)
| CFloat (q : Q)
| CNaN.

Record CsvFile : Type := {
  csv_name   : string;
  csv_sep    : string;
  csv_header : option (list string);
  csv_rows   : list (list Cell)
}.

(** [df.to_csv(name, columns=..., sep=..., header=..., index=False)]. *)
Definition to_csv {A : Type} (df : list A) (name : string)
    (columns : list (string * (A -> Cell))) (sep : string) (header : bool)
  : CsvFile :=
  {| csv_name   := name;
     csv_sep    := sep;
     csv_header := if header then Some (map fst columns) else None;
     csv_rows   := map (fun r => map (fun c => snd c r) columns) df |}.

(** The text of the file, line by line, for a given rendering of cells. *)
Definition csv_lines (fmt : Cell -> string) (f : CsvFile) : list string :=
  match csv_header f with
  | Some h => [String.concat (csv_sep f) h]
  | None => []
  end ++ map (fun r => String.concat (csv_sep f) (map fmt r)) (csv_rows f).

(** How [verify_weight_config] ends. *)
Inductive Outcome : Type :=
| SysExit (code : Z) (error_str : list ConfigError)
| Returned (weights_file : CsvFile).

Definition modes_on (m : ModeRow) (w : WeightRow) : bool :=
  ((m_user_class m =? user_class w) &&
   (m_demand_mode_type m =? demand_mode_type w) &&
   (m_demand_mode m =? demand_mode w))%string.

(** Rows of the first [weight_check] whose [supply_mode] is null. *)
Definition missing_demand_modes (modes_df : list ModeRow)
    (weights : list WeightRow) : list ModeRow :=
  map fst (filter (fun p => match snd p with None => true | Some _ => false end)
                  (merge_left modes_on modes_df weights)).

Definition key4_eqb (a b : string * string * string * string) : bool :=
  let '(a1, a2, a3, a4) := a in
  let '(b1, b2, b3, b4) := b in
  ((a1 =? b1) && (a2 =? b2) && (a3 =? b3) && (a4 =? b4))%string.

(** [implicit_df]: (user_class, 'transfer', 'transfer', 'transfer') for each
    distinct user class of the demand, by a cross join on a constant key. *)
Definition implicit_df (modes_df : list ModeRow)
  : list (string * string * string * string) :=
  map (fun p => (fst p, "transfer", "transfer", "transfer"))
      (merge_inner (fun _ _ => true)
         (drop_duplicates String.eqb (map m_user_class modes_df))
         [tt]).

Definition implicit_on (i : string * string * string * string)
    (w : WeightRow) : bool :=
  key4_eqb i (user_class w, demand_mode_type w, demand_mode w, supply_mode w).

(** Rows of the second [weight_check] whose [weight_name] is null. *)
Definition missing_implicit (modes_df : list ModeRow)
    (weights : list WeightRow) : list (string * string * string * string) :=
  map fst (filter (fun p => match snd p with None => true | Some _ => false end)
                  (merge_left implicit_on (implicit_df modes_df) weights)).

Definition is_at_capacity (w : WeightRow) : bool :=
  (weight_name w =? "at_capacity")%string.

Definition is_transit (w : WeightRow) : bool :=
  (demand_mode_type w =? STATE_MODE_TRIP)%string.

(** The columns kept in [transit_weights_df], in the code's order:
    user_class, demand_mode, demand_mode_type, supply_mode. *)
Definition transit_key (w : WeightRow) : string * string * string * string :=
  (user_class w, demand_mode w, demand_mode_type w, supply_mode w).

Definition at_capacity_row (k : string * string * string * string)
  : WeightRow :=
  let '(uc, dm, dmt, sm) := k in
  {| user_class       := uc;
     demand_mode_type := dmt;
     demand_mode      := dm;
     supply_mode      := sm;
     weight_name      := "at_capacity";
     weight_value     := inject_Z HUGE_COST |}.

(** [transit_weights_df] with its two added columns. *)
Definition transit_weights_df (weights : list WeightRow) : list WeightRow :=
  map at_capacity_row
      (drop_duplicates key4_eqb (map transit_key (filter is_transit weights))).

Definition weight_compare (a b : WeightRow) : comparison :=
  lex (String.compare (user_class a) (user_class b))
 (lex (String.compare (demand_mode_type a) (demand_mode_type b))
 (lex (String.compare (demand_mode a) (demand_mode b))
 (lex (String.compare (supply_mode a) (supply_mode b))
      (String.compare (weight_name a) (weight_name b))))).

Definition weight_leb (a b : WeightRow) : bool := not_gt (weight_compare a b).

(** The [if capacity_constraint:] block: the new weight table and what is
    appended to [error_str]. *)
Definition apply_capacity_constraint (weights : list WeightRow)
    (capacity_constraint : bool) : list WeightRow * list ConfigError :=
  if capacity_constraint then
    let at_capacity := filter is_at_capacity weights in
    if (0 <? Z.of_nat (List.length at_capacity)) then
      (weights, [ExplicitAtCapacity at_capacity])
    else
      (sort_values weight_leb (weights ++ transit_weights_df weights), [])
  else (weights, []).

Fixpoint lookup {V : Type} (k : string) (l : list (string * V)) : option V :=
  match l with
  | [] => None
  | (k', v) :: l' => if (k =? k')%string then Some v else lookup k l'
  end.

(** Modelled from the spec: [Route.add_numeric_mode_id], called on [routes],
    is defined outside this file.  It adds column [supply_mode_num] holding
    the numeric code of each row's [supply_mode]; with [warn=True] a supply
    mode the network does not list is reported and does not stop the run.
    [routes] is the network's table of (mode, number).  Rows and their order
    are kept, and an unlisted mode has a missing number. *)
Definition add_numeric_mode_id (routes : list (string * Z))
    (df : list WeightRow) : list NumWeightRow :=
  map (fun w => {| w_row := w; supply_mode_num := lookup (supply_mode w) routes |})
      df.

Definition num_cell (n : option Z) : Cell :=
  match n with
  | Some z => CInt z
  | None => CNaN
  end.

(** The columns written to [OUTPUT_WEIGHTS_FILE]. *)
Definition weights_file_columns : list (string * (NumWeightRow -> Cell)) :=
  [ (WEIGHTS_COLUMN_USER_CLASS,       fun w : NumWeightRow => CStr (user_class w));
    (WEIGHTS_COLUMN_DEMAND_MODE_TYPE, fun w : NumWeightRow => CStr (demand_mode_type w));
    (WEIGHTS_COLUMN_DEMAND_MODE,      fun w : NumWeightRow => CStr (demand_mode w));
    (WEIGHTS_COLUMN_SUPPLY_MODE_NUM,  fun w : NumWeightRow => num_cell (supply_mode_num w));
    (WEIGHTS_COLUMN_WEIGHT_NAME,      fun w : NumWeightRow => CStr (weight_name w));
    (WEIGHTS_COLUMN_WEIGHT_VALUE,     fun w : NumWeightRow => CFloat (weight_value w)) ].

(** [verify_weight_config(modes_df, output_dir, routes, capacity_constraint)]
    run on the weight table [weights].  The result is the weight table the
    class holds afterwards, and how the call ended.  The assertions on the
    six columns hold by the type of the rows.  [to_csv] is called without
    [header], whose default is [True]. *)
Definition verify_weight_config (weights : list WeightRow)
    (modes_df : list ModeRow) (routes : list (string * Z))
    (capacity_constraint : bool) : WeightsDF * Outcome :=
  let error1 :=
    match missing_demand_modes modes_df weights with
    | [] => []
    | rows => [MissingDemandModes rows]
    end in
  let error2 :=
    match missing_implicit modes_df weights with
    | [] => []
    | rows => [MissingImplicitModes rows]
    end in
  let '(weights', error3) := apply_capacity_constraint weights capacity_constraint in
  let error_str := (error1 ++ error2 ++ error3)%list in
  if (0 <? Z.of_nat (List.length error_str)) then
    (Unnumbered weights', SysExit 2 error_str)
  else
    let numbered := add_numeric_mode_id routes weights' in
    (Numbered numbered,
     Returned (to_csv numbered OUTPUT_WEIGHTS_FILE weights_file_columns " " true)).


(* ------------------------------------------------------------------ *)
(** ** Frames read by [calculate_cost] *)

(** Values of other classes ([TAZ], [Assignment], [Transfer]) the function
    reads; they are set when the network and the run are configured. *)
Record Config : Type := {
  WALK_MODE_NUMS   : list Z;
  DRIVE_MODE_NUMS  : list Z;
  ACCESS_MODE_NUMS : list Z;
  EGRESS_MODE_NUMS : list Z;
  MSA_RESULTS      : bool;
  TRANSFERS_COLUMN_FROM_STOP_NUM : string;
  TRANSFERS_COLUMN_TO_STOP_NUM   : string
}.

(** A row of [pathset_links_df].  [mode] is the supply mode of the link;
    [pf_A_time] and [pf_B_time] are the passenger's times at the two ends of
    the link; [board_time], [alight_time] and the over-capacity columns are
    set on transit links. *)
Record LinkRow : Type := {
  person_id        : string;
  trip_list_id_num : Z;
  pathnum          : Z;
  linknum          : Z;
  linkmode         : string;
  mode             : string;
  A_id_num         : Z;
  B_id_num         : Z;
  pf_A_time        : Z;
  pf_B_time        : Z;
  pf_linktime      : Z;
  board_time       : option Z;
  alight_time      : option Z;
  overcap          : option Q;
  msa_overcap      : option Q;
  bumpstop_boarded : option Q;
  missed_xfer      : Z;
  bump_iter        : Z
}.

(** Which optional columns [pathset_links_df] has. *)
Record LinkColumns : Type := {
  has_msa_overcap      : bool;
  has_bumpstop_boarded : bool
}.

(** A row of [pathset_paths_df]. *)
Record PathRow : Type := {
  p_person_id        : string;
  p_trip_list_id_num : Z;
  p_pathnum          : Z;
  p_pf_cost          : Q;
  p_pf_probability   : Q
}.

(** A float64 of the logit stage that is not NaN; NaN is [None], as in
    every column.  The numbers of that stage are weights, sums of weights
    and quotients of them, none of which is negative.  What the model keeps
    of float64 is what decides whether a probability is a number: the
    underflow of [numpy.exp] to 0.0, its overflow to infinity, and the
    quotients by 0.0 and by infinity.  A finite result that is not zero is
    kept exact, as the costs are: its rounding is outside the model. *)
Inductive float64 : Type :=
| Finite (x : R)
| Infinity.

(** The columns [calculate_cost] adds to a path row, in the order it adds
    them. *)
Record SimPathCols : Type := {
  sim_cost         : option Q;
  logsum_component : option float64;
  logsum           : option float64;
  probability      : option float64
}.

(** The path frame and the link frame of a path set.  [calculate_cost] adds
    its columns to both frames and drops them from both, so either both
    carry them ([Costed]) or neither does ([Uncosted]); the added link
    column is the link's [sim_cost]. *)
Inductive PathsetFrames : Type :=
| Uncosted (pathset_paths_df : list PathRow) (pathset_links_df : list LinkRow)
| Costed (pathset_paths_df : list (PathRow * SimPathCols))
         (pathset_links_df : list (LinkRow * option Q)).

(** A row of [trip_list_df]. *)
Record TripRow : Type := {
  t_person_id        : string;
  t_trip_list_id_num : Z;
  t_user_class       : string;
  t_purpose          : string;
  t_access_mode      : string;
  t_egress_mode      : string;
  t_transit_mode     : string;
  t_departure_time   : Z;
  t_arrival_time     : Z;
  t_time_target      : string
}.

(** [walk_df] / [drive_df]: zone-to-stop links with any number of numeric
    columns. *)
Record AccessRow : Type := {
  taz_num             : Z;
  stop_num            : Z;
  acc_supply_mode_num : Z;
  acc_values          : list (string * option Q)
}.

Record AccessDF : Type := {
  acc_numeric_columns : list string;
  acc_rows            : list AccessRow
}.

(** A row of [link_df] once it is keyed by A and B. *)
Record AccessLink : Type := {
  al_A_id_num        : Z;
  al_B_id_num        : Z;
  al_supply_mode_num : Z;
  al_values          : list (string * option Q)
}.

(** [transfers_df]: stop-to-stop transfers with any number of numeric
    columns. *)
Record TransferRow : Type := {
  from_stop_num : Z;
  to_stop_num   : Z;
  xf_values     : list (string * option Q)
}.

Record TransfersDF : Type := {
  xf_numeric_columns : list string;
  xf_rows            : list TransferRow
}.

(* ------------------------------------------------------------------ *)
(** ** Intermediate frames of [calculate_cost] *)

(** A row of [pathset_links_cost_df]. *)
Record LinkCostRow : Type := {
  lc_link        :> LinkRow;
  lc_user_class  : option string;
  lc_purpose     : option string;
  lc_demand_mode : option string;
  lc_bump_iter   : Z
}.

(** A row of [cost_df]: a link joined with one of its weights. *)
Record CostRow : Type := {
  cr_link   :> LinkCostRow;
  cr_weight : NumWeightRow;
  var_value : option Q
}.

Definition set_var_value (v : option Q) (r : CostRow) : CostRow :=
  {| cr_link := cr_link r; cr_weight := cr_weight r; var_value := v |}.

(** [df.loc[mask, "var_value"] = value], on a frame of cost rows and on a
    frame of cost rows joined with further columns. *)
Definition loc_set (mask : CostRow -> bool) (value : CostRow -> option Q)
    (r : CostRow) : CostRow :=
  if mask r then set_var_value (value r) r else r.

Definition loc_set2 {X : Type} (mask : CostRow -> X -> bool)
    (value : CostRow -> X -> option Q) (p : CostRow * X) : CostRow * X :=
  if mask (fst p) (snd p)
  then (set_var_value (value (fst p) (snd p)) (fst p), snd p)
  else p.

Definition is_some {X : Type} (o : option X) : bool :=
  match o with
  | Some _ => true
  | None => false
  end.

Definition is_none {X : Type} (o : option X) : bool := negb (is_some o).

Definition isin (x : Z) (l : list Z) : bool := existsb (Z.eqb x) l.

(** Comparisons with a cell that may be NaN: every comparison with NaN is
    false, except [!=]. *)
Definition opt_str_eqb (o : option string) (s : string) : bool :=
  match o with
  | Some x => (x =? s)%string
  | None => false
  end.

Definition opt_Z_eqb (o : option Z) (z : Z) : bool :=
  match o with
  | Some x => x =? z
  | None => false
  end.

Definition opt_isin (o : option Z) (l : list Z) : bool :=
  match o with
  | Some x => isin x l
  | None => false
  end.

Definition ge0 (o : option Q) : bool :=
  match o with
  | Some q => Qle_bool 0 q
  | None => false
  end.

Definition lt0 (o : option Q) : bool :=
  match o with
  | Some q => negb (Qle_bool 0 q)
  | None => false
  end.

Definition ne1 (o : option Q) : bool :=
  match o with
  | Some q => negb (Qeq_bool q 1)
  | None => true
  end.

(** [timedelta / numpy.timedelta64(1,'m')]. *)
Definition minutes (ns : Z) : Q := (inject_Z ns / inject_Z 60000000000)%Q.

Definition opt_minutes (a b : option Z) : option Q :=
  match a, b with
  | Some x, Some y => Some (minutes (x - y))
  | _, _ => None
  end.

Definition column {V : Type} (colname : string)
    (values : list (string * option V)) : option V :=
  match lookup colname values with
  | Some v => v
  | None => None
  end.

(** [GroupBy.aggregate('sum')] on a column that may hold NaN: NaN cells are
    skipped, and a group holding nothing else sums to NaN (the pandas of
    this Python 2 code; from pandas 0.22 on such a group sums to 0). *)
Definition present {N : Type} (l : list (option N)) : list N :=
  flat_map (fun o => match o with Some x => [x] | None => [] end) l.

Definition nansum {N : Type} (plus : N -> N -> N) (zero : N)
    (l : list (option N)) : option N :=
  match present l with
  | [] => None
  | xs => Some (fold_left plus xs zero)
  end.

(** [df.groupby(key).aggregate('sum')]: one row per key, keys ascending. *)
Definition groupby_sum {K V N : Type} (keqb kleb : K -> K -> bool)
    (plus : N -> N -> N) (zero : N)
    (key : V -> K) (val : V -> option N) (df : list V) : list (K * option N) :=
  map (fun k => (k, nansum plus zero
                      (map val (filter (fun r => keqb k (key r)) df))))
      (sort_values kleb (drop_duplicates keqb (map key df))).

(** The sum of the group of key [k]. *)
Definition group_sum {K V N : Type} (keqb : K -> K -> bool)
    (plus : N -> N -> N) (zero : N)
    (key : V -> K) (val : V -> option N) (df : list V) (k : K) : option N :=
  nansum plus zero (map val (filter (fun r => keqb k (key r)) df)).

(** The value of the right column after a left merge. *)
Definition merged_value {K N : Type} (m : option (K * option N)) : option N :=
  match m with
  | Some (_, v) => v
  | None => None
  end.

Definition key2 : Type := Z * Z.
Definition key3 : Type := Z * Z * Z.

Definition key2_eqb (a b : key2) : bool :=
  (fst a =? fst b) && (snd a =? snd b).

Definition key2_leb (a b : key2) : bool :=
  not_gt (lex (fst a ?= fst b) (snd a ?= snd b)).

Definition key3_eqb (a b : key3) : bool :=
  key2_eqb (fst a) (fst b) && (snd a =? snd b).

Definition key3_leb (a b : key3) : bool :=
  not_gt (lex (fst (fst a) ?= fst (fst b))
         (lex (snd (fst a) ?= snd (fst b)) (snd a ?= snd b))).

Definition link_key (l : LinkRow) : key3 :=
  (trip_list_id_num l, pathnum l, linknum l).

Definition path_key (p : PathRow) : key2 :=
  (p_trip_list_id_num p, p_pathnum p).


(* ------------------------------------------------------------------ *)
(** ** [calculate_cost], step by step *)

(** Lines 476-485: the columns of a previous call are dropped.  The caller's
    frames are changed in place; the function goes on with the result. *)
Definition drop_sim_columns (frames : PathsetFrames)
  : list PathRow * list LinkRow :=
  match frames with
  | Uncosted paths links => (paths, links)
  | Costed paths links => (map fst paths, map fst links)
  end.

Definition trip_on (l : LinkRow) (t : TripRow) : bool :=
  (person_id l =? t_person_id t)%string &&
  (trip_list_id_num l =? t_trip_list_id_num t).

(** Lines 507-511: [demand_mode] is None, then set by link mode. *)
Definition link_demand_mode (l : LinkRow) (t : option TripRow)
  : option string :=
  let dm := None in
  let dm := if (linkmode l =? STATE_MODE_ACCESS)%string
            then option_map t_access_mode t else dm in
  let dm := if (linkmode l =? STATE_MODE_EGRESS)%string
            then option_map t_egress_mode t else dm in
  let dm := if (linkmode l =? STATE_MODE_TRIP)%string
            then option_map t_transit_mode t else dm in
  let dm := if (linkmode l =? STATE_MODE_TRANSFER)%string
            then Some "transfer" else dm in
  dm.

Definition link_cost_row (p : LinkRow * option TripRow) : LinkCostRow :=
  {| lc_link        := fst p;
     lc_user_class  := option_map t_user_class (snd p);
     lc_purpose     := option_map t_purpose (snd p);
     lc_demand_mode := link_demand_mode (fst p) (snd p);
     lc_bump_iter   := bump_iter (fst p) |}.

Definition set_bump_iter (b : Z) (r : LinkCostRow) : LinkCostRow :=
  {| lc_link        := lc_link r;
     lc_user_class  := lc_user_class r;
     lc_purpose     := lc_purpose r;
     lc_demand_mode := lc_demand_mode r;
     lc_bump_iter   := b |}.

(** Lines 491-523. *)
Definition pathset_links_cost_df (simulation_iteration : Z)
    (pathset_links_df : list LinkRow) (trip_list_df : list TripRow)
  : Result (list LinkCostRow) :=
  let rows := map link_cost_row
                  (merge_left trip_on pathset_links_df trip_list_df) in
  py_assert (forallb (fun r => is_some (lc_demand_mode r)) rows) ;;
  Ok (if simulation_iteration =? 0
      then map (set_bump_iter (-1)) rows
      else rows).

Definition weights_on (l : LinkCostRow) (w : NumWeightRow) : bool :=
  opt_str_eqb (lc_user_class l) (user_class w) &&
  (linkmode l =? demand_mode_type w)%string &&
  opt_str_eqb (lc_demand_mode l) (demand_mode w) &&
  (mode l =? supply_mode w)%string.

(** Lines 528-545: the inner join with the weights; [var_value] is unset. *)
Definition cost_df (links : list LinkCostRow) (weights : list NumWeightRow)
  : list CostRow :=
  map (fun p => {| cr_link := fst p; cr_weight := snd p; var_value := None |})
      (merge_inner weights_on links weights).

Definition is_accegr (r : CostRow) : bool :=
  ((linkmode r =? STATE_MODE_ACCESS) || (linkmode r =? STATE_MODE_EGRESS))%string.

Definition is_trip (r : CostRow) : bool :=
  (linkmode r =? STATE_MODE_TRIP)%string.

Definition is_transfer (r : CostRow) : bool :=
  (linkmode r =? STATE_MODE_TRANSFER)%string.

(** *** Access and egress links *)

(** Lines 573-579. *)
Definition format_access_row (cfg : Config) (a : AccessRow) : AccessLink :=
  let A := -1 in
  let B := -1 in
  let A := if isin (acc_supply_mode_num a) (ACCESS_MODE_NUMS cfg)
           then taz_num a else A in
  let B := if isin (acc_supply_mode_num a) (ACCESS_MODE_NUMS cfg)
           then stop_num a else B in
  let A := if isin (acc_supply_mode_num a) (EGRESS_MODE_NUMS cfg)
           then stop_num a else A in
  let B := if isin (acc_supply_mode_num a) (EGRESS_MODE_NUMS cfg)
           then taz_num a else B in
  {| al_A_id_num := A;
     al_B_id_num := B;
     al_supply_mode_num := acc_supply_mode_num a;
     al_values := acc_values a |}.

Definition access_on (r : CostRow) (a : AccessLink) : bool :=
  (A_id_num r =? al_A_id_num a) &&
  opt_Z_eqb (supply_mode_num (cr_weight r)) (al_supply_mode_num a) &&
  (B_id_num r =? al_B_id_num a).

Definition is_join_column (colname : string) : bool :=
  ((colname =? "A_id_num") || (colname =? WEIGHTS_COLUMN_SUPPLY_MODE_NUM) ||
   (colname =? "B_id_num"))%string.

(** The numeric columns of [link_df]: the join columns and the others. *)
Definition link_numeric_columns (df : AccessDF) : list string :=
  (WEIGHTS_COLUMN_SUPPLY_MODE_NUM :: acc_numeric_columns df
     ++ ["A_id_num"; "B_id_num"])%list.

(** Lines 592-602, one turn of the loop over the numeric columns, on a row
    of the merged frame. *)
Definition use_access_column (mode_list : list Z) (m : option AccessLink)
    (r : CostRow) (colname : string) : CostRow :=
  if is_join_column colname then r
  else
    loc_set (fun r => (weight_name (cr_weight r) =? colname)%string &&
                      opt_isin (supply_mode_num (cr_weight r)) mode_list)
            (fun _ => match m with
                      | Some a => column colname (al_values a)
                      | None => None
                      end)
            r.

(** Lines 567-602, one turn of the loop over walk, bike and drive. *)
Definition merge_access_links (cfg : Config) (mode_list : list Z)
    (df : AccessDF) (cost_accegr_df : list CostRow) : Result (list CostRow) :=
  if Z.of_nat (List.length (acc_rows df)) =? 0 then Ok cost_accegr_df
  else
    let link_df := map (format_access_row cfg) (acc_rows df) in
    py_assert (Z.of_nat (List.length
                 (filter (fun a => al_A_id_num a <? 0) link_df)) =? 0) ;;
    Ok (map (fun p => fold_left (use_access_column mode_list (snd p))
                                (link_numeric_columns df) (fst p))
            (merge_left access_on cost_accegr_df link_df)).

Definition time_target_is (s : string) (t : option TripRow) : bool :=
  opt_str_eqb (option_map t_time_target t) s.

Definition is_weight (s : string) (r : CostRow) : bool :=
  (weight_name (cr_weight r) =? s)%string.

(** The rows a [preferred_delay_min] assignment selects. *)
Definition delay_mask (lmode target : string) (r : CostRow)
    (t : option TripRow) : bool :=
  is_weight "preferred_delay_min" r &&
  (linkmode r =? lmode)%string &&
  time_target_is target t.

(** Lines 615-628: the four assignments of preferred_delay_min. *)
Definition delay_access_arrival (p : CostRow * option TripRow) :=
  loc_set2 (delay_mask STATE_MODE_ACCESS "arrival") (fun _ _ => Some 0%Q) p.

Definition delay_egress_arrival (p : CostRow * option TripRow) :=
  loc_set2 (delay_mask STATE_MODE_EGRESS "arrival")
           (fun r t => opt_minutes (option_map t_arrival_time t)
                                   (Some (pf_B_time r)))
           p.

Definition delay_access_departure (p : CostRow * option TripRow) :=
  loc_set2 (delay_mask STATE_MODE_ACCESS "departure")
           (fun r t => opt_minutes (Some (pf_A_time r))
                                   (option_map t_departure_time t))
           p.

Definition delay_egress_departure (p : CostRow * option TripRow) :=
  loc_set2 (delay_mask STATE_MODE_EGRESS "departure") (fun _ _ => Some 0%Q) p.

Definition preferred_delay (p : CostRow * option TripRow)
  : CostRow * option TripRow :=
  delay_egress_departure
    (delay_access_departure (delay_egress_arrival (delay_access_arrival p))).

(** Lines 553-628: [cost_accegr_df] with its resolved [var_value] and the
    trip's departure, arrival and time target. *)
Definition cost_accegr_df (cfg : Config) (rows : list CostRow)
    (trip_list_df : list TripRow) (walk_df drive_df : AccessDF)
  : Result (list (CostRow * option TripRow)) :=
  rows <- merge_access_links cfg (WALK_MODE_NUMS cfg) walk_df rows ;;
  rows <- merge_access_links cfg (DRIVE_MODE_NUMS cfg) drive_df rows ;;
  Ok (map preferred_delay
          (merge_left (fun (r : CostRow) t => trip_on r t) rows trip_list_df)).

(** *** Transit links *)

(** Lines 645-646: which over-capacity column is used. *)
Definition overcap_col (cfg : Config) (cols : LinkColumns) (l : LinkRow)
  : option Q :=
  if MSA_RESULTS cfg && has_msa_overcap cols then msa_overcap l else overcap l.

(** Lines 649-653: the [at_capacity] column. *)
Definition at_capacity (cfg : Config) (cols : LinkColumns) (l : LinkRow) : Q :=
  let at_cap := 0%Q in
  if has_bumpstop_boarded cols then
    if ge0 (overcap_col cfg cols l) && ne1 (bumpstop_boarded l)
    then 1%Q else at_cap
  else
    if ge0 (overcap_col cfg cols l) then 1%Q else at_cap.

(** Lines 641-658. *)
Definition cost_trip_row (cfg : Config) (cols : LinkColumns) (r : CostRow)
  : CostRow :=
  let r := loc_set (is_weight "in_vehicle_time_min")
                   (fun r => opt_minutes (alight_time r) (board_time r)) r in
  let r := loc_set (is_weight "wait_time_min")
                   (fun r => opt_minutes (board_time r) (Some (pf_A_time r))) r in
  let r := loc_set (is_weight "at_capacity")
                   (fun r => Some (at_capacity cfg cols r)) r in
  let r := loc_set (is_weight "overcap")
                   (fun r => overcap_col cfg cols r) r in
  let r := loc_set (fun r => is_weight "overcap" r && lt0 (var_value r))
                   (fun _ => Some 0%Q) r in
  r.

Definition cost_trip_df (cfg : Config) (cols : LinkColumns)
    (rows : list CostRow) : list CostRow :=
  map (cost_trip_row cfg cols) rows.

(** *** Transfer links *)

Definition transfer_on (r : CostRow) (x : TransferRow) : bool :=
  (A_id_num r =? from_stop_num x) && (B_id_num r =? to_stop_num x).

(** The cell of a numeric column of [transfers_df] in a merged row; the two
    key columns are numeric columns too. *)
Definition transfer_column (cfg : Config) (colname : string)
    (x : option TransferRow) : option Q :=
  match x with
  | None => None
  | Some x =>
      if (colname =? TRANSFERS_COLUMN_FROM_STOP_NUM cfg)%string
      then Some (inject_Z (from_stop_num x))
      else if (colname =? TRANSFERS_COLUMN_TO_STOP_NUM cfg)%string
      then Some (inject_Z (to_stop_num x))
      else column colname (xf_values x)
  end.

(** Lines 680-682, one turn of the loop. *)
Definition use_transfer_column (cfg : Config)
    (p : CostRow * option TransferRow) (colname : string)
  : CostRow * option TransferRow :=
  loc_set2 (fun r _ => is_weight colname r)
           (fun _ x => transfer_column cfg colname x) p.

(** Lines 677-689 on a row of the merged frame: walk time, the loop over
    the numeric columns, zero-walk transfers, the default transfer
    penalty. *)
Definition transfer_walk_time (p : CostRow * option TransferRow) :=
  loc_set2 (fun r _ => is_weight "walk_time_min" r)
           (fun r _ => Some (minutes (pf_linktime r))) p.

Definition transfer_columns (cfg : Config) (numeric_columns : list string)
    (p : CostRow * option TransferRow) :=
  fold_left (use_transfer_column cfg) numeric_columns p.

Definition transfer_zero_walk (p : CostRow * option TransferRow) :=
  loc_set2 (fun r _ => negb (is_weight "transfer_penalty" r) &&
                       (A_id_num r =? B_id_num r))
           (fun _ _ => Some 0%Q) p.

Definition transfer_penalty_default (p : CostRow * option TransferRow) :=
  loc_set2 (fun r _ => is_weight "transfer_penalty" r && is_none (var_value r))
           (fun _ _ => Some 1%Q) p.

Definition cost_transfer_row (cfg : Config) (numeric_columns : list string)
    (p : CostRow * option TransferRow) : CostRow * option TransferRow :=
  transfer_penalty_default
    (transfer_zero_walk
       (transfer_columns cfg numeric_columns (transfer_walk_time p))).

(** Lines 672-689. *)
Definition cost_transfer_df (cfg : Config) (rows : list CostRow)
    (transfers_df : TransfersDF) : list (CostRow * option TransferRow) :=
  map (cost_transfer_row cfg (xf_numeric_columns transfers_df))
      (merge_left transfer_on rows (xf_rows transfers_df)).

(** *** Link and path costs *)

Definition missing (rows : list CostRow) : list CostRow :=
  filter (fun r => is_none (var_value r)) rows.

(** Lines 729-735: weight times variable, then the two overrides. *)
Definition link_cost (r : CostRow) : option Q :=
  let c := option_map (fun v => (v * weight_value (cr_weight r))%Q)
                      (var_value r) in
  let c := if missed_xfer r =? 1 then Some (inject_Z HUGE_COST) else c in
  let c := if 0 <=? lc_bump_iter r then Some (inject_Z HUGE_COST) else c in
  c.

(** Lines 737-749: [cost_link_df]. *)
Definition cost_link_df (costs : list CostRow) : list (key3 * option Q) :=
  groupby_sum key3_eqb key3_leb Qplus 0%Q
              (fun r : CostRow => link_key r) link_cost
              (sort_values (fun a b : CostRow => key3_leb (link_key a) (link_key b))
                           costs).

(** Lines 761-762: [cost_path_df]. *)
Definition cost_path_df (link_costs : list (key3 * option Q))
  : list (key2 * option Q) :=
  groupby_sum key2_eqb key2_leb Qplus 0%Q
              (fun p : key3 * option Q => fst (fst p)) snd link_costs.

(** Lines 752-757: the link frame that is returned. *)
Definition links_with_cost (pathset_links_df : list LinkRow)
    (link_costs : list (key3 * option Q)) : list (LinkRow * option Q) :=
  map (fun p => (fst p, merged_value (snd p)))
      (merge_left (fun l (c : key3 * option Q) => key3_eqb (link_key l) (fst c))
                  pathset_links_df link_costs).

(** Lines 765-769. *)
Definition paths_with_cost (pathset_paths_df : list PathRow)
    (path_costs : list (key2 * option Q)) : list (PathRow * option Q) :=
  map (fun p => (fst p, merged_value (snd p)))
      (merge_left (fun l (c : key2 * option Q) => key2_eqb (path_key l) (fst c))
                  pathset_paths_df path_costs).

(** *** Logsum and probabilities *)

(** [numpy.exp] in float64.  The exponential is rounded to 0.0 when it is
    at most 2^-1075, half the least positive float64, and to infinity when
    it reaches 2^1024 - 2^970, the middle between the largest float64 and
    2^1024. *)
Definition underflow_bound : R := (/ 2 ^ 1075)%R.
Definition overflow_bound : R := (2 ^ 1024 - 2 ^ 970)%R.

Definition numpy_exp (x : Q) : float64 :=
  let y := exp (Q2R x) in
  if Rle_dec y underflow_bound then Finite 0
  else if Rle_dec overflow_bound y then Infinity
  else Finite y.

(** Line 772; the exponential of a NaN cost is NaN. *)
Definition logsum_component_of (STOCH_DISPERSION : Q) (cost : option Q)
  : option float64 :=
  option_map (fun c => numpy_exp (-1 * STOCH_DISPERSION * c)) cost.

(** The sum of two weights. *)
Definition float64_add (a b : float64) : float64 :=
  match a, b with
  | Finite x, Finite y => Finite (x + y)
  | _, _ => Infinity
  end.

(** Line 775: [pathset_logsum_df]. *)
Definition pathset_logsum_df
    (paths : list (PathRow * option Q * option float64))
  : list (Z * option float64) :=
  groupby_sum Z.eqb Z.leb float64_add (Finite 0)
              (fun p : PathRow * option Q * option float64 =>
                 p_trip_list_id_num (fst (fst p)))
              snd paths.

(** Line 780, the quotient of two columns of numbers that are not negative:
    0.0/0.0 and infinity/infinity are NaN, a number that is not zero over
    0.0 is infinity, a finite number over infinity is 0.0. *)
Definition divide (a b : option float64) : option float64 :=
  match a, b with
  | Some (Finite x), Some (Finite y) =>
      if Req_EM_T y 0
      then if Req_EM_T x 0 then None else Some Infinity
      else Some (Finite (x / y))
  | Some (Finite _), Some Infinity => Some (Finite 0)
  | Some Infinity, Some (Finite _) => Some Infinity
  | Some Infinity, Some Infinity => None
  | _, _ => None
  end.

(** Lines 772-780: the path frame that is returned. *)
Definition paths_with_probability (STOCH_DISPERSION : Q)
    (paths : list (PathRow * option Q)) : list (PathRow * SimPathCols) :=
  let with_component :=
    map (fun p => (p, logsum_component_of STOCH_DISPERSION (snd p))) paths in
  let logsums := pathset_logsum_df with_component in
  map (fun p =>
         let '(row, cost, component) := fst p in
         let logsum := merged_value (snd p) in
         (row, {| sim_cost         := cost;
                  logsum_component := component;
                  logsum           := logsum;
                  probability      := divide component logsum |}))
      (merge_left (fun (l : PathRow * option Q * option float64)
                       (s : Z * option float64) =>
                     p_trip_list_id_num (fst (fst l)) =? fst s)
                  with_component logsums).

(** Lines 546-724: the three resolved frames, and the frame they are put
    back into once none of them misses a [var_value]. *)
Definition resolved_cost_df (cfg : Config) (cols : LinkColumns)
    (costs : list CostRow) (trip_list_df : list TripRow)
    (transfers_df : TransfersDF) (walk_df drive_df : AccessDF)
  : Result (list CostRow) :=
  accegr <- cost_accegr_df cfg (filter is_accegr costs) trip_list_df
                           walk_df drive_df ;;
  let accegr := map fst accegr in
  let trip := cost_trip_df cfg cols (filter is_trip costs) in
  let transfer :=
    map fst (cost_transfer_df cfg (filter is_transfer costs) transfers_df) in
  if 0 <? Z.of_nat (List.length (missing accegr))
          + Z.of_nat (List.length (missing trip))
          + Z.of_nat (List.length (missing transfer))
  then Raised (NotImplementedError "Missing var_values; See log")
  else Ok (accegr ++ trip ++ transfer)%list.

(** Lines 491-724: the cost frame, one row per link and weight, every
    [var_value] resolved. *)
Definition final_cost_df (cfg : Config) (weights : list NumWeightRow)
    (cols : LinkColumns) (simulation_iteration : Z)
    (pathset_links_df : list LinkRow) (trip_list_df : list TripRow)
    (transfers_df : TransfersDF) (walk_df drive_df : AccessDF)
  : Result (list CostRow) :=
  links <- pathset_links_cost_df simulation_iteration pathset_links_df
                                 trip_list_df ;;
  resolved_cost_df cfg cols (cost_df links weights) trip_list_df
                   transfers_df walk_df drive_df.

(** [calculate_cost(iteration, simulation_iteration, STOCH_DISPERSION,
    pathset_paths_df, pathset_links_df, trip_list_df, transfers_df, walk_df,
    drive_df)], for the weight table [weights] the class holds.  The block
    under [if False and ...] never runs. *)
Definition calculate_cost (cfg : Config) (weights : list NumWeightRow)
    (cols : LinkColumns) (iteration simulation_iteration : Z)
    (STOCH_DISPERSION : Q) (frames : PathsetFrames)
    (trip_list_df : list TripRow) (transfers_df : TransfersDF)
    (walk_df drive_df : AccessDF) : Result PathsetFrames :=
  let pathset_paths_df := fst (drop_sim_columns frames) in
  let pathset_links_df := snd (drop_sim_columns frames) in
  costs <- final_cost_df cfg weights cols simulation_iteration
                         pathset_links_df trip_list_df transfers_df
                         walk_df drive_df ;;
  let link_costs := cost_link_df costs in
  let path_costs := cost_path_df link_costs in
  Ok (Costed (paths_with_probability STOCH_DISPERSION
                (paths_with_cost pathset_paths_df path_costs))
             (links_with_cost pathset_links_df link_costs)).

End PathSet.

Import PathSet.

(* ================================================================== *)
(** * Predicates used in the statements *)

(** The "at_capacity" rows of a (traveler class, demand mode, supply mode)
    triple, and the transit rows of the triple. *)
Definition at_capacity_for (uc dm sm : string) (w : WeightRow) : bool :=
  (is_at_capacity w && (user_class w =? uc) && (demand_mode w =? dm) &&
   (supply_mode w =? sm))%string.

Definition transit_for (uc dm sm : string) (w : WeightRow) : bool :=
  (is_transit w && (user_class w =? uc) && (demand_mode w =? dm) &&
   (supply_mode w =? sm))%string.

(** The order on (user_class, demand_mode_type, demand_mode, numeric supply
    mode, weight_name); a missing number sorts last. *)
Definition num_compare (a b : option Z) : comparison :=
  match a, b with
  | Some x, Some y => x ?= y
  | Some _, None => Lt
  | None, Some _ => Gt
  | None, None => Eq
  end.

Definition num_weight_compare (a b : NumWeightRow) : comparison :=
  lex (String.compare (user_class a) (user_class b))
 (lex (String.compare (demand_mode_type a) (demand_mode_type b))
 (lex (String.compare (demand_mode a) (demand_mode b))
 (lex (num_compare (supply_mode_num a) (supply_mode_num b))
      (String.compare (weight_name a) (weight_name b))))).

Definition num_weight_leb (a b : NumWeightRow) : bool :=
  not_gt (num_weight_compare a b).

(** The cells of a row of the weights file. *)
Definition weights_file_row (routes : list (string * Z)) (w : WeightRow)
  : list Cell :=
  [ CStr (user_class w); CStr (demand_mode_type w); CStr (demand_mode w);
    num_cell (lookup (supply_mode w) routes); CStr (weight_name w);
    CFloat (weight_value w) ].

(** The traveler is recorded as one who boarded at a bump stop. *)
Definition lucky_boarder (cols : LinkColumns) (l : LinkRow) : bool :=
  has_bumpstop_boarded cols && negb (ne1 (bumpstop_boarded l)).

(** The link is penalised in the cost computation: it missed a transfer,
    or its bump iteration, which is reset to -1 when
    [simulation_iteration] is 0, is not negative. *)
Definition penalised (simulation_iteration : Z) (l : LinkRow) : bool :=
  (missed_xfer l =? 1) ||
  (negb (simulation_iteration =? 0) && (0 <=? bump_iter l)).

(** The rows of the cost frame that belong to a link. *)
Definition rows_of_link (costs : list CostRow) (l : LinkRow) : list CostRow :=
  filter (fun r : CostRow => key3_eqb (link_key l) (link_key r)) costs.

(** The cost columns of the returned frames, row by row. *)
Definition link_sim_cost (costs : list CostRow) (l : LinkRow) : option Q :=
  nansum Qplus 0%Q (map link_cost (rows_of_link costs l)).

Definition path_sim_cost (costs : list CostRow) (p : PathRow) : option Q :=
  group_sum key2_eqb Qplus 0%Q
            (fun g : key3 * option Q => fst (fst g)) snd
            (cost_link_df costs) (path_key p).

Definition paths_of_trip (trip : Z) (paths : list PathRow) : list PathRow :=
  filter (fun p => trip =? p_trip_list_id_num p) paths.

Definition trip_logsum (STOCH_DISPERSION : Q) (costs : list CostRow)
    (paths : list PathRow) (trip : Z) : option float64 :=
  nansum float64_add (Finite 0)
         (map (fun p => logsum_component_of STOCH_DISPERSION
                                            (path_sim_cost costs p))
              (paths_of_trip trip paths)).

Definition path_columns (STOCH_DISPERSION : Q) (costs : list CostRow)
    (paths : list PathRow) (p : PathRow) : SimPathCols :=
  let component :=
    logsum_component_of STOCH_DISPERSION (path_sim_cost costs p) in
  let logsum :=
    trip_logsum STOCH_DISPERSION costs paths (p_trip_list_id_num p) in
  {| sim_cost         := path_sim_cost costs p;
     logsum_component := component;
     logsum           := logsum;
     probability      := divide component logsum |}.

(** The cell the transfer table gives to a variable in a merged row: the
    cell of the numeric column of that name, when there is one. *)
Definition transfer_table_value (cfg : Config) (transfers_df : TransfersDF)
    (colname : string) (x : option TransferRow) : option Q :=
  if existsb (String.eqb colname) (xf_numeric_columns transfers_df)
  then transfer_column cfg colname x
  else None.

(** What a call and a fresh object show of a path set's paths. *)
Definition observed (self : PathSet.t) : bool * Z :=
  (path_found self, num_paths self).

(* ================================================================== *)
(** * Example data *)

Module Examples.

Definition weight (uc dmt dm sm wn : string) (v : Q) : WeightRow :=
  {| user_class := uc; demand_mode_type := dmt; demand_mode := dm;
     supply_mode := sm; weight_name := wn; weight_value := v |}.

(** A weights file in the order a user wrote it. *)
Definition weights0 : list WeightRow :=
  [ weight "all" "transit" "transit" "local_bus" "wait_time_min" (1 # 2);
    weight "all" "transit" "transit" "local_bus" "in_vehicle_time_min" (1 # 4);
    weight "all" "transfer" "transfer" "transfer" "walk_time_min" 1;
    weight "all" "transfer" "transfer" "transfer" "transfer_penalty" 1;
    weight "all" "access" "walk" "walk_access" "time_min" 1;
    weight "all" "egress" "walk" "walk_egress" "time_min" 1;
    weight "all" "egress" "walk" "walk_egress" "preferred_delay_min" (1 # 10) ].

Definition modes0 : list ModeRow :=
  [ {| m_user_class := "all"; m_demand_mode_type := "access";
       m_demand_mode := "walk" |};
    {| m_user_class := "all"; m_demand_mode_type := "egress";
       m_demand_mode := "walk" |};
    {| m_user_class := "all"; m_demand_mode_type := "transit";
       m_demand_mode := "transit" |} ].

Definition routes0 : list (string * Z) :=
  [ ("walk_access", 1); ("transfer", 2); ("local_bus", 3); ("walk_egress", 4) ].

(** A weights file that sets "at_capacity" by hand. *)
Definition weights1 : list WeightRow :=
  weight "all" "transit" "transit" "local_bus" "at_capacity" 5 :: weights0.

(** Two transit supply modes whose names and numbers order differently. *)
Definition weights2 : list WeightRow :=
  [ weight "all" "transit" "transit" "local_bus" "in_vehicle_time_min" 1;
    weight "all" "transit" "transit" "express_bus" "in_vehicle_time_min" 1;
    weight "all" "transfer" "transfer" "transfer" "walk_time_min" 1 ].

Definition modes2 : list ModeRow :=
  [ {| m_user_class := "all"; m_demand_mode_type := "transit";
       m_demand_mode := "transit" |} ].

Definition routes2 : list (string * Z) :=
  [ ("transfer", 2); ("local_bus", 3); ("express_bus", 7) ].

Definition trip_dict0 : TripListDict :=
  {| tl_time_target := "arrival";
     tl_arrival_time := 32400000000000; tl_arrival_time_min := 540;
     tl_departure_time := 27600000000000; tl_departure_time_min := 460;
     tl_o_taz := "100"; tl_d_taz := "200"; tl_other := [] |}.

Definition path_entry0 : PathEntry :=
  {| pf_cost := 1; pf_probability := 1; states := [] |}.

(** A path set in which the search found one path. *)
Definition pathset0 : PathSet.t :=
  {| trip_attrs := trip_dict0; direction := DIR_OUTBOUND;
     pref_time := time_of_day (tl_arrival_time trip_dict0);
     pref_time_min := tl_arrival_time_min trip_dict0;
     pathdict := PyDict [(0, path_entry0)] |}.

(** One traveler, "p1", with two trips.  Trip 1 has two paths: path 0
    boards two buses with a transfer at one stop and misses the transfer,
    path 1 rides one bus.  Trip 2 has one path. *)
Definition cfg0 : Config :=
  {| WALK_MODE_NUMS := [1; 4]; DRIVE_MODE_NUMS := [5; 6];
     ACCESS_MODE_NUMS := [1; 5]; EGRESS_MODE_NUMS := [4; 6];
     MSA_RESULTS := false;
     TRANSFERS_COLUMN_FROM_STOP_NUM := "from_stop_id_num";
     TRANSFERS_COLUMN_TO_STOP_NUM := "to_stop_id_num" |}.

Definition cols0 : LinkColumns :=
  {| has_msa_overcap := false; has_bumpstop_boarded := true |}.

Definition numbered0 : list NumWeightRow :=
  add_numeric_mode_id routes0
    (weights0 ++
     [ weight "all" "transit" "transit" "local_bus" "at_capacity" 9999;
       weight "all" "transit" "transit" "local_bus" "overcap" 2 ]).

(** Minutes after midnight, as nanoseconds. *)
Definition at_min (m : Z) : Z := m * 60000000000.

Definition link (trip path num : Z) (lmode smode : string) (A B : Z)
    (tA tB : Z) (board alight : option Z) (over : option Q) (missed : Z)
  : LinkRow :=
  {| person_id := "p1"; trip_list_id_num := trip; pathnum := path;
     linknum := num; linkmode := lmode; mode := smode;
     A_id_num := A; B_id_num := B;
     pf_A_time := at_min tA; pf_B_time := at_min tB;
     pf_linktime := at_min (tB - tA);
     board_time := option_map at_min board;
     alight_time := option_map at_min alight;
     overcap := over; msa_overcap := None; bumpstop_boarded := None;
     missed_xfer := missed; bump_iter := -1 |}.

Definition bus_missed : LinkRow :=
  link 1 0 1 "transit" "local_bus" 10 11 475 500 (Some 480) (Some 500)
       (Some (-3)%Q) 1.

Definition bus_full : LinkRow :=
  link 1 0 3 "transit" "local_bus" 11 12 500 520 (Some 505) (Some 520)
       (Some 2%Q) 0.

Definition transfer_at_stop : LinkRow :=
  link 1 0 2 "transfer" "transfer" 11 11 500 500 None None None 0.

Definition egress_early : LinkRow :=
  link 1 0 4 "egress" "walk_egress" 12 200 520 523 None None None 0.

Definition access_late : LinkRow :=
  link 2 0 0 "access" "walk_access" 200 12 1020 1023 None None None 0.

Definition links0 : list LinkRow :=
  [ link 1 0 0 "access" "walk_access" 100 10 470 475 None None None 0;
    bus_missed;
    transfer_at_stop;
    bus_full;
    egress_early;
    link 1 1 0 "access" "walk_access" 100 10 480 485 None None None 0;
    link 1 1 1 "transit" "local_bus" 10 12 485 525 (Some 490) (Some 525)
         (Some (-1)%Q) 0;
    link 1 1 2 "egress" "walk_egress" 12 200 525 528 None None None 0;
    access_late;
    link 2 0 1 "transit" "local_bus" 12 10 1023 1060 (Some 1030) (Some 1060)
         (Some (-5)%Q) 0;
    link 2 0 2 "egress" "walk_egress" 10 100 1060 1065 None None None 0 ].

Definition path (trip num : Z) : PathRow :=
  {| p_person_id := "p1"; p_trip_list_id_num := trip; p_pathnum := num;
     p_pf_cost := 1; p_pf_probability := 1 |}.

Definition paths0 : list PathRow := [ path 1 0; path 1 1; path 2 0 ].

Definition trip (num : Z) (target : string) (departure arrival : Z) : TripRow :=
  {| t_person_id := "p1"; t_trip_list_id_num := num; t_user_class := "all";
     t_purpose := "work"; t_access_mode := "walk"; t_egress_mode := "walk";
     t_transit_mode := "transit";
     t_departure_time := at_min departure; t_arrival_time := at_min arrival;
     t_time_target := target |}.

Definition trip1 : TripRow := trip 1 "arrival" 460 540.
Definition trip2 : TripRow := trip 2 "departure" 1015 1080.

Definition trips0 : list TripRow := [ trip1; trip2 ].

Definition walk0 : AccessDF :=
  {| acc_numeric_columns := ["time_min"];
     acc_rows :=
       [ {| taz_num := 100; stop_num := 10; acc_supply_mode_num := 1;
            acc_values := [("time_min", Some 5%Q)] |};
         {| taz_num := 200; stop_num := 12; acc_supply_mode_num := 1;
            acc_values := [("time_min", Some 3%Q)] |};
         {| taz_num := 200; stop_num := 12; acc_supply_mode_num := 4;
            acc_values := [("time_min", Some 3%Q)] |};
         {| taz_num := 100; stop_num := 10; acc_supply_mode_num := 4;
            acc_values := [("time_min", Some 5%Q)] |} ] |}.

Definition drive0 : AccessDF :=
  {| acc_numeric_columns := []; acc_rows := [] |}.

Definition transfers0 : TransfersDF :=
  {| xf_numeric_columns := ["from_stop_id_num"; "to_stop_id_num"; "dist"];
     xf_rows :=
       [ {| from_stop_num := 10; to_stop_num := 11;
            xf_values := [("dist", Some (1 # 5))] |} ] |}.

(** The frames of the steps of [calculate_cost] on this input; a step that
    raises leaves an empty frame. *)
Definition frame {A : Type} (r : Result (list A)) : list A :=
  match r with
  | Ok rows => rows
  | Raised _ => []
  end.

Definition costs0 : list CostRow :=
  cost_df (frame (pathset_links_cost_df 0 links0 trips0)) numbered0.

Definition accegr0 : list CostRow := filter is_accegr costs0.
Definition trip_rows0 : list CostRow := filter is_trip costs0.
Definition transfer_rows0 : list CostRow := filter is_transfer costs0.

(** The row of [cost_df] of a link of [links0] and a weight. *)
Definition cost_row (l : LinkRow) (t : TripRow) (dmt dm sm wn : string)
    (v : Q) (num : Z) : CostRow :=
  {| cr_link := set_bump_iter (-1) (link_cost_row (l, Some t));
     cr_weight := {| w_row := weight "all" dmt dm sm wn v;
                     supply_mode_num := Some num |};
     var_value := None |}.

Definition bus_missed_ivt : CostRow :=
  cost_row bus_missed trip1 "transit" "transit" "local_bus"
           "in_vehicle_time_min" (1 # 4) 3.

Definition bus_missed_wait : CostRow :=
  cost_row bus_missed trip1 "transit" "transit" "local_bus"
           "wait_time_min" (1 # 2) 3.

Definition bus_full_at_capacity : CostRow :=
  cost_row bus_full trip1 "transit" "transit" "local_bus" "at_capacity" 9999 3.

Definition bus_missed_overcap : CostRow :=
  cost_row bus_missed trip1 "transit" "transit" "local_bus" "overcap" 2 3.

Definition walk_time_at_stop : CostRow :=
  cost_row transfer_at_stop trip1 "transfer" "transfer" "transfer"
           "walk_time_min" 1 2.

Definition penalty_at_stop : CostRow :=
  cost_row transfer_at_stop trip1 "transfer" "transfer" "transfer"
           "transfer_penalty" 1 2.

Definition egress_delay : CostRow :=
  cost_row egress_early trip1 "egress" "walk" "walk_egress"
           "preferred_delay_min" (1 # 10) 4.

(** The frames [calculate_cost] returns on this input, in the first
    simulation iteration and with dispersion 1. *)
Definition final0 : list CostRow :=
  frame (final_cost_df cfg0 numbered0 cols0 0 links0 trips0 transfers0
                       walk0 drive0).

Definition returned0 : PathsetFrames :=
  Costed (paths_with_probability 1
            (paths_with_cost paths0 (cost_path_df (cost_link_df final0))))
         (links_with_cost links0 (cost_link_df final0)).

(** The path set as its constructor leaves it. *)
Definition fresh0 : PathSet.t :=
  {| trip_attrs := trip_dict0; direction := DIR_OUTBOUND;
     pref_time := time_of_day (tl_arrival_time trip_dict0);
     pref_time_min := tl_arrival_time_min trip_dict0;
     pathdict := PyDict [] |}.

End Examples.

(* ================================================================== *)
(** * Coverage of the demand by the weight table *)

(** Every combination of the demand has a weight row. *)
Definition demand_covered (modes_df : list ModeRow)
    (weights : list WeightRow) : bool :=
  forallb (fun m => existsb (modes_on m) weights) modes_df.

(** The transfer rows every user class needs. *)
Definition transfer_key (m : ModeRow) : string * string * string * string :=
  (m_user_class m, "transfer", "transfer", "transfer").

Definition transfer_covered (modes_df : list ModeRow)
    (weights : list WeightRow) : bool :=
  forallb (fun m => existsb (implicit_on (transfer_key m)) weights) modes_df.

(** The link mode is one of the four the cost computation knows. *)
Definition known_linkmode (l : LinkRow) : bool :=
  ((linkmode l =? STATE_MODE_ACCESS) || (linkmode l =? STATE_MODE_EGRESS) ||
   (linkmode l =? STATE_MODE_TRIP) || (linkmode l =? STATE_MODE_TRANSFER))%string.

(** Two rows of the cost frame of the same link and weight. *)
Definition same_match (r r0 : CostRow) : Prop :=
  cr_link r = cr_link r0 /\ cr_weight r = cr_weight r0.

(** The weight names the transit stage resolves. *)
Definition transit_weight_name (name : string) : bool :=
  ((name =? "in_vehicle_time_min") || (name =? "wait_time_min") ||
   (name =? "at_capacity") || (name =? "overcap"))%string.

(** The weighted value of a row of the cost frame, without overrides. *)
Definition weighted_value (r : CostRow) : option Q :=
  option_map (fun v => (v * weight_value (cr_weight r))%Q) (var_value r).

(** The rows of a traveler-trip in the returned path frame, the
    probabilities they hold, and the number of them that have a cost. *)
Definition returned_trip (trip : Z) (paths' : list (PathRow * SimPathCols))
  : list (PathRow * SimPathCols) :=
  filter (fun ps => trip =? p_trip_list_id_num (fst ps)) paths'.

(** The finite numbers of a list of float64. *)
Definition is_finite (w : float64) : bool :=
  match w with
  | Finite _ => true
  | Infinity => false
  end.

Definition finite_values (l : list float64) : list R :=
  flat_map (fun w => match w with
                     | Finite x => [x]
                     | Infinity => []
                     end) l.

Definition probabilities (rows : list (PathRow * SimPathCols)) : list R :=
  finite_values (present (map (fun ps => probability (snd ps)) rows)).

Definition costed_paths (rows : list (PathRow * SimPathCols)) : nat :=
  List.length (filter (fun ps => is_some (sim_cost (snd ps))) rows).

Definition sumR (l : list R) : R := fold_right Rplus 0%R l.

(** What a turn of the loop over the access tables does with a row of the
    cost frame: whether the table [df] is used for the row's weight, the
    row of the table that the merge pairs the row with, and the cell it
    reads. *)
Definition access_table_uses (mode_list : list Z) (df : AccessDF)
    (r : CostRow) : bool :=
  negb (Z.of_nat (List.length (acc_rows df)) =? 0) &&
  existsb (String.eqb (weight_name (cr_weight r))) (acc_numeric_columns df) &&
  negb (is_join_column (weight_name (cr_weight r))) &&
  opt_isin (supply_mode_num (cr_weight r)) mode_list.

Definition access_match (cfg : Config) (df : AccessDF) (r : CostRow)
    (m : option AccessLink) : Prop :=
  match m with
  | Some a => In a (map (format_access_row cfg) (acc_rows df)) /\
              access_on r a = true
  | None => forall a, In a (acc_rows df) ->
                      access_on r (format_access_row cfg a) = false
  end.

Definition access_cell (m : option AccessLink) (r : CostRow) : option Q :=
  match m with
  | Some a => column (weight_name (cr_weight r)) (al_values a)
  | None => None
  end.

(** The rows of a path in the returned link frame. *)
Definition returned_links (p : PathRow) (links' : list (LinkRow * option Q))
  : list (LinkRow * option Q) :=
  filter (fun ls => key2_eqb (path_key p) (fst (link_key (fst ls)))) links'.

(** Two costs that may be missing are the same rational. *)
Definition same_cost (a b : option Q) : Prop :=
  match a, b with
  | Some x, Some y => (x == y)%Q
  | None, None => True
  | _, _ => False
  end.

(** The cost of the rows of the cost frame that have the link key [k]. *)
Definition key_cost (costs : list CostRow) (k : key3) : option Q :=
  nansum Qplus 0%Q
         (map link_cost
              (filter (fun r : CostRow => key3_eqb k (link_key r)) costs)).

(** The unnormalised weights of the paths of a trip that have a cost. *)
Definition trip_components (STOCH_DISPERSION : Q) (costs : list CostRow)
    (paths : list PathRow) (trip : Z) : list float64 :=
  present (map (fun p => logsum_component_of STOCH_DISPERSION
                                             (path_sim_cost costs p))
               (paths_of_trip trip paths)).

Module MoreExamples.

(** A demand with a bike access mode the weights of [Examples.weights0] do
    not know, and a user class without transfer weights. *)
Definition bike : ModeRow :=
  {| m_user_class := "all"; m_demand_mode_type := "access";
     m_demand_mode := "bike" |}.

Definition student : ModeRow :=
  {| m_user_class := "student"; m_demand_mode_type := "transit";
     m_demand_mode := "transit" |}.

Definition student_bus : WeightRow :=
  Examples.weight "student" "transit" "transit" "local_bus"
                  "in_vehicle_time_min" 1.

Definition departure_dict : TripListDict :=
  {| tl_time_target := "departure";
     tl_arrival_time := 32400000000000; tl_arrival_time_min := 540;
     tl_departure_time := 27600000000000; tl_departure_time_min := 460;
     tl_o_taz := "100"; tl_d_taz := "200"; tl_other := [] |}.

(** A link of a trip the trip list does not have, and a link of a mode
    that is none of access, egress, transit and transfer. *)
Definition stray_link : LinkRow :=
  Examples.link 3 0 0 "access" "walk_access" 100 10 470 475 None None None 0.

Definition odd_link : LinkRow :=
  Examples.link 1 0 5 "ferry" "ferry" 12 13 520 530 None None None 0.

(** A transit weight the transit stage has no value for. *)
Definition crowding : NumWeightRow :=
  {| w_row := Examples.weight "all" "transit" "transit" "local_bus"
                              "crowding" 3;
     supply_mode_num := Some 3 |}.

Definition access_walk : LinkRow :=
  Examples.link 1 0 0 "access" "walk_access" 100 10 470 475 None None None 0.

(** A walk table with a row of a supply mode that is neither an access nor
    an egress mode of [Examples.cfg0]. *)
Definition odd_access : AccessRow :=
  {| taz_num := 100; stop_num := 10; acc_supply_mode_num := 9;
     acc_values := [("time_min", Some 5%Q)] |}.

(** Trip 1 of [Examples.links0] with its first path alone, which misses a
    transfer, and with both its paths when the bus of the second path is
    missed too. *)
Definition missed_paths : list PathRow := [Examples.path 1 0].

Definition missed_links : list LinkRow :=
  [ Examples.link 1 0 0 "access" "walk_access" 100 10 470 475
                  None None None 0;
    Examples.bus_missed;
    Examples.transfer_at_stop;
    Examples.bus_full;
    Examples.egress_early ].

Definition missed_final : list CostRow :=
  Examples.frame (final_cost_df Examples.cfg0 Examples.numbered0
                                Examples.cols0 0 missed_links Examples.trips0
                                Examples.transfers0 Examples.walk0
                                Examples.drive0).




(** The trip list of [Examples.trips0] when the traveler of trip 2 is of a
    user class that the weights do not have. *)
Definition student_trip : TripRow :=
  {| t_person_id := "p1"; t_trip_list_id_num := 2; t_user_class := "student";
     t_purpose := "work"; t_access_mode := "walk"; t_egress_mode := "walk";
     t_transit_mode := "transit";
     t_departure_time := Examples.at_min 1015;
     t_arrival_time := Examples.at_min 1080;
     t_time_target := "departure" |}.

Definition student_trips : list TripRow := [Examples.trip1; student_trip].

Definition student_final : list CostRow :=
  Examples.frame (final_cost_df Examples.cfg0 Examples.numbered0
                                Examples.cols0 0 Examples.links0
                                student_trips Examples.transfers0
                                Examples.walk0 Examples.drive0).

(** A transfer on foot between two stops that the transfer table of
    [Examples.transfers0] knows. *)
Definition transfer_walk : LinkRow :=
  Examples.link 1 0 2 "transfer" "transfer" 10 11 500 504 None None None 0.

Definition stops_10_11 : TransferRow :=
  {| from_stop_num := 10; to_stop_num := 11;
     xf_values := [("dist", Some (1 # 5))] |}.

Definition odd_walk : AccessDF :=
  {| acc_numeric_columns := ["time_min"];
     acc_rows := (acc_rows Examples.walk0 ++ [odd_access])%list |}.

End MoreExamples.

(* ================================================================== *)
(** * The files of the assigned paths and of the experienced times *)

Definition PATHS_OUTPUT_FILE := "ft_output_passengerPaths.txt".
Definition PATH_TIMES_OUTPUT_FILE := "ft_output_passengerTimes.txt".

(** A row of [passengers_df], a link of an assigned path, with the columns
    [write_paths] and [write_path_times] read.  The person and the trip
    number are the group keys; a stop, the path mode or the trip of the
    vehicle may be missing and a time may be NaT; every link has its link
    time. *)
Record PassengerLink : Type := {
  pl_person_id        : string;
  pl_trip_list_id_num : Z;
  pl_linkmode         : string;
  pl_pathmode         : option string;
  pl_A_id             : option string;
  pl_B_id             : option string;
  pl_trip_id          : option string;
  pl_A_time           : option Z;
  pl_B_time           : option Z;
  pl_linktime         : Z;
  pl_board_time       : option Z;
  pl_alight_time      : option Z
}.

(** The key of [groupby([person_id, trip_list_id_num])]. *)
Definition traveler_trip : Type := string * Z.

Definition pl_key (r : PassengerLink) : traveler_trip :=
  (pl_person_id r, pl_trip_list_id_num r).

Definition traveler_trip_eqb (a b : traveler_trip) : bool :=
  (fst a =? fst b)%string && (snd a =? snd b).

Definition traveler_trip_leb (a b : traveler_trip) : bool :=
  not_gt (lex (String.compare (fst a) (fst b)) (snd a ?= snd b)).

(** The groups of a frame: their keys, ascending, and the rows of a group,
    in the order of the frame. *)
Definition group_keys (df : list PassengerLink) : list traveler_trip :=
  sort_values traveler_trip_leb
              (drop_duplicates traveler_trip_eqb (map pl_key df)).

Definition group_rows (df : list PassengerLink) (k : traveler_trip)
  : list PassengerLink :=
  filter (fun r => traveler_trip_eqb k (pl_key r)) df.

(** The aggregations 'first' and 'last': the first and the last value of
    the group that is not null. *)
Definition first_valid {V : Type} (l : list (option V)) : option V :=
  hd_error (present l).

Definition last_valid {V : Type} (l : list (option V)) : option V :=
  hd_error (rev (present l)).

(** [apply(lambda x: ','.join(x))] on a column of formatted times. *)
Definition joined (formatter : option Z -> string)
    (col : PassengerLink -> option Z) (rows : list PassengerLink) : string :=
  String.concat "," (map (fun r => formatter (col r)) rows).

(** A row of [pax_exp_df] once the three series are concatenated to it. *)
Record TimesRow : Type := {
  tr_person_id        : string;
  tr_trip_list_id_num : Z;
  tr_A_id             : option string;
  tr_B_id             : option string;
  tr_A_time           : option Z;
  tr_B_time           : option Z;
  board_time_str      : string;
  arrival_time_str    : string;
  alight_time_str     : string
}.

Definition tr_key (r : TimesRow) : traveler_trip :=
  (tr_person_id r, tr_trip_list_id_num r).

Definition is_transit_link (r : PassengerLink) : bool :=
  (pl_linkmode r =? STATE_MODE_TRIP)%string.

(** The row of the group [k]: the aggregates over all its links and the
    joined times of its transit links. *)
Definition times_row (formatter : option Z -> string)
    (passengers_df : list PassengerLink) (k : traveler_trip) : TimesRow :=
  let group := group_rows passengers_df k in
  let passenger_trips := filter is_transit_link group in
  {| tr_person_id        := fst k;
     tr_trip_list_id_num := snd k;
     tr_A_id             := first_valid (map pl_A_id group);
     tr_B_id             := last_valid (map pl_B_id group);
     tr_A_time           := first_valid (map pl_A_time group);
     tr_B_time           := last_valid (map pl_B_time group);
     board_time_str      := joined formatter pl_board_time passenger_trips;
     arrival_time_str    := joined formatter pl_A_time passenger_trips;
     alight_time_str     := joined formatter pl_alight_time passenger_trips |}.

Definition opt_str_cell (o : option string) : Cell :=
  match o with
  | Some s => CStr s
  | None => CNaN
  end.

(** The columns of the file, renamed and reordered. *)
Definition times_columns (formatter : option Z -> string)
  : list (string * (TimesRow -> Cell)) :=
  [ ("trip_list_id_num", fun r => CInt (tr_trip_list_id_num r));
    ("person_id",        fun r => CStr (tr_person_id r));
    ("originTaz",        fun r => opt_str_cell (tr_A_id r));
    ("destinationTaz",   fun r => opt_str_cell (tr_B_id r));
    ("startTime",        fun r => CStr (formatter (tr_A_time r)));
    ("endTime",          fun r => CStr (formatter (tr_B_time r)));
    ("arrivalTimes",     fun r => CStr (arrival_time_str r));
    ("boardingTimes",    fun r => CStr (board_time_str r));
    ("alightingTimes",   fun r => CStr (alight_time_str r)) ].

Definition tab : string := String (ascii_of_nat 9) EmptyString.

(** [write_path_times(passengers_df, output_dir)].  [Util.datetime64_formatter]
    is the parameter [datetime64_formatter].  The sort on the one column
    trip_list_id_num is not a stable one, so the order it gives to rows of
    equal trip number is left to the parameter [sort_values_by_trip].  The
    index of the three series is the index of [pax_exp_df] when the
    assertion holds, so that the concat pairs the rows of equal key; the
    trace output goes to the log only. *)
Definition write_path_times (datetime64_formatter : option Z -> string)
    (sort_values_by_trip : list TimesRow -> list TimesRow)
    (passengers_df : list PassengerLink) : Result CsvFile :=
  let passenger_trips := filter is_transit_link passengers_df in
  let board_time_str := group_keys passenger_trips in
  let pax_exp_df := group_keys passengers_df in
  py_assert (Nat.eqb (List.length pax_exp_df) (List.length board_time_str)) ;;
  let pax_exp_df :=
    map (times_row datetime64_formatter passengers_df) pax_exp_df in
  let print_pax_exp_df := sort_values_by_trip pax_exp_df in
  Ok (to_csv print_pax_exp_df PATH_TIMES_OUTPUT_FILE
             (times_columns datetime64_formatter) tab true).

(** How [write_paths] ends: [','.join] raises TypeError on a cell that is
    not a string. *)
Inductive Written : Type :=
| File (f : CsvFile)
| TypeError.

Definition is_walk_link (r : PassengerLink) : bool :=
  ((pl_linkmode r =? STATE_MODE_ACCESS) ||
   (pl_linkmode r =? STATE_MODE_TRANSFER) ||
   (pl_linkmode r =? STATE_MODE_EGRESS))%string.

(** A transit link whose stops and vehicle trip are strings. *)
Definition joinable (r : PassengerLink) : bool :=
  is_some (pl_A_id r) && is_some (pl_trip_id r) && is_some (pl_B_id r).

(** A series of joined strings, at a key: the value of the group, and NaN
    after the concat when the series has no such group. *)
Definition series_at {V : Type} (render : V -> string)
    (rows : list V) : option string :=
  match rows with
  | [] => None
  | _ => Some (String.concat "," (map render rows))
  end.

Definition str_of (o : option string) : string :=
  match o with
  | Some s => s
  | None => ""
  end.

(** A row of [print_passengers_df] after the concat. *)
Record PathsRow : Type := {
  pr_person_id        : string;
  pr_trip_list_id_num : Z;
  pr_pathmode         : option string;
  pr_A_id             : option string;
  pr_B_id             : option string;
  pr_A_time           : option Z;
  board_stop_str      : option string;
  board_trip_str      : option string;
  alight_stop_str     : option string;
  linktime_str        : option string
}.

Definition pr_key (r : PathsRow) : traveler_trip :=
  (pr_person_id r, pr_trip_list_id_num r).

Definition paths_row (linktime_formatter : Z -> string)
    (passengers_df : list PassengerLink) (k : traveler_trip) : PathsRow :=
  let group := group_rows passengers_df k in
  let passenger_trips := filter is_transit_link group in
  let walk_links := filter is_walk_link group in
  {| pr_person_id        := fst k;
     pr_trip_list_id_num := snd k;
     pr_pathmode         := first_valid (map pl_pathmode group);
     pr_A_id             := first_valid (map pl_A_id group);
     pr_B_id             := last_valid (map pl_B_id group);
     pr_A_time           := first_valid (map pl_A_time group);
     board_stop_str      := series_at (fun r => str_of (pl_A_id r))
                                      passenger_trips;
     board_trip_str      := series_at (fun r => str_of (pl_trip_id r))
                                      passenger_trips;
     alight_stop_str     := series_at (fun r => str_of (pl_B_id r))
                                      passenger_trips;
     linktime_str        := series_at (fun r => linktime_formatter
                                                  (pl_linktime r))
                                      walk_links |}.

Definition paths_columns (formatter : option Z -> string)
  : list (string * (PathsRow -> Cell)) :=
  [ ("trip_list_id_num", fun r => CInt (pr_trip_list_id_num r));
    ("person_id",        fun r => CStr (pr_person_id r));
    ("mode",             fun r => opt_str_cell (pr_pathmode r));
    ("originTaz",        fun r => opt_str_cell (pr_A_id r));
    ("destinationTaz",   fun r => opt_str_cell (pr_B_id r));
    ("startTime",        fun r => CStr (formatter (pr_A_time r)));
    ("boardingStops",    fun r => opt_str_cell (board_stop_str r));
    ("boardingTrips",    fun r => opt_str_cell (board_trip_str r));
    ("alightingStops",   fun r => opt_str_cell (alight_stop_str r));
    ("walkingTimes",     fun r => opt_str_cell (linktime_str r)) ].

(** [write_paths(passengers_df, output_dir)].  [Util.datetime64_formatter]
    is the parameter [datetime64_formatter]; the rendering ["%.2f"] of the
    minutes of a link time is the parameter [linktime_formatter]; the sort on
    the one column trip_list_id_num is the parameter [sort_values_by_trip],
    as in [write_path_times].  The concat keeps every key of the aggregated
    frame and leaves NaN where a series has no group of that key. *)
Definition write_paths (datetime64_formatter : option Z -> string)
    (linktime_formatter : Z -> string)
    (sort_values_by_trip : list PathsRow -> list PathsRow)
    (passengers_df : list PassengerLink) : Written :=
  let passenger_trips := filter is_transit_link passengers_df in
  if forallb joinable passenger_trips then
    let print_passengers_df :=
      map (paths_row linktime_formatter passengers_df)
          (group_keys passengers_df) in
    let print_passengers_df := sort_values_by_trip print_passengers_df in
    File (to_csv print_passengers_df PATHS_OUTPUT_FILE
                 (paths_columns datetime64_formatter) tab true)
  else TypeError.

(** The order the file of the paths is sorted in. *)
Definition path_trip_le (a b : PathsRow) : Prop :=
  pr_trip_list_id_num a <= pr_trip_list_id_num b.

(** Every traveler-trip of the frame has a transit link. *)
Definition every_trip_rides (passengers_df : list PassengerLink) : bool :=
  forallb (fun r => existsb (fun r' => traveler_trip_eqb (pl_key r) (pl_key r')
                                       && is_transit_link r')
                            passengers_df)
          passengers_df.

(** The order the file is sorted in. *)
Definition trip_le (a b : TimesRow) : Prop :=
  tr_trip_list_id_num a <= tr_trip_list_id_num b.

Module OutputExamples.

(** The links of two travelers: "p1" rides one bus on trip 1, "p2" rides
    two on trip 2; "p3" walks all of trip 3. *)
Definition pax (person : string) (trip : Z) (lmode : string)
    (A B : string) (vehicle : option string) (tA tB : Z)
    (board alight : option Z) : PassengerLink :=
  {| pl_person_id := person; pl_trip_list_id_num := trip;
     pl_linkmode := lmode; pl_pathmode := Some "walk-transit-walk";
     pl_A_id := Some A; pl_B_id := Some B; pl_trip_id := vehicle;
     pl_A_time := Some tA; pl_B_time := Some tB; pl_linktime := tB - tA;
     pl_board_time := board; pl_alight_time := alight |}.

Definition passengers0 : list PassengerLink :=
  [ pax "p2" 2 "access" "z2" "s3" None 600 605 None None;
    pax "p2" 2 "transit" "s3" "s4" (Some "bus7") 605 620 (Some 607) (Some 620);
    pax "p1" 1 "access" "z1" "s1" None 470 475 None None;
    pax "p1" 1 "transit" "s1" "s2" (Some "bus5") 475 500 (Some 480) (Some 500);
    pax "p2" 2 "transfer" "s4" "s4" None 620 620 None None;
    pax "p1" 1 "egress" "s2" "z9" None 500 505 None None;
    pax "p2" 2 "transit" "s4" "s5" (Some "bus9") 620 640 (Some 625) (Some 640);
    pax "p2" 2 "egress" "s5" "z8" None 640 643 None None ].

(** A traveler who walks all of trip 3. *)
Definition walker : PassengerLink :=
  pax "p3" 3 "access" "z1" "z2" None 700 720 None None.

(** A formatter that tells a time from NaT, and a stable sort. *)
Definition formatter0 (t : option Z) : string :=
  match t with
  | Some _ => "time"
  | None => ""
  end.

Definition sort0 : list TimesRow -> list TimesRow :=
  sort_values (fun a b => tr_trip_list_id_num a <=? tr_trip_list_id_num b).

(** A rendering of link times that tells no link time from another, and a
    stable sort of the rows of the paths. *)
Definition minutes0 (t : Z) : string := "min".

Definition sort1 : list PathsRow -> list PathsRow :=
  sort_values (fun a b => pr_trip_list_id_num a <=? pr_trip_list_id_num b).

End OutputExamples.

(* ================================================================== *)
(** * Facts about frames *)

Section FilterFacts.
Context {A : Type}.

Lemma filter_Permutation (f : A -> bool) (l l' : list A) :
  Permutation l l' -> Permutation (filter f l) (filter f l').
Proof.
  induction 1 as [| x l l' _ IH | x y l | l l' l'' _ IH1 _ IH2]; simpl.
  - constructor.
  - destruct (f x); auto.
  - destruct (f x), (f y); auto using perm_swap.
  - eauto using Permutation_trans.
Qed.

Lemma filter_filter_comm (f g : A -> bool) (l : list A) :
  filter f (filter g l) = filter g (filter f l).
Proof.
  induction l as [| x l IH]; simpl; [reflexivity|].
  destruct (f x) eqn:Ef, (g x) eqn:Eg; simpl; rewrite ?Ef, ?Eg, IH; reflexivity.
Qed.

Lemma filter_nil_iff (f : A -> bool) (l : list A) :
  filter f l = [] <-> existsb f l = false.
Proof.
  induction l as [| x l IH]; simpl; [tauto|].
  destruct (f x); simpl; [split; discriminate | exact IH].
Qed.

Lemma length_filter_pos_iff (f : A -> bool) (l : list A) :
  (0 <? Z.of_nat (List.length (filter f l))) = existsb f l.
Proof.
  induction l as [| x l IH]; simpl; [reflexivity|].
  destruct (f x); simpl; [| exact IH].
  apply Z.ltb_lt. lia.
Qed.
End FilterFacts.

Lemma existsb_map {A B : Type} (f : B -> bool) (g : A -> B) (l : list A) :
  existsb f (map g l) = existsb (fun x => f (g x)) l.
Proof.
  induction l as [| x l IH]; simpl; [reflexivity | rewrite IH; reflexivity].
Qed.

Section SortFacts.
Context {A : Type} (leb : A -> A -> bool).
Hypothesis leb_total : forall a b, leb a b = true \/ leb b a = true.

Lemma insert_sorted_Permutation (x : A) (l : list A) :
  Permutation (x :: l) (insert_sorted leb x l).
Proof.
  induction l as [| y l IH]; simpl; [auto|].
  destruct (leb x y); [auto|].
  eapply perm_trans; [apply perm_swap | auto].
Qed.

Lemma sort_values_Permutation (l : list A) :
  Permutation l (sort_values leb l).
Proof.
  induction l as [| x l IH]; simpl; [auto|].
  eapply perm_trans; [| apply insert_sorted_Permutation]. auto.
Qed.

Lemma insert_sorted_Sorted (x : A) (l : list A) :
  Sorted (fun a b => leb a b = true) l ->
  Sorted (fun a b => leb a b = true) (insert_sorted leb x l).
Proof.
  induction 1 as [| y l Hs IH Hd]; simpl; [auto|].
  destruct (leb x y) eqn:E.
  - auto.
  - constructor; [exact IH|].
    destruct (leb_total x y) as [Hxy | Hyx]; [congruence|].
    destruct Hd as [| z l Hyz]; simpl; [auto|].
    destruct (leb x z); auto.
Qed.

Lemma sort_values_Sorted (l : list A) :
  Sorted (fun a b => leb a b = true) (sort_values leb l).
Proof.
  induction l as [| x l IH]; simpl; [auto | apply insert_sorted_Sorted, IH].
Qed.
End SortFacts.

Section KeyFacts.
Context {K : Type} (keqb : K -> K -> bool) (kleb : K -> K -> bool).
Hypothesis keqb_eq : forall a b, keqb a b = true <-> a = b.

Lemma keqb_refl (k : K) : keqb k k = true.
Proof. apply keqb_eq. reflexivity. Qed.

Lemma filter_key_all (k : K) (l : list K) :
  filter (keqb k) l = repeat k (List.length (filter (keqb k) l)).
Proof.
  induction l as [| x l IH]; simpl; [reflexivity|].
  destruct (keqb k x) eqn:E; simpl; [| exact IH].
  apply keqb_eq in E. subst x. f_equal. exact IH.
Qed.

(** A key occurs once in [drop_duplicates] when it occurs at all. *)
Lemma drop_duplicates_count (k : K) (l : list K) :
  List.length (filter (keqb k) (drop_duplicates keqb l))
  = if existsb (keqb k) l then 1%nat else 0%nat.
Proof.
  induction l as [| x l IH]; simpl; [reflexivity|].
  destruct (keqb k x) eqn:E; simpl.
  - apply keqb_eq in E. subst x. f_equal.
    apply length_zero_iff_nil, filter_nil_iff.
    apply not_true_is_false. intros Ex.
    apply existsb_exists in Ex. destruct Ex as (y & Hy & Hk).
    apply filter_In in Hy. destruct Hy as [_ Hy].
    rewrite Hk in Hy. discriminate.
  - rewrite <- IH. f_equal.
    rewrite filter_filter_comm.
    transitivity (filter (fun _ => true)
                         (filter (keqb k) (drop_duplicates keqb l)));
      [| apply filter_true].
    apply filter_ext_in. intros y Hy.
    apply filter_In in Hy. destruct Hy as [_ Hy].
    apply keqb_eq in Hy. subst y.
    destruct (keqb x k) eqn:E'; [| reflexivity].
    apply keqb_eq in E'. subst x. rewrite keqb_refl in E. discriminate.
Qed.

Lemma drop_duplicates_In (k : K) (l : list K) :
  In k (drop_duplicates keqb l) -> In k l.
Proof.
  induction l as [| x l IH]; simpl; [auto|].
  intros [-> | H]; [auto|].
  apply filter_In in H. right. apply IH, H.
Qed.

(** The keys of a group-by: each key of the frame, once. *)
Lemma group_keys_filter (k : K) (l : list K) :
  filter (keqb k) (sort_values kleb (drop_duplicates keqb l))
  = if existsb (keqb k) l then [k] else [].
Proof.
  rewrite filter_key_all.
  rewrite <- (Permutation_length
                (filter_Permutation (keqb k) _ _
                   (sort_values_Permutation kleb (drop_duplicates keqb l)))).
  rewrite drop_duplicates_count.
  destruct (existsb (keqb k) l); reflexivity.
Qed.

Context {V N : Type} (plus : N -> N -> N) (zero : N).
Context (key : V -> K) (val : V -> option N).

Lemma groupby_sum_filter (df : list V) (k : K) :
  filter (fun g => keqb k (fst g))
         (groupby_sum keqb kleb plus zero key val df)
  = if existsb (fun r => keqb k (key r)) df
    then [(k, group_sum keqb plus zero key val df k)] else [].
Proof.
  unfold groupby_sum.
  rewrite filter_map_swap. simpl. rewrite group_keys_filter.
  rewrite existsb_map.
  destruct (existsb _ df); reflexivity.
Qed.

(** A left merge with the result of a group-by keeps the left frame row
    by row. *)
Lemma merge_left_groupby {L : Type} (lkey : L -> K) (left : list L)
      (df : list V) :
  map (fun p => (fst p, merged_value (snd p)))
      (merge_left (fun l (g : K * option N) => keqb (lkey l) (fst g)) left
                  (groupby_sum keqb kleb plus zero key val df))
  = map (fun l => (l, if existsb (fun r => keqb (lkey l) (key r)) df
                      then group_sum keqb plus zero key val df (lkey l)
                  else None))
        left.
Proof.
  unfold merge_left.
  induction left as [| l left IH]; simpl; [reflexivity|].
  rewrite map_app, IH. clear IH.
  unfold left_matches at 1.
  rewrite groupby_sum_filter.
  destruct (existsb _ df); reflexivity.
Qed.
End KeyFacts.

Lemma existsb_filter {A : Type} (f g : A -> bool) (l : list A) :
  existsb f (filter g l) = existsb (fun x => g x && f x) l.
Proof.
  induction l as [| x l IH]; simpl; [reflexivity|].
  destruct (g x); simpl; rewrite IH; reflexivity.
Qed.

Lemma existsb_ext {A : Type} (f g : A -> bool) (l : list A) :
  (forall x, f x = g x) -> existsb f l = existsb g l.
Proof.
  intros H. induction l as [| x l IH]; simpl; [reflexivity|].
  rewrite H, IH. reflexivity.
Qed.

Lemma key4_eqb_eq (a b : string * string * string * string) :
  key4_eqb a b = true <-> a = b.
Proof.
  destruct a as [[[a1 a2] a3] a4], b as [[[b1 b2] b3] b4]. simpl.
  rewrite !andb_true_iff, !String.eqb_eq.
  split; [intros [[[-> ->] ->] ->]; reflexivity | intros H; inversion H; auto].
Qed.

Lemma key2_eqb_eq (a b : key2) : key2_eqb a b = true <-> a = b.
Proof.
  destruct a as [a1 a2], b as [b1 b2]. unfold key2_eqb. simpl.
  rewrite andb_true_iff, !Z.eqb_eq.
  split; [intros [-> ->]; reflexivity | intros H; inversion H; auto].
Qed.

Lemma key3_eqb_eq (a b : key3) : key3_eqb a b = true <-> a = b.
Proof.
  destruct a as [a12 a3], b as [b12 b3]. unfold key3_eqb. simpl.
  rewrite andb_true_iff, key2_eqb_eq, Z.eqb_eq.
  split; [intros [-> ->]; reflexivity | intros H; inversion H; auto].
Qed.

(* ================================================================== *)
(** * The weight table is sorted on a total order *)

Lemma lex_antisym (c c' k k' : comparison) :
  c' = CompOpp c -> k' = CompOpp k -> lex c' k' = CompOpp (lex c k).
Proof. intros -> ->. destruct c; reflexivity. Qed.

Lemma weight_compare_antisym (a b : WeightRow) :
  weight_compare b a = CompOpp (weight_compare a b).
Proof.
  unfold weight_compare.
  repeat apply lex_antisym; apply String.compare_antisym.
Qed.

Lemma weight_leb_total (a b : WeightRow) :
  weight_leb a b = true \/ weight_leb b a = true.
Proof.
  unfold weight_leb. rewrite (weight_compare_antisym a b).
  destruct (weight_compare a b); simpl; auto.
Qed.

(* ================================================================== *)
(** * The PathSet object *)

(** C10.  [reset] keeps the record and its direction, preferred time and
    trip attributes; afterwards [path_found] is false and [num_paths] is 0,
    which is what a freshly constructed PathSet shows, although [pathdict]
    now is an empty list and not an empty dict. *)
Theorem reset_keeps_record_clears_paths (self : PathSet.t) :
  trip_attrs (reset self) = trip_attrs self /\
  direction (reset self) = direction self /\
  pref_time (reset self) = pref_time self /\
  pref_time_min (reset self) = pref_time_min self /\
  pathdict (reset self) = PyList [] /\
  path_found (reset self) = false /\
  num_paths (reset self) = 0 /\
  (forall trip_list_dict fresh,
      __init__ trip_list_dict = Ok fresh ->
      pathdict fresh = PyDict [] /\ observed (reset self) = observed fresh).
Proof.
  repeat split; try reflexivity.
  - unfold __init__ in H.
    destruct (_ =? _)%string; [| destruct (_ =? _)%string];
      inversion H; reflexivity.
  - unfold __init__ in H.
    destruct (_ =? _)%string; [| destruct (_ =? _)%string];
      inversion H; reflexivity.
Qed.

Lemma reset_keeps_record_clears_paths_witness :
  __init__ Examples.trip_dict0 = Ok Examples.fresh0 /\
  pathdict Examples.fresh0 = PyDict [] /\
  observed (reset Examples.pathset0) = observed Examples.fresh0.
Proof.
  split; [reflexivity|].
  destruct (reset_keeps_record_clears_paths Examples.pathset0)
    as (_ & _ & _ & _ & _ & _ & _ & H).
  apply (H Examples.trip_dict0). reflexivity.
Defined.

(* ================================================================== *)
(** * verify_weight_config *)

(** Whatever the outcome, the class is left with the weight table of the
    capacity-constraint block. *)
Lemma verify_weight_config_table weights modes_df routes capacity_constraint :
  weight_rows (fst (verify_weight_config weights modes_df routes
                                         capacity_constraint))
  = fst (apply_capacity_constraint weights capacity_constraint).
Proof.
  unfold verify_weight_config.
  destruct (apply_capacity_constraint weights capacity_constraint)
    as [weights' error3].
  destruct (0 <? _); simpl; [reflexivity|].
  unfold add_numeric_mode_id. rewrite map_map. simpl. apply map_id.
Qed.

Lemma transit_keys_transit weights k :
  In k (drop_duplicates key4_eqb (map transit_key (filter is_transit weights))) ->
  exists w, In w weights /\ is_transit w = true /\ k = transit_key w.
Proof.
  intros H. apply drop_duplicates_In in H.
  apply in_map_iff in H. destruct H as (w & <- & Hw).
  apply filter_In in Hw. destruct Hw as [Hw Ht]. eauto.
Qed.

Lemma transit_weights_df_In weights w :
  In w (transit_weights_df weights) ->
  is_at_capacity w = true /\ is_transit w = true /\
  weight_value w = inject_Z HUGE_COST.
Proof.
  unfold transit_weights_df. intros H.
  apply in_map_iff in H. destruct H as (k & <- & Hk).
  apply transit_keys_transit in Hk. destruct Hk as (w & _ & Ht & ->).
  unfold transit_key, at_capacity_row, is_at_capacity, is_transit in *.
  simpl. auto.
Qed.

(** One synthesized row for a triple that has a transit row, none for a
    triple that has none. *)
Lemma transit_weights_df_count weights uc dm sm :
  List.length (filter (at_capacity_for uc dm sm) (transit_weights_df weights))
  = if existsb (transit_for uc dm sm) weights then 1%nat else 0%nat.
Proof.
  unfold transit_weights_df.
  rewrite filter_map_swap, length_map.
  rewrite (filter_ext_in _ (key4_eqb (uc, dm, STATE_MODE_TRIP, sm))).
  - rewrite (drop_duplicates_count key4_eqb key4_eqb_eq).
    rewrite existsb_map, existsb_filter.
    rewrite (existsb_ext _ (transit_for uc dm sm)); [reflexivity|].
    intros w. unfold transit_for, transit_key, is_transit. simpl.
    rewrite (String.eqb_sym uc), (String.eqb_sym dm), (String.eqb_sym sm).
    destruct (demand_mode_type w =? STATE_MODE_TRIP)%string eqn:E; simpl;
      [| reflexivity].
    apply String.eqb_eq in E. rewrite E. simpl.
    rewrite andb_true_r. reflexivity.
  - intros k Hk. apply transit_keys_transit in Hk.
    destruct Hk as (w & _ & Ht & ->).
    unfold is_transit in Ht. apply String.eqb_eq in Ht.
    unfold at_capacity_for, transit_key, at_capacity_row, is_at_capacity.
    simpl. rewrite Ht. simpl.
    rewrite (String.eqb_sym uc), (String.eqb_sym dm), (String.eqb_sym sm).
    rewrite andb_true_r. reflexivity.
Qed.

(** C1.  With [capacity_constraint] true: when the weight table holds an
    "at_capacity" row the call ends in [sys.exit(2)]; otherwise the table
    becomes the old rows and one "at_capacity" row of value [HUGE_COST] for
    each (traveler class, demand mode, supply mode) triple that has a
    transit row, sorted by (user_class, demand_mode_type, demand_mode,
    supply_mode, weight_name). *)
Theorem verify_weight_config_capacity_constraint
    (weights : list WeightRow) (modes_df : list ModeRow)
    (routes : list (string * Z)) :
  let result := verify_weight_config weights modes_df routes true in
  let table := weight_rows (fst result) in
  (existsb is_at_capacity weights = true ->
     exists error_str,
       snd result = SysExit 2 error_str /\
       In (ExplicitAtCapacity (filter is_at_capacity weights)) error_str) /\
  (existsb is_at_capacity weights = false ->
     Permutation (weights ++ transit_weights_df weights) table /\
     Sorted (fun a b => weight_leb a b = true) table /\
     (forall uc dm sm,
         List.length (filter (at_capacity_for uc dm sm) table)
         = if existsb (transit_for uc dm sm) weights then 1%nat else 0%nat) /\
     (forall w, In w table -> is_at_capacity w = true ->
                is_transit w = true /\ weight_value w = inject_Z HUGE_COST)).
Proof.
  intros result table. split; intros Hcap.
  - subst result. unfold verify_weight_config, apply_capacity_constraint.
    rewrite length_filter_pos_iff, Hcap.
    match goal with
    | |- context [0 <? Z.of_nat (List.length ?e)] =>
        assert (Hpos : (0 <? Z.of_nat (List.length e)) = true)
    end.
    { apply Z.ltb_lt. rewrite !length_app. simpl. lia. }
    rewrite Hpos. simpl. eexists. split; [reflexivity|].
    apply in_or_app. right. apply in_or_app. right. left. reflexivity.
  - assert (Htable : table
                     = sort_values weight_leb
                                   (weights ++ transit_weights_df weights)).
    { subst table result. rewrite verify_weight_config_table.
      unfold apply_capacity_constraint.
      rewrite length_filter_pos_iff, Hcap. reflexivity. }
    assert (Hperm : Permutation (weights ++ transit_weights_df weights) table).
    { rewrite Htable. apply sort_values_Permutation. }
    assert (Hnone : forall w, In w weights -> is_at_capacity w = false).
    { intros w Hw. destruct (is_at_capacity w) eqn:E; [| reflexivity].
      assert (existsb is_at_capacity weights = true)
        by (apply existsb_exists; eauto).
      congruence. }
    repeat split.
    + exact Hperm.
    + rewrite Htable. apply sort_values_Sorted, weight_leb_total.
    + intros uc dm sm.
      rewrite <- (Permutation_length
                    (filter_Permutation (at_capacity_for uc dm sm) _ _ Hperm)).
      rewrite filter_app, length_app, transit_weights_df_count.
      replace (filter (at_capacity_for uc dm sm) weights) with (@nil WeightRow);
        [reflexivity|].
      symmetry. apply filter_nil_iff.
      apply not_true_is_false. intros Ex.
      apply existsb_exists in Ex. destruct Ex as (w & Hw & Hp).
      unfold at_capacity_for in Hp. rewrite (Hnone w Hw) in Hp. discriminate.
    + apply (Permutation_in _ (Permutation_sym Hperm)) in H.
      apply in_app_or in H. destruct H as [H | H].
      * rewrite (Hnone w H) in H0. discriminate.
      * apply transit_weights_df_In in H. tauto.
    + apply (Permutation_in _ (Permutation_sym Hperm)) in H.
      apply in_app_or in H. destruct H as [H | H].
      * rewrite (Hnone w H) in H0. discriminate.
      * apply transit_weights_df_In in H. tauto.
Qed.

Lemma verify_weight_config_capacity_constraint_witness :
  (exists error_str,
      snd (verify_weight_config Examples.weights1 Examples.modes0
                                Examples.routes0 true)
      = SysExit 2 error_str /\
      In (ExplicitAtCapacity (filter is_at_capacity Examples.weights1))
         error_str) /\
  (let table :=
     weight_rows (fst (verify_weight_config Examples.weights0 Examples.modes0
                                            Examples.routes0 true)) in
   Permutation (Examples.weights0 ++ transit_weights_df Examples.weights0)
               table /\
   Sorted (fun a b => weight_leb a b = true) table /\
   (forall uc dm sm,
       List.length (filter (at_capacity_for uc dm sm) table)
       = if existsb (transit_for uc dm sm) Examples.weights0
         then 1%nat else 0%nat) /\
   (forall w, In w table -> is_at_capacity w = true ->
              is_transit w = true /\ weight_value w = inject_Z HUGE_COST)).
Proof.
  split.
  - apply (verify_weight_config_capacity_constraint
             Examples.weights1 Examples.modes0 Examples.routes0).
    reflexivity.
  - apply (verify_weight_config_capacity_constraint
             Examples.weights0 Examples.modes0 Examples.routes0).
    reflexivity.
Defined.

Lemma Sorted_inv_head {A : Type} (R : A -> A -> Prop) (a b : A) (l : list A) :
  Sorted R (a :: b :: l) -> R a b.
Proof.
  intros H. apply Sorted_inv in H. destruct H as [_ H].
  inversion H. assumption.
Qed.

(** C9, as stated, fails: the file starts with a header line, and its rows
    are in weight-table order: the order of the weights file when the
    capacity constraint is off, and sorted on the supply mode's name, not
    its number, when it is on. *)
Lemma weights_file_headerless_sorted_counterexample :
  (exists numbered f,
      verify_weight_config Examples.weights0 Examples.modes0 Examples.routes0
                           false
      = (Numbered numbered, Returned f) /\
      csv_header f <> None /\
      hd_error (csv_lines (fun _ => "") f)
      = Some "user_class demand_mode_type demand_mode supply_mode_num weight_name weight_value" /\
      ~ Sorted (fun a b => num_weight_leb a b = true) numbered) /\
  (exists numbered f,
      verify_weight_config Examples.weights2 Examples.modes2 Examples.routes2
                           true
      = (Numbered numbered, Returned f) /\
      ~ Sorted (fun a b => num_weight_leb a b = true) numbered).
Proof.
  split; do 2 eexists.
  - split; [reflexivity|]. split; [discriminate|]. split; [reflexivity|].
    intros H. apply Sorted_inv_head in H. discriminate.
  - split; [reflexivity|].
    intros H. apply Sorted_inv in H. destruct H as [H _].
    apply Sorted_inv in H. destruct H as [H _].
    apply Sorted_inv_head in H. discriminate.
Qed.

(** C9, amended.  The weights file holds the six columns, the supply mode
    as its number, separated by one space, under a header line that names
    the columns; its rows are the rows of the weight table in the table's
    order, which is the configured order without the capacity constraint
    and the order of (user_class, demand_mode_type, demand_mode,
    supply_mode, weight_name) with it. *)
Theorem weights_file_contents (weights : list WeightRow)
    (modes_df : list ModeRow) (routes : list (string * Z))
    (capacity_constraint : bool) (f : CsvFile) :
  snd (verify_weight_config weights modes_df routes capacity_constraint)
  = Returned f ->
  let table := fst (apply_capacity_constraint weights capacity_constraint) in
  csv_name f = OUTPUT_WEIGHTS_FILE /\
  csv_sep f = " " /\
  csv_header f = Some ["user_class"; "demand_mode_type"; "demand_mode";
                       "supply_mode_num"; "weight_name"; "weight_value"] /\
  csv_rows f = map (weights_file_row routes) table /\
  (forall fmt,
      hd_error (csv_lines fmt f)
      = Some "user_class demand_mode_type demand_mode supply_mode_num weight_name weight_value") /\
  (capacity_constraint = false -> table = weights) /\
  (capacity_constraint = true ->
     table = sort_values weight_leb (weights ++ transit_weights_df weights) /\
     Sorted (fun a b => weight_leb a b = true) table).
Proof.
  intros H table. unfold verify_weight_config in H.
  destruct (apply_capacity_constraint weights capacity_constraint)
    as [weights' error3] eqn:Ecap.
  destruct (0 <? _) eqn:Elen; simpl in H; [discriminate|].
  injection H as <-. subst table. simpl.
  split; [reflexivity|]. split; [reflexivity|]. split; [reflexivity|].
  split; [| split; [reflexivity|]; split].
  - unfold add_numeric_mode_id. rewrite map_map. reflexivity.
  - intros ->. unfold apply_capacity_constraint in Ecap.
    injection Ecap as <- _. reflexivity.
  - intros ->. unfold apply_capacity_constraint in Ecap.
    destruct (0 <? Z.of_nat (List.length (filter is_at_capacity weights)));
      injection Ecap as <- <-.
    + exfalso. apply Z.ltb_ge in Elen. rewrite !length_app in Elen.
      simpl in Elen. lia.
    + split; [reflexivity|].
      apply sort_values_Sorted, weight_leb_total.
Qed.

Lemma weights_file_contents_witness :
  exists f,
    snd (verify_weight_config Examples.weights2 Examples.modes2
                              Examples.routes2 true) = Returned f /\
    csv_sep f = " " /\
    csv_rows f
    = map (weights_file_row Examples.routes2)
          (fst (apply_capacity_constraint Examples.weights2 true)).
Proof.
  eexists. split; [reflexivity|].
  destruct (weights_file_contents Examples.weights2 Examples.modes2
              Examples.routes2 true _ eq_refl) as (_ & H1 & _ & H2 & _).
  split; [exact H1 | exact H2].
Defined.

(* ================================================================== *)
(** * Variable values of the three link categories *)

(** An assignment to [var_value] leaves the other columns alone. *)
Lemma loc_set_frame mask value r :
  cr_link (loc_set mask value r) = cr_link r /\
  cr_weight (loc_set mask value r) = cr_weight r.
Proof. unfold loc_set. destruct (mask r); auto. Qed.

Ltac frame_step :=
  match goal with
  | |- context [loc_set ?m ?v ?r] =>
      let H1 := fresh in let H2 := fresh in
      destruct (loc_set_frame m v r) as [H1 H2];
      rewrite ?H1, ?H2; clear H1 H2
  end.

Lemma cost_trip_row_frame cfg cols r :
  cr_link (cost_trip_row cfg cols r) = cr_link r /\
  cr_weight (cost_trip_row cfg cols r) = cr_weight r.
Proof. unfold cost_trip_row. split; repeat frame_step; reflexivity. Qed.

(** C8.  On a transit link: "in_vehicle_time_min" is alight time minus
    board time in minutes; "wait_time_min" is board time minus the time of
    arrival at the stop in minutes; "at_capacity" is 1 when the
    over-capacity column is at least 0 and the traveler is not a recorded
    lucky boarder, and 0 otherwise; "overcap" is the over-capacity column,
    or 0 when that is negative. *)
Theorem transit_var_values (cfg : Config) (cols : LinkColumns)
    (rows : list CostRow) (r : CostRow) :
  In r (cost_trip_df cfg cols rows) ->
  (is_weight "in_vehicle_time_min" r = true ->
     forall alight board,
       alight_time r = Some alight -> board_time r = Some board ->
       var_value r = Some (minutes (alight - board))) /\
  (is_weight "wait_time_min" r = true ->
     forall board,
       board_time r = Some board ->
       var_value r = Some (minutes (board - pf_A_time r))) /\
  (is_weight "at_capacity" r = true ->
     var_value r
     = Some (if ge0 (overcap_col cfg cols r) && negb (lucky_boarder cols r)
             then 1 else 0)%Q) /\
  (is_weight "overcap" r = true ->
     forall over,
       overcap_col cfg cols r = Some over ->
       var_value r = Some (if Qle_bool 0 over then over else 0)%Q /\
       (0 <= (if Qle_bool 0 over then over else 0))%Q).
Proof.
  unfold cost_trip_df. intros Hin.
  apply in_map_iff in Hin. destruct Hin as (r0 & <- & _).
  destruct (cost_trip_row_frame cfg cols r0) as [Hl Hw].
  unfold is_weight. rewrite Hw, Hl.
  destruct r0 as [l w v]. simpl.
  unfold cost_trip_row, loc_set, is_weight. simpl.
  repeat split.
  - intros E a b Ha Hb. apply String.eqb_eq in E.
    repeat (rewrite E; simpl). rewrite Ha, Hb. reflexivity.
  - intros E b Hb. apply String.eqb_eq in E.
    repeat (rewrite E; simpl). rewrite Hb. reflexivity.
  - intros E. apply String.eqb_eq in E. repeat (rewrite E; simpl).
    unfold at_capacity, lucky_boarder.
    destruct (has_bumpstop_boarded cols); simpl.
    + rewrite negb_involutive. reflexivity.
    + rewrite andb_true_r. reflexivity.
  - apply String.eqb_eq in H. repeat (rewrite H; simpl). rewrite H0. simpl.
    destruct (Qle_bool 0 over); reflexivity.
  - destruct (Qle_bool 0 over) eqn:E; [apply Qle_bool_iff, E | apply Qle_refl].
Qed.

Ltac in_frame := vm_compute; repeat (try (left; reflexivity); right).

Lemma transit_var_values_witness :
  let frame := cost_trip_df Examples.cfg0 Examples.cols0 Examples.trip_rows0 in
  let row := cost_trip_row Examples.cfg0 Examples.cols0 in
  var_value (row Examples.bus_missed_ivt)
  = Some (minutes (Examples.at_min 500 - Examples.at_min 480)) /\
  var_value (row Examples.bus_missed_wait)
  = Some (minutes (Examples.at_min 480 - Examples.at_min 475)) /\
  var_value (row Examples.bus_full_at_capacity) = Some 1%Q /\
  var_value (row Examples.bus_missed_overcap) = Some 0%Q.
Proof.
  intros frame row.
  assert (H1 : In (row Examples.bus_missed_ivt) frame)
    by (apply in_map; in_frame).
  assert (H2 : In (row Examples.bus_missed_wait) frame)
    by (apply in_map; in_frame).
  assert (H3 : In (row Examples.bus_full_at_capacity) frame)
    by (apply in_map; in_frame).
  assert (H4 : In (row Examples.bus_missed_overcap) frame)
    by (apply in_map; in_frame).
  split; [| split; [| split]].
  - apply (proj1 (transit_var_values _ _ _ _ H1)); reflexivity.
  - apply (proj1 (proj2 (transit_var_values _ _ _ _ H2))); reflexivity.
  - apply (proj1 (proj2 (proj2 (transit_var_values _ _ _ _ H3)))).
    reflexivity.
  - apply (proj2 (proj2 (proj2 (transit_var_values _ _ _ _ H4)))
             eq_refl (-3)%Q).
    reflexivity.
Defined.

Lemma bind_Ok {A B : Type} (r : Result A) (k : A -> Result B) (b : B) :
  bind r k = Ok b -> exists a, r = Ok a /\ k a = Ok b.
Proof. destruct r as [a | e]; simpl; [eauto | discriminate]. Qed.

Lemma set_var_value_same (r : CostRow) : set_var_value (var_value r) r = r.
Proof. destruct r. reflexivity. Qed.

Lemma loc_set2_spec {X : Type} mask value (r : CostRow) (x : X) :
  loc_set2 mask value (r, x)
  = (set_var_value (if mask r x then value r x else var_value r) r, x).
Proof.
  unfold loc_set2. simpl.
  destruct (mask r x); [reflexivity | rewrite set_var_value_same; reflexivity].
Qed.

(** The four assignments in one: the value [preferred_delay] leaves on a
    row of weight "preferred_delay_min" whose trip was found. *)
Lemma preferred_delay_value (r : CostRow) (t : TripRow) :
  is_weight "preferred_delay_min" r = true ->
  var_value (fst (preferred_delay (r, Some t)))
  = if ((linkmode r =? STATE_MODE_EGRESS) &&
        (t_time_target t =? "departure"))%string then Some 0%Q
    else if ((linkmode r =? STATE_MODE_ACCESS) &&
             (t_time_target t =? "departure"))%string
    then Some (minutes (pf_A_time r - t_departure_time t))
    else if ((linkmode r =? STATE_MODE_EGRESS) &&
             (t_time_target t =? "arrival"))%string
    then Some (minutes (t_arrival_time t - pf_B_time r))
    else if ((linkmode r =? STATE_MODE_ACCESS) &&
             (t_time_target t =? "arrival"))%string then Some 0%Q
    else var_value r.
Proof.
  intros Hw.
  unfold preferred_delay, delay_egress_departure, delay_access_departure,
    delay_egress_arrival, delay_access_arrival.
  rewrite !loc_set2_spec.
  unfold delay_mask, is_weight, time_target_is in *.
  cbn [fst snd cr_link cr_weight var_value set_var_value option_map
       opt_str_eqb opt_minutes].
  rewrite Hw. cbn [andb]. reflexivity.
Qed.

Lemma preferred_delay_frame (p : CostRow * option TripRow) :
  cr_link (fst (preferred_delay p)) = cr_link (fst p) /\
  cr_weight (fst (preferred_delay p)) = cr_weight (fst p) /\
  snd (preferred_delay p) = snd p.
Proof.
  destruct p as [r t].
  unfold preferred_delay, delay_egress_departure, delay_access_departure,
    delay_egress_arrival, delay_access_arrival.
  rewrite !loc_set2_spec. auto.
Qed.

(** C2, amended.  On an access or egress row of weight
    "preferred_delay_min": when the time target is arrival, the egress value
    is the preferred arrival time minus the link's arrival time, in
    minutes, and the access value is 0; when the time target is departure,
    the access value is the link's departure time minus the preferred
    departure time, in minutes, and the egress value is 0. *)
Theorem preferred_delay_values (cfg : Config) (rows : list CostRow)
    (trip_list_df : list TripRow) (walk_df drive_df : AccessDF)
    (frame : list (CostRow * option TripRow)) :
  cost_accegr_df cfg rows trip_list_df walk_df drive_df = Ok frame ->
  forall r t,
    In (r, Some t) frame ->
    is_weight "preferred_delay_min" r = true ->
    (t_time_target t = "arrival" ->
       (linkmode r = STATE_MODE_EGRESS ->
          var_value r = Some (minutes (t_arrival_time t - pf_B_time r))) /\
       (linkmode r = STATE_MODE_ACCESS -> var_value r = Some 0%Q)) /\
    (t_time_target t = "departure" ->
       (linkmode r = STATE_MODE_ACCESS ->
          var_value r = Some (minutes (pf_A_time r - t_departure_time t))) /\
       (linkmode r = STATE_MODE_EGRESS -> var_value r = Some 0%Q)).
Proof.
  unfold cost_accegr_df. intros Hrun r t Hin Hw.
  apply bind_Ok in Hrun. destruct Hrun as (rows1 & _ & Hrun).
  apply bind_Ok in Hrun. destruct Hrun as (rows2 & _ & Hrun).
  injection Hrun as <-.
  apply in_map_iff in Hin. destruct Hin as ([r0 t0] & Heq & _).
  destruct (preferred_delay_frame (r0, t0)) as (Hl & Hwt & Ht).
  rewrite Heq in Hl, Hwt, Ht. cbn [fst snd] in Hl, Hwt, Ht. subst t0.
  unfold is_weight in Hw. rewrite Hwt in Hw.
  assert (Hv : var_value r = var_value (fst (preferred_delay (r0, Some t))))
    by (rewrite Heq; reflexivity).
  rewrite Hv, Hl, (preferred_delay_value r0 t Hw). clear.
  split; intros Htt; rewrite Htt; split; intros Hm; rewrite Hm; reflexivity.
Qed.

(** C2, as stated, fails: with an arrival time target the egress value is
    the preferred arrival time minus the link's arrival time, so a traveler
    who arrives 17 minutes early has a delay of 17, not of -17. *)
Lemma preferred_delay_sign_counterexample :
  exists frame r,
    cost_accegr_df Examples.cfg0 Examples.accegr0 Examples.trips0
                   Examples.walk0 Examples.drive0 = Ok frame /\
    In (r, Some Examples.trip1) frame /\
    is_weight "preferred_delay_min" r = true /\
    linkmode r = STATE_MODE_EGRESS /\
    t_time_target Examples.trip1 = "arrival" /\
    var_value r = Some (minutes (Examples.at_min 17)) /\
    var_value r
    <> Some (minutes (pf_B_time r - t_arrival_time Examples.trip1)).
Proof.
  eexists.
  exists (set_var_value (Some (minutes (Examples.at_min 17)))
                        Examples.egress_delay).
  split; [vm_compute; reflexivity|].
  split; [in_frame|].
  repeat split. vm_compute. discriminate.
Qed.

Lemma preferred_delay_values_witness :
  exists frame r,
    cost_accegr_df Examples.cfg0 Examples.accegr0 Examples.trips0
                   Examples.walk0 Examples.drive0 = Ok frame /\
    In (r, Some Examples.trip1) frame /\
    is_weight "preferred_delay_min" r = true /\
    var_value r
    = Some (minutes (t_arrival_time Examples.trip1 - pf_B_time r)).
Proof.
  eexists.
  exists (set_var_value (Some (minutes (Examples.at_min 17)))
                        Examples.egress_delay).
  assert (Hrun : cost_accegr_df Examples.cfg0 Examples.accegr0 Examples.trips0
                                Examples.walk0 Examples.drive0
                 = Ok (Examples.frame (cost_accegr_df Examples.cfg0 Examples.accegr0
                                Examples.trips0 Examples.walk0
                                Examples.drive0)))
    by (vm_compute; reflexivity).
  split; [exact Hrun|].
  assert (Hin : In (set_var_value (Some (minutes (Examples.at_min 17)))
                                  Examples.egress_delay,
                    Some Examples.trip1)
                   (Examples.frame (cost_accegr_df Examples.cfg0 Examples.accegr0
                             Examples.trips0 Examples.walk0 Examples.drive0)))
    by in_frame.
  split; [exact Hin|]. split; [reflexivity|].
  apply (proj1 (preferred_delay_values _ _ _ _ _ _ Hrun _ _ Hin eq_refl));
    reflexivity.
Defined.

Lemma merge_left_In {A B : Type} (on : A -> B -> bool) (left : list A)
      (right : list B) (a : A) (b : option B) :
  In (a, b) (merge_left on left right) -> In a left.
Proof.
  unfold merge_left. intros H.
  apply in_flat_map in H. destruct H as (a' & Ha' & H).
  unfold left_matches in H.
  destruct (filter (on a') right) as [| b' bs].
  - destruct H as [[= <- _] | []]. exact Ha'.
  - apply in_map_iff in H. destruct H as (y & [= <- _] & _). exact Ha'.
Qed.

Lemma cost_df_unset links weights (r : CostRow) :
  In r (cost_df links weights) -> var_value r = None.
Proof.
  unfold cost_df. intros H.
  apply in_map_iff in H. destruct H as (p & <- & _). reflexivity.
Qed.

(** The loop over the numeric columns of the transfer table, in one. *)
Lemma transfer_columns_spec cfg columns (r : CostRow) (x : option TransferRow) :
  transfer_columns cfg columns (r, x)
  = (set_var_value
       (if existsb (String.eqb (weight_name (cr_weight r))) columns
        then transfer_column cfg (weight_name (cr_weight r)) x
        else var_value r)
       r, x).
Proof.
  unfold transfer_columns. revert r.
  induction columns as [| c columns IH]; intros r; simpl.
  - rewrite set_var_value_same. reflexivity.
  - unfold use_transfer_column at 2. rewrite loc_set2_spec, IH.
    unfold is_weight. cbn [cr_weight set_var_value var_value cr_link].
    destruct (weight_name (cr_weight r) =? c)%string eqn:E; simpl.
    + apply String.eqb_eq in E. subst c.
      destruct (existsb _ columns); reflexivity.
    + reflexivity.
Qed.

(** C4.  On a transfer from a stop to itself every variable value is 0,
    except that of "transfer_penalty", which is the cell of the transfer
    table when the table gives one and 1 otherwise. *)
Theorem zero_walk_transfer_values (cfg : Config) (links : list LinkCostRow)
    (weights : list NumWeightRow) (transfers_df : TransfersDF)
    (r : CostRow) (x : option TransferRow) :
  In (r, x) (cost_transfer_df cfg (filter is_transfer (cost_df links weights))
                              transfers_df) ->
  A_id_num r = B_id_num r ->
  (is_weight "transfer_penalty" r = false -> var_value r = Some 0%Q) /\
  (is_weight "transfer_penalty" r = true ->
     var_value r
     = match transfer_table_value cfg transfers_df "transfer_penalty" x with
       | Some v => Some v
       | None => Some 1%Q
       end).
Proof.
  unfold cost_transfer_df. intros Hin.
  apply in_map_iff in Hin. destruct Hin as ([r0 x0] & Heq & Hin).
  apply merge_left_In, filter_In in Hin. destruct Hin as [Hin _].
  apply cost_df_unset in Hin.
  revert Heq. unfold cost_transfer_row, transfer_penalty_default,
                transfer_zero_walk, transfer_walk_time.
  rewrite loc_set2_spec, transfer_columns_spec, !loc_set2_spec.
  unfold is_weight, is_none, transfer_table_value.
  cbn [cr_weight cr_link var_value set_var_value].
  intros [= <- <-]. cbn [cr_weight cr_link var_value set_var_value].
  rewrite Hin. intros Hzero. apply Z.eqb_eq in Hzero. rewrite Hzero.
  split; intros Hw; rewrite Hw; cbn [negb andb].
  - reflexivity.
  - apply String.eqb_eq in Hw. rewrite Hw. simpl.
    destruct (existsb _ _); [| reflexivity].
    destruct (transfer_column cfg "transfer_penalty" x0); reflexivity.
Qed.

Lemma zero_walk_transfer_values_witness :
  let frame :=
    cost_transfer_df Examples.cfg0
      (filter is_transfer
              (cost_df (Examples.frame
                          (pathset_links_cost_df 0 Examples.links0
                                                 Examples.trips0))
                       Examples.numbered0))
      Examples.transfers0 in
  In (set_var_value (Some 0%Q) Examples.walk_time_at_stop, None) frame /\
  In (set_var_value (Some 1%Q) Examples.penalty_at_stop, None) frame /\
  var_value (set_var_value (Some 0%Q) Examples.walk_time_at_stop) = Some 0%Q /\
  var_value (set_var_value (Some 1%Q) Examples.penalty_at_stop)
  = match transfer_table_value Examples.cfg0 Examples.transfers0
                               "transfer_penalty" None with
    | Some v => Some v
    | None => Some 1%Q
    end.
Proof.
  intros frame.
  assert (H1 : In (set_var_value (Some 0%Q) Examples.walk_time_at_stop, None)
                  frame) by in_frame.
  assert (H2 : In (set_var_value (Some 1%Q) Examples.penalty_at_stop, None)
                  frame) by in_frame.
  split; [exact H1|]. split; [exact H2|]. split.
  - apply (proj1 (zero_walk_transfer_values _ _ _ _ _ _ H1 eq_refl)).
    reflexivity.
  - apply (proj2 (zero_walk_transfer_values _ _ _ _ _ _ H2 eq_refl)).
    reflexivity.
Defined.

(* ================================================================== *)
(** * The frames [calculate_cost] returns, row by row *)

Section StableSort.
Context {A : Type} (leb : A -> A -> bool) (f : A -> bool).
Hypothesis same_class : forall x y, f x = true -> f y = true -> leb x y = true.

Lemma insert_sorted_filter (x : A) (l : list A) :
  filter f (insert_sorted leb x l) = filter f (x :: l).
Proof.
  induction l as [| y l IH]; [reflexivity|].
  cbn [insert_sorted]. destruct (leb x y) eqn:E; [reflexivity|].
  cbn [filter] in *. rewrite IH.
  destruct (f x) eqn:Ex, (f y) eqn:Ey; try reflexivity.
  rewrite (same_class x y Ex Ey) in E. discriminate.
Qed.

(** [sort_values] keeps the rows of a class in their order. *)
Lemma sort_values_filter (l : list A) :
  filter f (sort_values leb l) = filter f l.
Proof.
  induction l as [| x l IH]; [reflexivity|].
  cbn [sort_values fold_right]. rewrite insert_sorted_filter.
  cbn [filter]. fold (sort_values leb l). rewrite IH. reflexivity.
Qed.
End StableSort.

Lemma key3_leb_refl (k : key3) : key3_leb k k = true.
Proof. unfold key3_leb. rewrite !Z.compare_refl. reflexivity. Qed.

Lemma sorted_rows_of_link (costs : list CostRow) (k : key3) :
  filter (fun r : CostRow => key3_eqb k (link_key r))
         (sort_values (fun a b : CostRow => key3_leb (link_key a) (link_key b))
                      costs)
  = filter (fun r : CostRow => key3_eqb k (link_key r)) costs.
Proof.
  apply sort_values_filter. intros x y Hx Hy.
  apply key3_eqb_eq in Hx, Hy. rewrite <- Hx, <- Hy. apply key3_leb_refl.
Qed.

Lemma nansum_or_none {V N : Type} (plus : N -> N -> N) (zero : N)
      (f : V -> bool) (val : V -> option N) (l : list V) :
  (if existsb f l then nansum plus zero (map val (filter f l)) else None)
  = nansum plus zero (map val (filter f l)).
Proof.
  destruct (existsb f l) eqn:E; [reflexivity|].
  apply filter_nil_iff in E. rewrite E. reflexivity.
Qed.

Lemma links_with_cost_rows (links : list LinkRow) (costs : list CostRow) :
  links_with_cost links (cost_link_df costs)
  = map (fun l => (l, link_sim_cost costs l)) links.
Proof.
  unfold links_with_cost, cost_link_df.
  rewrite (merge_left_groupby key3_eqb key3_leb key3_eqb_eq).
  apply map_ext. intros l. f_equal.
  unfold group_sum. rewrite nansum_or_none, sorted_rows_of_link.
  reflexivity.
Qed.

Lemma paths_with_cost_rows (paths : list PathRow) (costs : list CostRow) :
  paths_with_cost paths (cost_path_df (cost_link_df costs))
  = map (fun p => (p, path_sim_cost costs p)) paths.
Proof.
  unfold paths_with_cost, cost_path_df.
  rewrite (merge_left_groupby key2_eqb key2_leb key2_eqb_eq).
  apply map_ext. intros p. f_equal.
  unfold path_sim_cost, group_sum. apply nansum_or_none.
Qed.

Section MergeGroups.
Context {K V N L : Type} (keqb kleb : K -> K -> bool).
Hypothesis keqb_eq : forall a b, keqb a b = true <-> a = b.
Context (plus : N -> N -> N) (zero : N) (key : V -> K) (val : V -> option N).
Context (lkey : L -> K).

Lemma merge_left_groups (left : list L) (df : list V) :
  merge_left (fun l (g : K * option N) => keqb (lkey l) (fst g)) left
             (groupby_sum keqb kleb plus zero key val df)
  = map (fun l => (l, if existsb (fun r => keqb (lkey l) (key r)) df
                      then Some (lkey l,
                                 group_sum keqb plus zero key val df (lkey l))
                      else None))
        left.
Proof.
  unfold merge_left.
  induction left as [| l left IH]; simpl; [reflexivity|].
  rewrite IH. clear IH.
  unfold left_matches at 1.
  rewrite (groupby_sum_filter keqb kleb keqb_eq).
  destruct (existsb _ df); reflexivity.
Qed.
End MergeGroups.

Lemma paths_with_probability_rows (STOCH_DISPERSION : Q)
      (paths : list PathRow) (costs : list CostRow) :
  paths_with_probability STOCH_DISPERSION
    (map (fun p => (p, path_sim_cost costs p)) paths)
  = map (fun p => (p, path_columns STOCH_DISPERSION costs paths p)) paths.
Proof.
  unfold paths_with_probability, pathset_logsum_df.
  rewrite (merge_left_groups Z.eqb Z.leb Z.eqb_eq).
  rewrite !map_map. apply map_ext. intros p. cbn [fst snd].
  unfold path_columns.
  match goal with
  | |- context [merged_value ?t] =>
      assert (Hsum : merged_value t
                     = trip_logsum STOCH_DISPERSION costs paths
                                   (p_trip_list_id_num p))
  end.
  { unfold group_sum, trip_logsum, paths_of_trip.
    rewrite filter_map_swap, map_map. cbn [fst snd].
    destruct (existsb _ _) eqn:E; cbn [merged_value]; [reflexivity|].
    rewrite existsb_map in E. cbn [fst snd] in E.
    apply filter_nil_iff in E. rewrite E. reflexivity. }
  rewrite Hsum. reflexivity.
Qed.

Lemma calculate_cost_frames cfg weights cols iteration simulation_iteration
      STOCH_DISPERSION frames trip_list_df transfers_df walk_df drive_df
      returned :
  calculate_cost cfg weights cols iteration simulation_iteration
                 STOCH_DISPERSION frames trip_list_df transfers_df
                 walk_df drive_df = Ok returned ->
  let paths := fst (drop_sim_columns frames) in
  let links := snd (drop_sim_columns frames) in
  exists costs,
    final_cost_df cfg weights cols simulation_iteration links trip_list_df
                  transfers_df walk_df drive_df = Ok costs /\
    returned
    = Costed (map (fun p => (p, path_columns STOCH_DISPERSION costs paths p))
                  paths)
             (map (fun l => (l, link_sim_cost costs l)) links).
Proof.
  intros H paths links. unfold calculate_cost in H. subst paths links.
  apply bind_Ok in H. destruct H as (costs & Hcosts & H).
  exists costs. split; [exact Hcosts|].
  injection H as <-.
  rewrite paths_with_cost_rows, paths_with_probability_rows,
    links_with_cost_rows.
  reflexivity.
Qed.

Lemma calculate_cost_drop cfg weights cols iteration simulation_iteration
      STOCH_DISPERSION frames frames' trip_list_df transfers_df walk_df
      drive_df :
  drop_sim_columns frames = drop_sim_columns frames' ->
  calculate_cost cfg weights cols iteration simulation_iteration
                 STOCH_DISPERSION frames trip_list_df transfers_df
                 walk_df drive_df
  = calculate_cost cfg weights cols iteration simulation_iteration
                   STOCH_DISPERSION frames' trip_list_df transfers_df
                   walk_df drive_df.
Proof. unfold calculate_cost. intros ->. reflexivity. Qed.

(** C7.  A second call on the frames a first call returned, with the same
    other inputs, returns those frames again: the added columns are dropped
    and computed anew from the same rows. *)
Theorem calculate_cost_idempotent (cfg : Config) (weights : list NumWeightRow)
    (cols : LinkColumns) (iteration simulation_iteration : Z)
    (STOCH_DISPERSION : Q) (frames returned : PathsetFrames)
    (trip_list_df : list TripRow) (transfers_df : TransfersDF)
    (walk_df drive_df : AccessDF) :
  calculate_cost cfg weights cols iteration simulation_iteration
                 STOCH_DISPERSION frames trip_list_df transfers_df
                 walk_df drive_df = Ok returned ->
  calculate_cost cfg weights cols iteration simulation_iteration
                 STOCH_DISPERSION returned trip_list_df transfers_df
                 walk_df drive_df = Ok returned.
Proof.
  intros H. rewrite <- H.
  apply calculate_cost_drop.
  apply calculate_cost_frames in H. destruct H as (costs & _ & ->).
  cbn [drop_sim_columns]. rewrite !map_map. cbn [fst].
  rewrite !map_id. destruct (drop_sim_columns frames). reflexivity.
Qed.

Ltac run_example :=
  unfold calculate_cost;
  replace (final_cost_df _ _ _ _ _ _ _ _ _) with (Ok Examples.final0)
    by (vm_compute; reflexivity);
  reflexivity.

Lemma calculate_cost_idempotent_witness :
  calculate_cost Examples.cfg0 Examples.numbered0 Examples.cols0 1 0 1%Q
                 (Uncosted Examples.paths0 Examples.links0) Examples.trips0
                 Examples.transfers0 Examples.walk0 Examples.drive0
  = Ok Examples.returned0 /\
  calculate_cost Examples.cfg0 Examples.numbered0 Examples.cols0 1 0 1%Q
                 Examples.returned0 Examples.trips0
                 Examples.transfers0 Examples.walk0 Examples.drive0
  = Ok Examples.returned0.
Proof.
  assert (Hrun :
    calculate_cost Examples.cfg0 Examples.numbered0 Examples.cols0 1 0 1%Q
                   (Uncosted Examples.paths0 Examples.links0) Examples.trips0
                   Examples.transfers0 Examples.walk0 Examples.drive0
    = Ok Examples.returned0) by run_example.
  split; [exact Hrun|].
  apply (calculate_cost_idempotent _ _ _ _ _ _ _ _ _ _ _ _ Hrun).
Defined.

(* ================================================================== *)
(** * Logsum and probabilities *)

Lemma Q2R_scaled (d c : Q) : Q2R (-1 * d * c) = (- (Q2R d * Q2R c))%R.
Proof.
  rewrite !Q2R_mult.
  replace (Q2R (-1)) with (-1)%R by (unfold Q2R; simpl; lra).
  ring.
Qed.

Lemma Q2R_0 : Q2R 0 = 0%R.
Proof. unfold Q2R. simpl. lra. Qed.

(** The bounds of float64. *)
Lemma underflow_bound_pos : (0 < underflow_bound < 1)%R.
Proof.
  unfold underflow_bound.
  assert (H : (1 < 2 ^ 1075)%R) by (apply Rlt_pow_R1; [lra | lia]).
  split.
  - apply Rinv_0_lt_compat. lra.
  - rewrite <- Rinv_1. apply Rinv_lt_contravar; lra.
Qed.

Lemma overflow_bound_large : (1 < overflow_bound)%R.
Proof.
  unfold overflow_bound.
  replace (2 ^ 1024)%R with (2 ^ 970 * 2 ^ 54)%R
    by (rewrite <- pow_add; reflexivity).
  assert (H : (1 < 2 ^ 970)%R) by (apply Rlt_pow_R1; [lra | lia]).
  assert (H' : (2 <= 2 ^ 54)%R).
  { replace 2%R with (2 ^ 1)%R at 1 by lra.
    apply Rle_pow; [lra | lia]. }
  nra.
Qed.

(** What [numpy_exp] returns. *)
Lemma numpy_exp_spec (x : Q) :
  ((exp (Q2R x) <= underflow_bound)%R /\ numpy_exp x = Finite 0) \/
  ((underflow_bound < exp (Q2R x) < overflow_bound)%R /\
   numpy_exp x = Finite (exp (Q2R x))) \/
  ((overflow_bound <= exp (Q2R x))%R /\ numpy_exp x = Infinity).
Proof.
  unfold numpy_exp. cbv zeta.
  destruct (Rle_dec (exp (Q2R x)) underflow_bound) as [Hu | Hu]; [auto|].
  destruct (Rle_dec overflow_bound (exp (Q2R x))) as [Ho | Ho]; [auto|].
  right. left. split; [lra | reflexivity].
Qed.

Lemma numpy_exp_nonneg (x : Q) (y : R) :
  numpy_exp x = Finite y -> (0 <= y)%R.
Proof.
  destruct (numpy_exp_spec x) as [[_ ->] | [[_ ->] | [_ ->]]];
    intros [= <-]; [lra | left; apply exp_pos].
Qed.

(** [numpy_exp] is increasing, and strictly so where it does not
    underflow. *)
Lemma numpy_exp_le (x x' : Q) (a b : R) :
  (Q2R x <= Q2R x')%R ->
  numpy_exp x = Finite a -> numpy_exp x' = Finite b -> (a <= b)%R.
Proof.
  intros Hle Ha Hb.
  assert (He : (exp (Q2R x) <= exp (Q2R x'))%R).
  { destruct Hle as [Hlt | ->]; [left; apply exp_increasing, Hlt | lra]. }
  pose proof underflow_bound_pos as Hu.
  destruct (numpy_exp_spec x) as [[H1 E1] | [[H1 E1] | [H1 E1]]];
    rewrite E1 in Ha; [| | discriminate]; injection Ha as <-;
    destruct (numpy_exp_spec x') as [[H2 E2] | [[H2 E2] | [H2 E2]]];
    rewrite E2 in Hb; try discriminate; injection Hb as <-; lra.
Qed.


Lemma numpy_exp_eq (x x' : Q) : (x == x')%Q -> numpy_exp x = numpy_exp x'.
Proof. intros H. unfold numpy_exp. rewrite (Qeq_eqR _ _ H). reflexivity. Qed.

(** The exponential of 0.0 is 1.0. *)
Lemma numpy_exp_0 (x : Q) : (x == 0)%Q -> numpy_exp x = Finite 1.
Proof.
  intros H. rewrite (numpy_exp_eq _ _ H).
  pose proof underflow_bound_pos as Hu. pose proof overflow_bound_large as Ho.
  destruct (numpy_exp_spec 0) as [[H1 E] | [[H1 E] | [H1 E]]];
    rewrite Q2R_0, exp_0 in *; [lra | exact E | lra].
Qed.

(** The exponential underflows below -1075: e is more than 2. *)
Lemma pow2_le_exp (n : nat) : (2 ^ n <= exp (INR n))%R.
Proof.
  induction n as [| n IH].
  - simpl. rewrite exp_0. lra.
  - rewrite S_INR, exp_plus. cbn [pow].
    assert (H1 : (2 <= exp 1)%R).
    { pose proof (exp_ineq1 1). lra. }
    assert (H0 : (0 < 2 ^ n)%R) by (apply pow_lt; lra).
    pose proof (exp_pos (INR n)). nra.
Qed.

Lemma numpy_exp_underflow (x : Q) :
  (x <= -1075 # 1)%Q -> numpy_exp x = Finite 0.
Proof.
  intros H. apply Qle_Rle in H.
  replace (Q2R (-1075 # 1)) with (- INR 1075)%R in H
    by (unfold Q2R; cbn [Qnum Qden]; rewrite INR_IZR_INZ; simpl; lra).
  unfold numpy_exp. cbv zeta.
  destruct (Rle_dec (exp (Q2R x)) underflow_bound) as [Hu | Hu];
    [reflexivity|].
  exfalso. apply Hu. unfold underflow_bound.
  apply Rle_trans with (exp (- INR 1075)).
  - destruct H as [H | ->]; [left; apply exp_increasing, H | lra].
  - rewrite exp_Ropp. apply Rinv_le_contravar; [apply pow_lt; lra|].
    apply pow2_le_exp.
Qed.

(** The sum of a list of weights. *)
Lemma fold_add_Infinity (l : list float64) :
  fold_left float64_add l Infinity = Infinity.
Proof. induction l as [| w l IH]; simpl; [reflexivity | exact IH]. Qed.

Lemma fold_add_Finite (l : list float64) (a : R) :
  fold_left float64_add l (Finite a)
  = if forallb is_finite l then Finite (a + sumR (finite_values l))
    else Infinity.
Proof.
  revert a. induction l as [| w l IH]; intros a.
  - simpl. f_equal. ring.
  - destruct w as [x |]; cbn [fold_left float64_add forallb is_finite andb].
    + rewrite IH. destruct (forallb is_finite l); [| reflexivity].
      f_equal. cbn [finite_values flat_map app sumR fold_right].
      fold (finite_values l). fold (sumR (finite_values l)). ring.
    + apply fold_add_Infinity.
Qed.

Lemma returned_path_rows cfg weights cols iteration simulation_iteration
      STOCH_DISPERSION frames trip_list_df transfers_df walk_df drive_df
      paths' links' :
  calculate_cost cfg weights cols iteration simulation_iteration
                 STOCH_DISPERSION frames trip_list_df transfers_df
                 walk_df drive_df = Ok (Costed paths' links') ->
  exists costs,
    forall p s,
      In (p, s) paths' ->
      s = path_columns STOCH_DISPERSION costs (fst (drop_sim_columns frames)) p.
Proof.
  intros H. apply calculate_cost_frames in H.
  destruct H as (costs & _ & [= -> _]).
  exists costs. intros p s Hin.
  apply in_map_iff in Hin. destruct Hin as (p0 & [= -> <-] & _).
  reflexivity.
Qed.

(** The quotient of a finite number by a finite number that is not zero. *)
Lemma divide_Finite (x y : R) :
  y <> 0%R -> divide (Some (Finite x)) (Some (Finite y)) = Some (Finite (x / y)).
Proof.
  intros H. unfold divide.
  destruct (Req_EM_T y 0) as [E | _]; [contradiction | reflexivity].
Qed.

Lemma divide_zero : divide (Some (Finite 0)) (Some (Finite 0)) = None.
Proof.
  unfold divide.
  destruct (Req_EM_T 0 0) as [_ | E]; [reflexivity | contradiction E; reflexivity].
Qed.

(** C5, amended.  The only path of a traveler-trip, when it has a cost:
    its weight is the float64 exponential of -dispersion * cost and is the
    trip's logsum; its probability is exactly 1 when that weight is finite
    and not zero, where the weight is exp(-dispersion * cost), and NaN when
    the weight underflowed to 0.0 or overflowed to infinity. *)
Theorem single_path_probability (cfg : Config) (weights : list NumWeightRow)
    (cols : LinkColumns) (iteration simulation_iteration : Z)
    (STOCH_DISPERSION : Q) (frames : PathsetFrames)
    (trip_list_df : list TripRow) (transfers_df : TransfersDF)
    (walk_df drive_df : AccessDF)
    (paths' : list (PathRow * SimPathCols)) (links' : list (LinkRow * option Q))
    (p : PathRow) (s : SimPathCols) (cost : Q) :
  calculate_cost cfg weights cols iteration simulation_iteration
                 STOCH_DISPERSION frames trip_list_df transfers_df
                 walk_df drive_df = Ok (Costed paths' links') ->
  In (p, s) paths' ->
  paths_of_trip (p_trip_list_id_num p) (fst (drop_sim_columns frames)) = [p] ->
  sim_cost s = Some cost ->
  match numpy_exp (-1 * STOCH_DISPERSION * cost) with
  | Finite w =>
      logsum s = Some (Finite w) /\
      (w <> 0%R ->
       probability s = Some (Finite 1) /\
       w = exp (- (Q2R STOCH_DISPERSION * Q2R cost))) /\
      (w = 0%R -> probability s = None)
  | Infinity => logsum s = Some Infinity /\ probability s = None
  end.
Proof.
  intros Hrun Hin Hone Hcost.
  destruct (returned_path_rows _ _ _ _ _ _ _ _ _ _ _ _ _ Hrun) as (costs & Hs).
  rewrite (Hs p s Hin) in *. clear Hs Hin Hrun.
  unfold path_columns in *. cbn [sim_cost probability logsum] in *.
  unfold trip_logsum. rewrite Hone. cbn [map].
  rewrite !Hcost. cbn [logsum_component_of option_map].
  unfold nansum. cbn [present flat_map app fold_left].
  destruct (numpy_exp_spec (-1 * STOCH_DISPERSION * cost))
    as [[H E] | [[H E] | [H E]]]; rewrite E; cbn [float64_add].
  - rewrite Rplus_0_l. split; [reflexivity|]. split.
    + intros Hnz. contradiction Hnz. reflexivity.
    + intros _. apply divide_zero.
  - rewrite Rplus_0_l. pose proof underflow_bound_pos as Hu.
    split; [reflexivity|]. split.
    + intros Hnz. rewrite divide_Finite by exact Hnz. split.
      * f_equal. f_equal. field. exact Hnz.
      * rewrite Q2R_scaled. reflexivity.
    + intros Hz. lra.
  - split; reflexivity.
Qed.

(** Between -500 and 0 the exponential is a finite float64 that is not
    zero: e is less than 3. *)
Lemma exp_le_pow3 (n : nat) : (exp (INR n) <= 3 ^ n)%R.
Proof.
  induction n as [| n IH].
  - simpl. rewrite exp_0. lra.
  - rewrite S_INR, exp_plus. cbn [pow].
    pose proof exp_le_3 as H3. pose proof (exp_pos (INR n)) as Hn.
    pose proof (exp_pos 1) as H1. nra.
Qed.

Lemma numpy_exp_moderate (x : Q) :
  (-500 # 1 <= x)%Q -> (x <= 0)%Q ->
  numpy_exp x = Finite (exp (Q2R x)) /\ exp (Q2R x) <> 0%R.
Proof.
  intros Hlo Hhi. apply Qle_Rle in Hlo, Hhi. rewrite Q2R_0 in Hhi.
  replace (Q2R (-500 # 1)) with (- INR 500)%R in Hlo
    by (unfold Q2R; cbn [Qnum Qden]; rewrite INR_IZR_INZ; simpl; lra).
  pose proof (exp_pos (Q2R x)) as Hpos.
  split; [| lra].
  pose proof overflow_bound_large as Ho.
  assert (Hup : (exp (Q2R x) <= 1)%R).
  { rewrite <- exp_0.
    destruct Hhi as [H | ->]; [left; apply exp_increasing, H | lra]. }
  assert (Hdown : (underflow_bound < exp (Q2R x))%R).
  { apply Rlt_le_trans with (exp (- INR 500)).
    - rewrite exp_Ropp. unfold underflow_bound.
      apply Rinv_lt_contravar.
      + apply Rmult_lt_0_compat; [apply exp_pos | apply pow_lt; lra].
      + apply Rle_lt_trans with (3 ^ 500)%R; [apply exp_le_pow3|].
        apply Rle_lt_trans with (4 ^ 500)%R; [apply pow_incr; lra|].
        replace 4%R with (2 ^ 2)%R by lra. rewrite <- pow_mult.
        apply Rlt_pow; [lra | lia].
    - destruct Hlo as [H | <-]; [left; apply exp_increasing, H | lra]. }
  destruct (numpy_exp_spec x) as [[H E] | [[H E] | [H E]]];
    [lra | exact E | lra].
Qed.

(** The columns of a returned path. *)
Lemma sim_cost_path_columns d costs paths (p : PathRow) :
  sim_cost (path_columns d costs paths p) = path_sim_cost costs p.
Proof. reflexivity. Qed.

Lemma logsum_path_columns d costs paths (p : PathRow) :
  logsum (path_columns d costs paths p)
  = trip_logsum d costs paths (p_trip_list_id_num p).
Proof. reflexivity. Qed.

Lemma probability_path_columns d costs paths (p : PathRow) :
  probability (path_columns d costs paths p)
  = divide (logsum_component_of d (path_sim_cost costs p))
           (trip_logsum d costs paths (p_trip_list_id_num p)).
Proof. reflexivity. Qed.

Lemma returned0_paths (p : PathRow) :
  In p Examples.paths0 ->
  In (p, path_columns 1 Examples.final0 Examples.paths0 p)
     (paths_with_probability 1
        (paths_with_cost Examples.paths0
           (cost_path_df (cost_link_df Examples.final0)))).
Proof.
  intros H. rewrite paths_with_cost_rows, paths_with_probability_rows.
  apply (in_map (fun p => (p, path_columns 1 Examples.final0
                                           Examples.paths0 p))).
  exact H.
Qed.

Lemma single_path_probability_witness :
  exists s cost,
    In (Examples.path 2 0, s)
       (paths_with_probability 1
          (paths_with_cost Examples.paths0
             (cost_path_df (cost_link_df Examples.final0)))) /\
    sim_cost s = Some cost /\
    probability s = Some (Finite 1) /\
    logsum s = Some (Finite (exp (Q2R (-1 * 1 * cost)))).
Proof.
  exists (path_columns 1 Examples.final0 Examples.paths0 (Examples.path 2 0)).
  eexists.
  assert (Hrun :
    calculate_cost Examples.cfg0 Examples.numbered0 Examples.cols0 1 0 1%Q
                   (Uncosted Examples.paths0 Examples.links0) Examples.trips0
                   Examples.transfers0 Examples.walk0 Examples.drive0
    = Ok Examples.returned0) by run_example.
  assert (Hin := returned0_paths (Examples.path 2 0)
                   (or_intror (or_intror (or_introl eq_refl)))).
  assert (Hcost : sim_cost (path_columns 1 Examples.final0 Examples.paths0
                                         (Examples.path 2 0))
                  = Some (5472000000000000000000000
                          # 288000000000000000000000))
    by (cbn [path_columns sim_cost]; vm_compute; reflexivity).
  split; [exact Hin|]. split; [exact Hcost|].
  pose proof (single_path_probability _ _ _ _ _ _ _ _ _ _ _ _ _ _ _ _
                Hrun Hin eq_refl Hcost) as H.
  destruct (numpy_exp_moderate
              (-1 * 1 * (5472000000000000000000000
                         # 288000000000000000000000)))
    as [E Hnz]; [vm_compute; discriminate | vm_compute; discriminate |].
  rewrite E in H. destruct H as (Hlogsum & Hone & _).
  split; [apply (Hone Hnz) | exact Hlogsum].
Defined.

(** The frames [calculate_cost] returns, from the cost frame. *)
Lemma calculate_cost_returns cfg weights cols iteration simulation_iteration
      STOCH_DISPERSION paths links trip_list_df transfers_df walk_df drive_df
      costs :
  final_cost_df cfg weights cols simulation_iteration links trip_list_df
                transfers_df walk_df drive_df = Ok costs ->
  calculate_cost cfg weights cols iteration simulation_iteration
                 STOCH_DISPERSION (Uncosted paths links) trip_list_df
                 transfers_df walk_df drive_df
  = Ok (Costed (map (fun p => (p, path_columns STOCH_DISPERSION costs paths p))
                    paths)
               (map (fun l => (l, link_sim_cost costs l)) links)).
Proof.
  intros H. unfold calculate_cost. cbn [drop_sim_columns fst snd].
  rewrite H. cbn [bind].
  rewrite paths_with_cost_rows, paths_with_probability_rows,
    links_with_cost_rows.
  reflexivity.
Qed.

Ltac run_frames costs :=
  rewrite (calculate_cost_returns _ _ _ _ _ _ _ _ _ _ _ _ costs)
    by (vm_compute; reflexivity);
  reflexivity.

(** C5 as stated fails.  The only path of a traveler-trip that misses a
    transfer costs 50015.95: under dispersion 1 its weight underflows to
    0.0, the logsum is 0.0 and the probability is NaN.  And the only path
    of a traveler-trip of a user class without weights, whose links no
    weight row matches, has no cost and so no probability. *)
Lemma single_path_probability_counterexample :
  (exists s links',
     calculate_cost Examples.cfg0 Examples.numbered0 Examples.cols0 1 0 1%Q
                    (Uncosted MoreExamples.missed_paths
                              MoreExamples.missed_links)
                    Examples.trips0 Examples.transfers0 Examples.walk0
                    Examples.drive0
     = Ok (Costed [(Examples.path 1 0, s)] links') /\
     paths_of_trip 1 MoreExamples.missed_paths = [Examples.path 1 0] /\
     sim_cost s = Some (864275616000000000000000000000000000000
                        # 17280000000000000000000000000000000) /\
     logsum s = Some (Finite 0) /\
     probability s = None /\ probability s <> Some (Finite 1)) /\
  (exists s paths' links',
     calculate_cost Examples.cfg0 Examples.numbered0 Examples.cols0 1 0 1%Q
                    (Uncosted Examples.paths0 Examples.links0)
                    MoreExamples.student_trips Examples.transfers0
                    Examples.walk0 Examples.drive0
     = Ok (Costed paths' links') /\
     In (Examples.path 2 0, s) paths' /\
     paths_of_trip 2 Examples.paths0 = [Examples.path 2 0] /\
     sim_cost s = None /\
     probability s = None /\ probability s <> Some (Finite 1)).
Proof.
  split.
  - exists (path_columns 1 MoreExamples.missed_final MoreExamples.missed_paths
                         (Examples.path 1 0)).
    eexists.
    split; [run_frames MoreExamples.missed_final|].
    split; [reflexivity|].
    assert (Hcost : path_sim_cost MoreExamples.missed_final (Examples.path 1 0)
                    = Some (864275616000000000000000000000000000000
                            # 17280000000000000000000000000000000))
      by (vm_compute; reflexivity).
    assert (Hlogsum :
      trip_logsum 1 MoreExamples.missed_final MoreExamples.missed_paths
                  (p_trip_list_id_num (Examples.path 1 0))
      = Some (Finite 0)).
    { unfold trip_logsum.
      change (paths_of_trip (p_trip_list_id_num (Examples.path 1 0))
                            MoreExamples.missed_paths)
        with [Examples.path 1 0].
      cbn [map]. rewrite Hcost. cbn [logsum_component_of option_map].
      rewrite numpy_exp_underflow by (vm_compute; discriminate).
      unfold nansum. cbn [present flat_map app fold_left float64_add].
      rewrite Rplus_0_l. reflexivity. }
    unfold path_columns. cbn [sim_cost logsum probability].
    rewrite Hlogsum, Hcost. cbn [logsum_component_of option_map].
    rewrite numpy_exp_underflow by (vm_compute; discriminate).
    rewrite divide_zero.
    split; [reflexivity|]. split; [reflexivity|]. split; [reflexivity|].
    discriminate.
  - exists (path_columns 1 MoreExamples.student_final Examples.paths0
                         (Examples.path 2 0)).
    do 2 eexists.
    split; [run_frames MoreExamples.student_final|].
    split.
    { apply (in_map (fun p => (p, path_columns 1 MoreExamples.student_final
                                               Examples.paths0 p))).
      right. right. left. reflexivity. }
    split; [reflexivity|].
    assert (Hcost : path_sim_cost MoreExamples.student_final
                                  (Examples.path 2 0) = None)
      by (vm_compute; reflexivity).
    rewrite sim_cost_path_columns, probability_path_columns, Hcost.
    split; [reflexivity|]. split; [reflexivity|].
    discriminate.
Qed.

(** The logsum of a trip of two paths that have a cost. *)
Lemma trip_logsum_two d costs paths trip (p1 p2 : PathRow) (c1 c2 : Q) :
  paths_of_trip trip paths = [p1; p2] ->
  path_sim_cost costs p1 = Some c1 ->
  path_sim_cost costs p2 = Some c2 ->
  trip_logsum d costs paths trip
  = Some (match numpy_exp (-1 * d * c1), numpy_exp (-1 * d * c2) with
          | Finite x, Finite y => Finite (x + y)
          | _, _ => Infinity
          end).
Proof.
  intros Htwo H1 H2. unfold trip_logsum.
  rewrite Htwo. cbn [map]. rewrite H1, H2.
  cbn [logsum_component_of option_map].
  unfold nansum. cbn [present flat_map app fold_left].
  destruct (numpy_exp (-1 * d * c1)) as [x |],
           (numpy_exp (-1 * d * c2)) as [y |];
    cbn [float64_add]; try reflexivity.
  rewrite Rplus_0_l. reflexivity.
Qed.




(* ================================================================== *)
(** * Link costs of penalised links *)

Lemma pathset_links_cost_df_rows simulation_iteration links trip_list_df out :
  pathset_links_cost_df simulation_iteration links trip_list_df = Ok out ->
  forall lc,
    In lc out ->
    In (lc_link lc) links /\
    lc_bump_iter lc
    = if simulation_iteration =? 0 then -1 else bump_iter (lc_link lc).
Proof.
  unfold pathset_links_cost_df.
  destruct (forallb _ _); [| discriminate].
  intros [= <-] lc Hin.
  destruct (simulation_iteration =? 0).
  - apply in_map_iff in Hin. destruct Hin as (lc0 & <- & Hin).
    apply in_map_iff in Hin. destruct Hin as ([l t] & <- & Hin).
    apply merge_left_In in Hin. auto.
  - apply in_map_iff in Hin. destruct Hin as ([l t] & <- & Hin).
    apply merge_left_In in Hin. auto.
Qed.

Lemma cost_df_link links weights (r : CostRow) :
  In r (cost_df links weights) -> In (cr_link r) links.
Proof.
  unfold cost_df, merge_inner. intros H.
  apply in_map_iff in H. destruct H as ([lc w] & <- & H).
  apply in_flat_map in H. destruct H as (lc' & Hlc & H).
  apply in_map_iff in H. destruct H as (w' & [= <- <-] & _). exact Hlc.
Qed.

Lemma use_access_columns_link mode_list m columns (r : CostRow) :
  cr_link (fold_left (use_access_column mode_list m) columns r) = cr_link r.
Proof.
  revert r. induction columns as [| c columns IH]; intros r; simpl;
    [reflexivity|].
  rewrite IH. unfold use_access_column.
  destruct (is_join_column c); [reflexivity | apply loc_set_frame].
Qed.

Lemma merge_access_links_link cfg mode_list df rows out :
  merge_access_links cfg mode_list df rows = Ok out ->
  forall r, In r out -> exists r0, In r0 rows /\ cr_link r = cr_link r0.
Proof.
  unfold merge_access_links.
  destruct (Z.of_nat (List.length (acc_rows df)) =? 0).
  - intros [= <-] r Hr. eauto.
  - destruct (_ =? 0); [| discriminate].
    intros [= <-] r Hr.
    apply in_map_iff in Hr. destruct Hr as ([r0 m] & <- & Hr).
    apply merge_left_In in Hr.
    exists r0. split; [exact Hr | apply use_access_columns_link].
Qed.

Lemma cost_accegr_df_link cfg rows trip_list_df walk_df drive_df out :
  cost_accegr_df cfg rows trip_list_df walk_df drive_df = Ok out ->
  forall r, In r (map fst out) ->
            exists r0, In r0 rows /\ cr_link r = cr_link r0.
Proof.
  unfold cost_accegr_df. intros H r Hr.
  apply bind_Ok in H. destruct H as (rows1 & H1 & H).
  apply bind_Ok in H. destruct H as (rows2 & H2 & H).
  injection H as <-.
  apply in_map_iff in Hr. destruct Hr as (p & <- & Hp).
  apply in_map_iff in Hp. destruct Hp as ([r2 t] & <- & Hp).
  apply merge_left_In in Hp.
  destruct (preferred_delay_frame (r2, t)) as (Hpd & _).
  destruct (merge_access_links_link _ _ _ _ _ H2 _ Hp) as (r1 & Hr1 & E2).
  destruct (merge_access_links_link _ _ _ _ _ H1 _ Hr1) as (r0 & Hr0 & E1).
  exists r0. split; [exact Hr0|].
  rewrite Hpd. cbn [fst]. congruence.
Qed.

Lemma cost_transfer_row_link cfg columns (p : CostRow * option TransferRow) :
  cr_link (fst (cost_transfer_row cfg columns p)) = cr_link (fst p).
Proof.
  destruct p as [r x].
  unfold cost_transfer_row, transfer_penalty_default, transfer_zero_walk,
    transfer_walk_time.
  rewrite loc_set2_spec, transfer_columns_spec, !loc_set2_spec.
  reflexivity.
Qed.

Lemma resolved_cost_df_link cfg cols costs trip_list_df transfers_df walk_df
      drive_df out :
  resolved_cost_df cfg cols costs trip_list_df transfers_df walk_df drive_df
  = Ok out ->
  forall r, In r out -> exists r0, In r0 costs /\ cr_link r = cr_link r0.
Proof.
  unfold resolved_cost_df. intros H r Hr.
  apply bind_Ok in H. destruct H as (accegr & Ha & H).
  destruct (0 <? _); [discriminate|]. injection H as <-.
  apply in_app_or in Hr. destruct Hr as [Hr | Hr].
  - destruct (cost_accegr_df_link _ _ _ _ _ _ Ha _ Hr) as (r0 & Hr0 & E).
    apply filter_In in Hr0. exists r0. tauto.
  - apply in_app_or in Hr. destruct Hr as [Hr | Hr].
    + unfold cost_trip_df in Hr.
      apply in_map_iff in Hr. destruct Hr as (r0 & <- & Hr0).
      apply filter_In in Hr0. exists r0.
      split; [tauto | apply cost_trip_row_frame].
    + unfold cost_transfer_df in Hr.
      apply in_map_iff in Hr. destruct Hr as (p & <- & Hp).
      apply in_map_iff in Hp. destruct Hp as ([r0 x] & <- & Hp).
      apply merge_left_In, filter_In in Hp. exists r0.
      split; [tauto | apply cost_transfer_row_link].
Qed.

(** Every row of the cost frame carries a link of the link frame, with the
    bump iteration the cost computation uses for it. *)
Lemma final_cost_df_rows cfg weights cols simulation_iteration links
      trip_list_df transfers_df walk_df drive_df costs :
  final_cost_df cfg weights cols simulation_iteration links trip_list_df
                transfers_df walk_df drive_df = Ok costs ->
  forall r : CostRow,
    In r costs ->
    In (lc_link r) links /\
    lc_bump_iter r
    = if simulation_iteration =? 0 then -1 else bump_iter r.
Proof.
  unfold final_cost_df. intros H r Hr.
  apply bind_Ok in H. destruct H as (lcs & Hl & H).
  destruct (resolved_cost_df_link _ _ _ _ _ _ _ _ H _ Hr) as (r0 & Hr0 & E).
  rewrite E. apply cost_df_link in Hr0.
  apply (pathset_links_cost_df_rows _ _ _ _ Hl _ Hr0).
Qed.

Lemma link_cost_penalised simulation_iteration (r : CostRow) :
  lc_bump_iter r = (if simulation_iteration =? 0 then -1 else bump_iter r) ->
  penalised simulation_iteration r = true ->
  link_cost r = Some (inject_Z HUGE_COST).
Proof.
  unfold penalised, link_cost. intros Hb Hp.
  rewrite Hb.
  destruct (missed_xfer r =? 1); simpl in Hp.
  - destruct (0 <=? _); reflexivity.
  - apply andb_true_iff in Hp. destruct Hp as [Hs Hp].
    destruct (simulation_iteration =? 0); [discriminate|].
    rewrite Hp. reflexivity.
Qed.

Lemma Qplus_inject_Z (a b : Z) : (inject_Z a + inject_Z b)%Q = inject_Z (a + b).
Proof.
  unfold Qplus, inject_Z. simpl. rewrite !Z.mul_1_r. reflexivity.
Qed.

Lemma sum_constant {A : Type} (h : Z) (l : list A) (a : Z) :
  fold_left Qplus (map (fun _ => inject_Z h) l) (inject_Z a)
  = inject_Z (a + h * Z.of_nat (List.length l)).
Proof.
  revert a. induction l as [| x l IH]; intros a.
  - simpl. f_equal. lia.
  - cbn [map fold_left]. rewrite Qplus_inject_Z, IH. f_equal.
    cbn [List.length]. lia.
Qed.

Lemma nansum_constant {A : Type} (h : Z) (l : list A) :
  nansum Qplus 0%Q (map (fun _ => Some (inject_Z h)) l)
  = match l with
    | [] => None
    | _ => Some (inject_Z (h * Z.of_nat (List.length l)))
    end.
Proof.
  unfold nansum.
  assert (Hp : present (map (fun _ : A => Some (inject_Z h)) l)
               = map (fun _ => inject_Z h) l).
  { induction l as [| x l IH]; [reflexivity|].
    unfold present in *. cbn [map flat_map app]. rewrite IH. reflexivity. }
  rewrite Hp. destruct l as [| x l]; [reflexivity|].
  change (map (fun _ : A => inject_Z h) (x :: l))
    with (inject_Z h :: map (fun _ : A => inject_Z h) l).
  cbn [fold_left]. change 0%Q with (inject_Z 0).
  rewrite Qplus_inject_Z, sum_constant. do 2 f_equal.
  cbn [List.length]. lia.
Qed.

(** C3, amended.  A link that missed a transfer, or whose bump iteration
    in the cost computation is not negative, costs [HUGE_COST] for each of
    its weight rows: its cost in the returned link frame is [HUGE_COST]
    times the number of its rows in the cost frame, whatever the weighted
    values of those rows, and is missing when it has no row.  Links are
    told apart by (trip_list_id_num, pathnum, linknum). *)
Theorem penalised_link_cost (cfg : Config) (weights : list NumWeightRow)
    (cols : LinkColumns) (iteration simulation_iteration : Z)
    (STOCH_DISPERSION : Q) (frames : PathsetFrames)
    (trip_list_df : list TripRow) (transfers_df : TransfersDF)
    (walk_df drive_df : AccessDF)
    (paths' : list (PathRow * SimPathCols)) (links' : list (LinkRow * option Q))
    (l : LinkRow) (cost : option Q) :
  calculate_cost cfg weights cols iteration simulation_iteration
                 STOCH_DISPERSION frames trip_list_df transfers_df
                 walk_df drive_df = Ok (Costed paths' links') ->
  In (l, cost) links' ->
  (forall l', In l' (snd (drop_sim_columns frames)) ->
              link_key l' = link_key l ->
              penalised simulation_iteration l' = true) ->
  exists costs,
    final_cost_df cfg weights cols simulation_iteration
                  (snd (drop_sim_columns frames)) trip_list_df transfers_df
                  walk_df drive_df = Ok costs /\
    cost = match rows_of_link costs l with
           | [] => None
           | rows => Some (inject_Z (HUGE_COST * Z.of_nat (List.length rows)))
           end.
Proof.
  intros Hrun Hin Hpen.
  apply calculate_cost_frames in Hrun.
  destruct Hrun as (costs & Hcosts & [= _ ->]).
  exists costs. split; [exact Hcosts|].
  apply in_map_iff in Hin. destruct Hin as (l0 & [= -> <-] & _).
  unfold link_sim_cost.
  rewrite (map_ext_in link_cost (fun _ => Some (inject_Z HUGE_COST))).
  - rewrite nansum_constant. destruct (rows_of_link costs l); reflexivity.
  - intros r Hr. unfold rows_of_link in Hr.
    apply filter_In in Hr. destruct Hr as [Hr Hkey].
    apply key3_eqb_eq in Hkey.
    destruct (final_cost_df_rows _ _ _ _ _ _ _ _ _ _ Hcosts r Hr)
      as [Hlink Hbump].
    apply (link_cost_penalised simulation_iteration r Hbump).
    apply Hpen; [exact Hlink | symmetry; exact Hkey].
Qed.

(** C3, as stated, fails: a transit link that missed its transfer and has
    four weight rows costs four times [HUGE_COST]. *)
Lemma penalised_link_cost_counterexample :
  calculate_cost Examples.cfg0 Examples.numbered0 Examples.cols0 1 0 1%Q
                 (Uncosted Examples.paths0 Examples.links0) Examples.trips0
                 Examples.transfers0 Examples.walk0 Examples.drive0
  = Ok Examples.returned0 /\
  In (Examples.bus_missed, Some 39996%Q)
     (links_with_cost Examples.links0 (cost_link_df Examples.final0)) /\
  missed_xfer Examples.bus_missed = 1 /\
  Some 39996%Q <> Some (inject_Z HUGE_COST).
Proof.
  split; [run_example|]. split; [in_frame|]. split; [reflexivity|].
  discriminate.
Qed.

Lemma penalised_link_cost_witness :
  In (Examples.bus_missed, Some 39996%Q)
     (links_with_cost Examples.links0 (cost_link_df Examples.final0)) /\
  exists costs,
    final_cost_df Examples.cfg0 Examples.numbered0 Examples.cols0 0
                  Examples.links0 Examples.trips0 Examples.transfers0
                  Examples.walk0 Examples.drive0 = Ok costs /\
    Some 39996%Q
    = match rows_of_link costs Examples.bus_missed with
      | [] => None
      | rows => Some (inject_Z (HUGE_COST * Z.of_nat (List.length rows)))
      end.
Proof.
  assert (Hrun :
    calculate_cost Examples.cfg0 Examples.numbered0 Examples.cols0 1 0 1%Q
                   (Uncosted Examples.paths0 Examples.links0) Examples.trips0
                   Examples.transfers0 Examples.walk0 Examples.drive0
    = Ok Examples.returned0) by run_example.
  assert (Hin : In (Examples.bus_missed, Some 39996%Q)
                   (links_with_cost Examples.links0
                                    (cost_link_df Examples.final0)))
    by in_frame.
  split; [exact Hin|].
  apply (penalised_link_cost _ _ _ _ _ _ _ _ _ _ _ _ _ _ _ Hrun Hin).
  intros l' Hl' Hkey. cbn [drop_sim_columns snd Examples.links0] in Hl'.
  repeat (destruct Hl' as [<- | Hl'];
          [first [discriminate Hkey | reflexivity]|]).
  destruct Hl'.
Defined.

(* ================================================================== *)
(** * The constructor *)

(** X1.  The constructor accepts the time targets "arrival" and
    "departure" and raises on any other: an arrival target gives an
    outbound path set with the preferred arrival minute, a departure target
    an inbound one with the preferred departure minute; either has no path
    yet and keeps the trip's attributes. *)
Theorem init_time_target (trip_list_dict : TripListDict) :
  (tl_time_target trip_list_dict = "arrival" ->
     exists self,
       __init__ trip_list_dict = Ok self /\
       outbound self = true /\ direction self = DIR_OUTBOUND /\
       pref_time_min self = tl_arrival_time_min trip_list_dict /\
       trip_attrs self = trip_list_dict /\ path_found self = false) /\
  (tl_time_target trip_list_dict = "departure" ->
     exists self,
       __init__ trip_list_dict = Ok self /\
       outbound self = false /\ direction self = DIR_INBOUND /\
       pref_time_min self = tl_departure_time_min trip_list_dict /\
       trip_attrs self = trip_list_dict /\ path_found self = false) /\
  (tl_time_target trip_list_dict <> "arrival" ->
   tl_time_target trip_list_dict <> "departure" ->
   exists msg, __init__ trip_list_dict = Raised (Exception msg)).
Proof.
  unfold __init__. repeat split.
  - intros ->. simpl. eexists. repeat split.
  - intros ->. simpl. eexists. repeat split.
  - intros Ha Hd.
    apply String.eqb_neq in Ha, Hd. rewrite Ha, Hd. eauto.
Qed.

Lemma init_time_target_witness :
  (exists self,
      __init__ Examples.trip_dict0 = Ok self /\
      outbound self = true /\ direction self = DIR_OUTBOUND /\
      pref_time_min self = 540%Q /\
      trip_attrs self = Examples.trip_dict0 /\ path_found self = false) /\
  (exists self,
      __init__ MoreExamples.departure_dict = Ok self /\
      outbound self = false /\ direction self = DIR_INBOUND /\
      pref_time_min self = 460%Q /\
      trip_attrs self = MoreExamples.departure_dict /\
      path_found self = false).
Proof.
  split.
  - apply (proj1 (init_time_target Examples.trip_dict0)). reflexivity.
  - apply (proj1 (proj2 (init_time_target MoreExamples.departure_dict))).
    reflexivity.
Defined.

(* ================================================================== *)
(** * Outcome and report of verify_weight_config *)

Lemma In_drop_duplicates {K : Type} (keqb : K -> K -> bool)
      (keqb_eq : forall a b, keqb a b = true <-> a = b) (k : K) (l : list K) :
  In k l -> In k (drop_duplicates keqb l).
Proof.
  induction l as [| x l IH]; simpl; [auto|].
  intros [-> | H]; [auto|].
  destruct (keqb x k) eqn:E.
  - apply keqb_eq in E. auto.
  - right. apply filter_In. rewrite E. auto.
Qed.

(** The left rows a left merge leaves without a match. *)
Lemma merge_left_unmatched {A B : Type} (on : A -> B -> bool)
      (left : list A) (right : list B) :
  map fst (filter (fun p : A * option B =>
                     match snd p with None => true | Some _ => false end)
                  (merge_left on left right))
  = filter (fun a => negb (existsb (on a) right)) left.
Proof.
  unfold merge_left.
  induction left as [| a left IH]; [reflexivity|].
  cbn [flat_map filter]. rewrite filter_app, map_app, IH. clear IH.
  unfold left_matches.
  destruct (filter (on a) right) as [| b bs] eqn:E.
  - apply filter_nil_iff in E. rewrite E. reflexivity.
  - assert (Ex : existsb (on a) right = true).
    { destruct (existsb (on a) right) eqn:Ex; [reflexivity|].
      apply filter_nil_iff in Ex. congruence. }
    rewrite Ex. cbn [negb].
    replace (filter _ (map (fun b0 : B => (a, Some b0)) (b :: bs)))
      with (@nil (A * option B)); [reflexivity|].
    symmetry. apply filter_nil_iff.
    rewrite existsb_map. clear. induction (b :: bs); simpl; auto.
Qed.

Lemma implicit_df_rows (modes_df : list ModeRow) :
  implicit_df modes_df
  = map (fun uc => (uc, "transfer", "transfer", "transfer"))
        (drop_duplicates String.eqb (map m_user_class modes_df)).
Proof.
  unfold implicit_df, merge_inner. cbn [filter map].
  induction (drop_duplicates String.eqb (map m_user_class modes_df))
    as [| uc l IH]; [reflexivity|].
  cbn [flat_map map app fst] in *. rewrite IH. reflexivity.
Qed.

Lemma missing_demand_modes_nil modes_df weights :
  missing_demand_modes modes_df weights = [] <->
  demand_covered modes_df weights = true.
Proof.
  unfold missing_demand_modes, demand_covered.
  rewrite merge_left_unmatched, filter_nil_iff, forallb_forall.
  split.
  - intros H m Hm. destruct (existsb (modes_on m) weights) eqn:E; auto.
    assert (existsb (fun a => negb (existsb (modes_on a) weights)) modes_df
            = true) by (apply existsb_exists; exists m; rewrite E; auto).
    congruence.
  - intros H. apply not_true_is_false. intros Ex.
    apply existsb_exists in Ex. destruct Ex as (m & Hm & Hn).
    rewrite (H m Hm) in Hn. discriminate.
Qed.

Lemma missing_implicit_nil modes_df weights :
  missing_implicit modes_df weights = [] <->
  transfer_covered modes_df weights = true.
Proof.
  unfold missing_implicit, transfer_covered.
  rewrite merge_left_unmatched, filter_nil_iff, forallb_forall,
    implicit_df_rows.
  split.
  - intros H m Hm.
    destruct (existsb (implicit_on (transfer_key m)) weights) eqn:E; auto.
    assert (existsb (fun a => negb (existsb (implicit_on a) weights))
                    (map (fun uc => (uc, "transfer", "transfer", "transfer"))
                         (drop_duplicates String.eqb
                                          (map m_user_class modes_df)))
            = true).
    { apply existsb_exists. exists (transfer_key m). split.
      - apply (in_map (fun uc => (uc, "transfer", "transfer", "transfer"))).
        apply (In_drop_duplicates String.eqb String.eqb_eq).
        apply in_map. exact Hm.
      - rewrite E. reflexivity. }
    congruence.
  - intros H. apply not_true_is_false. intros Ex.
    apply existsb_exists in Ex. destruct Ex as (k & Hk & Hn).
    apply in_map_iff in Hk. destruct Hk as (uc & <- & Huc).
    apply drop_duplicates_In in Huc.
    apply in_map_iff in Huc. destruct Huc as (m & <- & Hm).
    unfold transfer_key in H. rewrite (H m Hm) in Hn. discriminate.
Qed.

Lemma length_pos_iff {A : Type} (l : list A) :
  (0 <? Z.of_nat (List.length l)) = false <-> l = [].
Proof.
  destruct l; simpl; split; try reflexivity; discriminate.
Qed.

(** The report of [verify_weight_config], block by block. *)
Lemma verify_weight_config_error_str weights modes_df routes
      capacity_constraint :
  let error_str :=
    ((match missing_demand_modes modes_df weights with
      | [] => []
      | rows => [MissingDemandModes rows]
      end)
     ++ (match missing_implicit modes_df weights with
         | [] => []
         | rows => [MissingImplicitModes rows]
         end)
     ++ snd (apply_capacity_constraint weights capacity_constraint))%list in
  snd (verify_weight_config weights modes_df routes capacity_constraint)
  = match error_str with
    | [] => Returned (to_csv (add_numeric_mode_id routes
                                (fst (apply_capacity_constraint
                                        weights capacity_constraint)))
                             OUTPUT_WEIGHTS_FILE weights_file_columns " " true)
    | _ => SysExit 2 error_str
    end.
Proof.
  intros error_str. subst error_str. unfold verify_weight_config.
  destruct (apply_capacity_constraint weights capacity_constraint)
    as [weights' error3].
  cbn [fst snd].
  destruct (0 <? _) eqn:E.
  - destruct (_ ++ _)%list; [discriminate | reflexivity].
  - apply length_pos_iff in E. rewrite E. reflexivity.
Qed.

Lemma capacity_errors weights capacity_constraint :
  snd (apply_capacity_constraint weights capacity_constraint)
  = if capacity_constraint && existsb is_at_capacity weights
    then [ExplicitAtCapacity (filter is_at_capacity weights)]
    else [].
Proof.
  unfold apply_capacity_constraint.
  destruct capacity_constraint; [| reflexivity].
  rewrite length_filter_pos_iff.
  destruct (existsb is_at_capacity weights); reflexivity.
Qed.

(** X2.  [verify_weight_config] returns exactly when every combination of
    the demand has a weight row, every user class of the demand has a
    transfer weight row and, under the capacity constraint, no
    "at_capacity" row is configured; in every other case it ends in
    [sys.exit(2)] with a non-empty report. *)
Theorem verify_weight_config_outcome (weights : list WeightRow)
    (modes_df : list ModeRow) (routes : list (string * Z))
    (capacity_constraint : bool) :
  let outcome :=
    snd (verify_weight_config weights modes_df routes capacity_constraint) in
  if demand_covered modes_df weights && transfer_covered modes_df weights &&
     negb (capacity_constraint && existsb is_at_capacity weights)
  then exists weights_file, outcome = Returned weights_file
  else exists error_str, outcome = SysExit 2 error_str /\ error_str <> [].
Proof.
  intros outcome. subst outcome.
  rewrite verify_weight_config_error_str, capacity_errors.
  destruct (demand_covered modes_df weights) eqn:E1.
  - apply missing_demand_modes_nil in E1. rewrite E1.
    destruct (transfer_covered modes_df weights) eqn:E2.
    + apply missing_implicit_nil in E2. rewrite E2.
      destruct (capacity_constraint && existsb is_at_capacity weights);
        simpl; eexists; try split; try reflexivity; discriminate.
    + destruct (missing_implicit modes_df weights) eqn:E.
      * apply missing_implicit_nil in E. congruence.
      * simpl. eexists. split; [reflexivity | discriminate].
  - destruct (missing_demand_modes modes_df weights) eqn:E.
    + apply missing_demand_modes_nil in E. congruence.
    + simpl. eexists. split; [reflexivity | discriminate].
Qed.

Lemma exits_with_report (outcome : Outcome) (es : list ConfigError)
      (f : CsvFile) code error_str :
  outcome = match es with [] => Returned f | _ => SysExit 2 es end ->
  outcome = SysExit code error_str -> code = 2 /\ error_str = es.
Proof. intros -> H. destruct es; inversion H; auto. Qed.

(** X3.  When [verify_weight_config] exits, the exit code is 2 and the
    report holds every failed check at once: each combination of the demand
    without a weight row, the transfer rows missing for a user class, and
    the "at_capacity" rows that conflict with the capacity constraint. *)
Theorem verify_weight_config_report (weights : list WeightRow)
    (modes_df : list ModeRow) (routes : list (string * Z))
    (capacity_constraint : bool) (code : Z) (error_str : list ConfigError) :
  snd (verify_weight_config weights modes_df routes capacity_constraint)
  = SysExit code error_str ->
  code = 2 /\
  (forall m, In m modes_df -> existsb (modes_on m) weights = false ->
             exists rows, In (MissingDemandModes rows) error_str /\ In m rows) /\
  (forall m, In m modes_df ->
             existsb (implicit_on (transfer_key m)) weights = false ->
             exists rows, In (MissingImplicitModes rows) error_str /\
                          In (transfer_key m) rows) /\
  (capacity_constraint = true -> existsb is_at_capacity weights = true ->
   In (ExplicitAtCapacity (filter is_at_capacity weights)) error_str).
Proof.
  intros H.
  destruct (exits_with_report _ _ _ _ _
              (verify_weight_config_error_str weights modes_df routes
                                              capacity_constraint) H)
    as [-> ->].
  split; [reflexivity|]. split; [| split].
  - intros m Hm Hno.
    assert (Hin : In m (missing_demand_modes modes_df weights)).
    { unfold missing_demand_modes. rewrite merge_left_unmatched.
      apply filter_In. rewrite Hno. auto. }
    destruct (missing_demand_modes modes_df weights) as [| x rows];
      [destruct Hin|].
    exists (x :: rows). split; [left; reflexivity | exact Hin].
  - intros m Hm Hno.
    assert (Hin : In (transfer_key m) (missing_implicit modes_df weights)).
    { unfold missing_implicit.
      rewrite merge_left_unmatched, implicit_df_rows.
      apply filter_In. rewrite Hno. split; [| reflexivity].
      apply (in_map (fun uc => (uc, "transfer", "transfer", "transfer"))).
      apply (In_drop_duplicates String.eqb String.eqb_eq).
      apply in_map. exact Hm. }
    destruct (missing_implicit modes_df weights) as [| x rows];
      [destruct Hin|].
    exists (x :: rows). split; [| exact Hin].
    apply in_or_app. right. apply in_or_app. left. left. reflexivity.
  - intros -> Hcap. rewrite capacity_errors, Hcap.
    apply in_or_app. right. apply in_or_app. right. left. reflexivity.
Qed.

Lemma verify_weight_config_report_witness :
  exists error_str,
    snd (verify_weight_config
           Examples.weights1
           (MoreExamples.bike :: MoreExamples.student :: Examples.modes0)
           Examples.routes0 true)
    = SysExit 2 error_str /\
    (exists rows, In (MissingDemandModes rows) error_str /\
                  In MoreExamples.bike rows) /\
    (exists rows, In (MissingImplicitModes rows) error_str /\
                  In (transfer_key MoreExamples.student) rows) /\
    In (ExplicitAtCapacity (filter is_at_capacity Examples.weights1))
       error_str.
Proof.
  eexists.
  assert (H : snd (verify_weight_config
                     Examples.weights1
                     (MoreExamples.bike :: MoreExamples.student
                                        :: Examples.modes0)
                     Examples.routes0 true)
              = SysExit 2 _) by (vm_compute; reflexivity).
  split; [exact H|].
  destruct (verify_weight_config_report _ _ _ _ _ _ H) as (_ & H1 & H2 & H3).
  split; [| split].
  - apply (H1 MoreExamples.bike); [left; reflexivity | reflexivity].
  - apply (H2 MoreExamples.student);
      [right; left; reflexivity | reflexivity].
  - apply H3; reflexivity.
Defined.

Lemma at_capacity_after_constraint (weights : list WeightRow) :
  existsb is_transit weights || existsb is_at_capacity weights = true ->
  existsb is_at_capacity (fst (apply_capacity_constraint weights true)) = true.
Proof.
  intros H. unfold apply_capacity_constraint.
  rewrite length_filter_pos_iff.
  destruct (existsb is_at_capacity weights) eqn:Ecap; [exact Ecap|].
  rewrite orb_false_r in H.
  apply existsb_exists in H. destruct H as (w & Hw & Ht).
  cbn [fst]. apply existsb_exists.
  exists (at_capacity_row (transit_key w)). split.
  - apply (Permutation_in _ (sort_values_Permutation weight_leb _)).
    apply in_or_app. right. unfold transit_weights_df.
    apply in_map. apply (In_drop_duplicates key4_eqb key4_eqb_eq).
    apply in_map. apply filter_In. auto.
  - reflexivity.
Qed.

(** X4.  The capacity constraint can be applied once: a second call of
    [verify_weight_config] with the constraint, on the weight table a first
    such call left, exits, whenever the first table had a transit weight
    (or an "at_capacity" weight of its own). *)
Theorem verify_weight_config_second_call (weights : list WeightRow)
    (modes_df modes_df' : list ModeRow) (routes routes' : list (string * Z)) :
  existsb is_transit weights || existsb is_at_capacity weights = true ->
  let table :=
    weight_rows (fst (verify_weight_config weights modes_df routes true)) in
  exists error_str,
    snd (verify_weight_config table modes_df' routes' true)
    = SysExit 2 error_str /\
    In (ExplicitAtCapacity (filter is_at_capacity table)) error_str.
Proof.
  intros H table. subst table.
  rewrite verify_weight_config_table.
  apply at_capacity_after_constraint in H.
  rewrite verify_weight_config_error_str, capacity_errors, H.
  cbn [andb].
  match goal with
  | |- context [match ?l with [] => _ | _ => _ end] =>
      destruct l eqn:E;
      [apply app_eq_nil in E; destruct E as [_ E];
       apply app_eq_nil in E; destruct E as [_ E]; discriminate |]
  end.
  rewrite <- E. eexists. split; [reflexivity|].
  apply in_or_app. right. apply in_or_app. right. left. reflexivity.
Qed.

Lemma verify_weight_config_second_call_witness :
  exists first_file error_str,
    snd (verify_weight_config Examples.weights0 Examples.modes0
                              Examples.routes0 true)
    = Returned first_file /\
    snd (verify_weight_config
           (weight_rows (fst (verify_weight_config
                                Examples.weights0 Examples.modes0
                                Examples.routes0 true)))
           Examples.modes0 Examples.routes0 true)
    = SysExit 2 error_str.
Proof.
  eexists.
  destruct (verify_weight_config_second_call
              Examples.weights0 Examples.modes0 Examples.modes0
              Examples.routes0 Examples.routes0 eq_refl)
    as (error_str & H & _).
  exists error_str. split; [reflexivity | exact H].
Defined.

(* ================================================================== *)
(** * What calculate_cost keeps, and when it raises *)

(** X5.  [calculate_cost] returns the rows of the path frame and of the
    link frame it was given, each once and in the same order, with its
    columns added: no path and no link is dropped, repeated or moved. *)
Theorem calculate_cost_keeps_rows (cfg : Config) (weights : list NumWeightRow)
    (cols : LinkColumns) (iteration simulation_iteration : Z)
    (STOCH_DISPERSION : Q) (frames returned : PathsetFrames)
    (trip_list_df : list TripRow) (transfers_df : TransfersDF)
    (walk_df drive_df : AccessDF) :
  calculate_cost cfg weights cols iteration simulation_iteration
                 STOCH_DISPERSION frames trip_list_df transfers_df
                 walk_df drive_df = Ok returned ->
  exists paths' links',
    returned = Costed paths' links' /\
    map fst paths' = fst (drop_sim_columns frames) /\
    map fst links' = snd (drop_sim_columns frames).
Proof.
  intros H. apply calculate_cost_frames in H.
  destruct H as (costs & _ & ->).
  do 2 eexists. split; [reflexivity|].
  rewrite !map_map. cbn [fst]. rewrite !map_id. auto.
Qed.

Lemma calculate_cost_keeps_rows_witness :
  exists paths' links',
    Examples.returned0 = Costed paths' links' /\
    map fst paths' = Examples.paths0 /\
    map fst links' = Examples.links0.
Proof.
  assert (Hrun :
    calculate_cost Examples.cfg0 Examples.numbered0 Examples.cols0 1 0 1%Q
                   (Uncosted Examples.paths0 Examples.links0) Examples.trips0
                   Examples.transfers0 Examples.walk0 Examples.drive0
    = Ok Examples.returned0) by run_example.
  apply (calculate_cost_keeps_rows _ _ _ _ _ _ _ _ _ _ _ _ Hrun).
Defined.

Lemma merge_left_keeps {A B : Type} (on : A -> B -> bool) (left : list A)
      (right : list B) (a : A) :
  In a left ->
  exists b, In (a, b) (merge_left on left right) /\
            (existsb (on a) right = false -> b = None).
Proof.
  intros H. unfold merge_left.
  assert (Hm : exists b, In (a, b) (left_matches on right a) /\
                         (existsb (on a) right = false -> b = None)).
  { unfold left_matches.
    destruct (filter (on a) right) as [| b bs] eqn:E.
    - exists None. split; [left; reflexivity | reflexivity].
    - exists (Some b). split; [left; reflexivity|].
      intros Hno. apply filter_nil_iff in Hno. congruence. }
  destruct Hm as (b & Hb & Hnone).
  exists b. split; [| exact Hnone].
  apply in_flat_map. exists a. auto.
Qed.

Lemma link_demand_mode_missing (l : LinkRow) (t : option TripRow) :
  (linkmode l <> STATE_MODE_TRANSFER /\ t = None) \/
  known_linkmode l = false ->
  link_demand_mode l t = None.
Proof.
  unfold link_demand_mode, known_linkmode.
  intros [[Hm ->] | Hk].
  - apply String.eqb_neq in Hm. rewrite Hm.
    repeat destruct (_ =? _)%string; reflexivity.
  - apply orb_false_iff in Hk. destruct Hk as [Hk ->].
    apply orb_false_iff in Hk. destruct Hk as [Hk ->].
    apply orb_false_iff in Hk. destruct Hk as [-> ->]. reflexivity.
Qed.

(** X6.  [calculate_cost] fails its assertion on the demand mode when the
    link frame holds an access, egress or transit link of a traveler-trip
    that the trip list does not have, or a link whose mode is none of
    access, egress, transit and transfer. *)
Theorem calculate_cost_asserts_demand_mode (cfg : Config)
    (weights : list NumWeightRow) (cols : LinkColumns)
    (iteration simulation_iteration : Z) (STOCH_DISPERSION : Q)
    (frames : PathsetFrames) (trip_list_df : list TripRow)
    (transfers_df : TransfersDF) (walk_df drive_df : AccessDF) (l : LinkRow) :
  In l (snd (drop_sim_columns frames)) ->
  (linkmode l <> STATE_MODE_TRANSFER /\
   existsb (trip_on l) trip_list_df = false) \/
  known_linkmode l = false ->
  calculate_cost cfg weights cols iteration simulation_iteration
                 STOCH_DISPERSION frames trip_list_df transfers_df
                 walk_df drive_df = Raised AssertionError.
Proof.
  intros Hin Hbad.
  unfold calculate_cost, final_cost_df, pathset_links_cost_df.
  destruct (merge_left_keeps trip_on _ trip_list_df l Hin) as (t & Ht & Hnone).
  assert (Hmode : link_demand_mode l t = None).
  { apply link_demand_mode_missing.
    destruct Hbad as [[Hm Hno] | Hk]; [left | right]; auto. }
  match goal with
  | |- context [forallb ?f ?rows] =>
      assert (Hall : forallb f rows = false)
  end.
  { apply not_true_is_false. intros Hall.
    rewrite forallb_forall in Hall.
    specialize (Hall (link_cost_row (l, t)) (in_map link_cost_row _ _ Ht)).
    cbn [link_cost_row lc_demand_mode fst snd] in Hall.
    rewrite Hmode in Hall. discriminate. }
  rewrite Hall. reflexivity.
Qed.

Lemma calculate_cost_asserts_demand_mode_witness :
  calculate_cost Examples.cfg0 Examples.numbered0 Examples.cols0 1 0 1%Q
                 (Uncosted Examples.paths0
                           (MoreExamples.stray_link :: Examples.links0))
                 Examples.trips0 Examples.transfers0 Examples.walk0
                 Examples.drive0 = Raised AssertionError /\
  calculate_cost Examples.cfg0 Examples.numbered0 Examples.cols0 1 0 1%Q
                 (Uncosted Examples.paths0
                           (MoreExamples.odd_link :: Examples.links0))
                 Examples.trips0 Examples.transfers0 Examples.walk0
                 Examples.drive0 = Raised AssertionError.
Proof.
  split.
  - apply (calculate_cost_asserts_demand_mode _ _ _ _ _ _ _ _ _ _ _
             MoreExamples.stray_link).
    + left. reflexivity.
    + left. split; [discriminate | reflexivity].
  - apply (calculate_cost_asserts_demand_mode _ _ _ _ _ _ _ _ _ _ _
             MoreExamples.odd_link).
    + left. reflexivity.
    + right. reflexivity.
Defined.

(* ================================================================== *)
(** * The rows of the cost frame *)

Lemma merge_left_Some {A B : Type} (on : A -> B -> bool) (left : list A)
      (right : list B) (a : A) (b : B) :
  In (a, Some b) (merge_left on left right) <->
  In a left /\ In b right /\ on a b = true.
Proof.
  unfold merge_left. rewrite in_flat_map. split.
  - intros (a' & Ha' & H). unfold left_matches in H.
    destruct (filter (on a') right) as [| b' bs] eqn:E.
    + destruct H as [[=] | []].
    + apply in_map_iff in H. destruct H as (y & [= <- <-] & Hy).
      rewrite <- E in Hy. apply filter_In in Hy. tauto.
  - intros (Ha & Hb & Hon). exists a. split; [exact Ha|].
    unfold left_matches.
    assert (Hf : In b (filter (on a) right)) by (apply filter_In; auto).
    destruct (filter (on a) right) as [| b' bs]; [destruct Hf|].
    apply (in_map (fun b0 => (a, Some b0))). exact Hf.
Qed.

Lemma merge_inner_In {A B : Type} (on : A -> B -> bool) (left : list A)
      (right : list B) (a : A) (b : B) :
  In (a, b) (merge_inner on left right) <->
  In a left /\ In b right /\ on a b = true.
Proof.
  unfold merge_inner. rewrite in_flat_map. split.
  - intros (a' & Ha' & H).
    apply in_map_iff in H. destruct H as (y & [= <- <-] & Hy).
    apply filter_In in Hy. tauto.
  - intros (Ha & Hb & Hon). exists a. split; [exact Ha|].
    apply in_map. apply filter_In. auto.
Qed.

(** The bump iteration the cost computation uses. *)
Lemma pathset_links_cost_df_In simulation_iteration links trip_list_df out lc :
  pathset_links_cost_df simulation_iteration links trip_list_df = Ok out ->
  (In lc out <->
   exists l t,
     In (l, t) (merge_left trip_on links trip_list_df) /\
     lc = if simulation_iteration =? 0
          then set_bump_iter (-1) (link_cost_row (l, t))
          else link_cost_row (l, t)).
Proof.
  unfold pathset_links_cost_df.
  destruct (forallb _ _); [| discriminate].
  intros [= <-].
  destruct (simulation_iteration =? 0).
  - rewrite map_map, in_map_iff. split.
    + intros ([l t] & <- & H). eauto.
    + intros (l & t & H & ->). exists (l, t). auto.
  - rewrite in_map_iff. split.
    + intros ([l t] & <- & H). eauto.
    + intros (l & t & H & ->). exists (l, t). auto.
Qed.

Lemma cost_df_In links weights (r : CostRow) :
  In r (cost_df links weights) <->
  In (cr_link r) links /\ In (cr_weight r) weights /\
  weights_on (cr_link r) (cr_weight r) = true /\ var_value r = None.
Proof.
  unfold cost_df. rewrite in_map_iff. split.
  - intros ([lc w] & <- & H). apply merge_inner_In in H.
    cbn [cr_link cr_weight var_value fst snd]. tauto.
  - intros (Hl & Hw & Hon & Hv). exists (cr_link r, cr_weight r). split.
    + destruct r as [lc w v]. cbn in *. subst v. reflexivity.
    + apply merge_inner_In. auto.
Qed.

Lemma same_match_refl r : same_match r r.
Proof. split; reflexivity. Qed.

Lemma same_match_trans r1 r2 r3 :
  same_match r1 r2 -> same_match r2 r3 -> same_match r1 r3.
Proof. unfold same_match. intros [-> ->] [-> ->]. auto. Qed.

Lemma use_access_columns_match mode_list m columns (r : CostRow) :
  same_match (fold_left (use_access_column mode_list m) columns r) r.
Proof.
  revert r. induction columns as [| c columns IH]; intros r; simpl.
  - apply same_match_refl.
  - eapply same_match_trans; [apply IH|].
    unfold use_access_column.
    destruct (is_join_column c); [apply same_match_refl|].
    apply loc_set_frame.
Qed.

Lemma merge_access_links_match cfg mode_list df rows out :
  merge_access_links cfg mode_list df rows = Ok out ->
  (forall r, In r out -> exists r0, In r0 rows /\ same_match r r0) /\
  (forall r0, In r0 rows -> exists r, In r out /\ same_match r r0).
Proof.
  unfold merge_access_links.
  destruct (Z.of_nat (List.length (acc_rows df)) =? 0).
  - intros [= <-]. split; intros r Hr; exists r;
      auto using same_match_refl.
  - destruct (_ =? 0); [| discriminate].
    intros [= <-]. split.
    + intros r Hr.
      apply in_map_iff in Hr. destruct Hr as ([r0 m] & <- & Hr).
      apply merge_left_In in Hr.
      exists r0. split; [exact Hr | apply use_access_columns_match].
    + intros r0 Hr0.
      destruct (merge_left_keeps access_on rows
                  (map (format_access_row cfg) (acc_rows df)) r0 Hr0)
        as (m & Hm & _).
      eexists. split.
      * apply in_map_iff. exists (r0, m). split; [reflexivity | exact Hm].
      * apply use_access_columns_match.
Qed.

Lemma cost_accegr_df_match cfg rows trip_list_df walk_df drive_df out :
  cost_accegr_df cfg rows trip_list_df walk_df drive_df = Ok out ->
  (forall r, In r (map fst out) -> exists r0, In r0 rows /\ same_match r r0) /\
  (forall r0, In r0 rows -> exists r, In r (map fst out) /\ same_match r r0).
Proof.
  unfold cost_accegr_df. intros H.
  apply bind_Ok in H. destruct H as (rows1 & H1 & H).
  apply bind_Ok in H. destruct H as (rows2 & H2 & H).
  injection H as <-.
  destruct (merge_access_links_match _ _ _ _ _ H1) as [B1 F1].
  destruct (merge_access_links_match _ _ _ _ _ H2) as [B2 F2].
  assert (Hpd : forall p, same_match (fst (preferred_delay p)) (fst p)).
  { intros p. destruct (preferred_delay_frame p) as (Hl & Hw & _).
    split; assumption. }
  split.
  - intros r Hr.
    apply in_map_iff in Hr. destruct Hr as (p & <- & Hp).
    apply in_map_iff in Hp. destruct Hp as ([r2 t] & <- & Hp).
    apply merge_left_In in Hp.
    destruct (B2 _ Hp) as (r1 & Hr1 & E2).
    destruct (B1 _ Hr1) as (r0 & Hr0 & E1).
    exists r0. split; [exact Hr0|].
    eapply same_match_trans; [apply Hpd|]. cbn [fst].
    eapply same_match_trans; eassumption.
  - intros r0 Hr0.
    destruct (F1 _ Hr0) as (r1 & Hr1 & E1).
    destruct (F2 _ Hr1) as (r2 & Hr2 & E2).
    destruct (merge_left_keeps (fun (r : CostRow) t => trip_on r t) rows2
                               trip_list_df r2 Hr2) as (t & Ht & _).
    exists (fst (preferred_delay (r2, t))). split.
    + apply in_map. apply in_map. exact Ht.
    + eapply same_match_trans; [apply Hpd|]. cbn [fst].
      eapply same_match_trans; eassumption.
Qed.

Lemma cost_transfer_row_match cfg columns (p : CostRow * option TransferRow) :
  same_match (fst (cost_transfer_row cfg columns p)) (fst p).
Proof.
  destruct p as [r x].
  unfold cost_transfer_row, transfer_penalty_default, transfer_zero_walk,
    transfer_walk_time.
  rewrite loc_set2_spec, transfer_columns_spec, !loc_set2_spec.
  split; reflexivity.
Qed.

Lemma cost_transfer_df_match cfg rows transfers_df :
  (forall r, In r (map fst (cost_transfer_df cfg rows transfers_df)) ->
             exists r0, In r0 rows /\ same_match r r0) /\
  (forall r0, In r0 rows ->
              exists r, In r (map fst (cost_transfer_df cfg rows transfers_df))
                        /\ same_match r r0).
Proof.
  unfold cost_transfer_df. split.
  - intros r Hr.
    apply in_map_iff in Hr. destruct Hr as (p & <- & Hp).
    apply in_map_iff in Hp. destruct Hp as ([r0 x] & <- & Hp).
    apply merge_left_In in Hp. exists r0.
    split; [exact Hp | apply cost_transfer_row_match].
  - intros r0 Hr0.
    destruct (merge_left_keeps transfer_on rows (xf_rows transfers_df) r0 Hr0)
      as (x & Hx & _).
    eexists. split.
    + apply in_map. apply in_map. exact Hx.
    + apply cost_transfer_row_match.
Qed.

Lemma known_linkmode_category (r : CostRow) :
  known_linkmode r = is_accegr r || is_trip r || is_transfer r.
Proof. reflexivity. Qed.

Lemma resolved_cost_df_match cfg cols costs trip_list_df transfers_df walk_df
      drive_df out :
  resolved_cost_df cfg cols costs trip_list_df transfers_df walk_df drive_df
  = Ok out ->
  (forall r, In r out -> exists r0, In r0 costs /\ same_match r r0) /\
  (forall r0, In r0 costs -> known_linkmode r0 = true ->
              exists r, In r out /\ same_match r r0) /\
  (forall r, In r out -> var_value r <> None).
Proof.
  unfold resolved_cost_df. intros H.
  apply bind_Ok in H. destruct H as (accegr & Ha & H).
  destruct (0 <? _) eqn:Emiss; [discriminate|]. injection H as <-.
  destruct (cost_accegr_df_match _ _ _ _ _ _ Ha) as [Ba Fa].
  destruct (cost_transfer_df_match cfg (filter is_transfer costs) transfers_df)
    as [Bx Fx].
  split; [| split].
  - intros r Hr. apply in_app_or in Hr. destruct Hr as [Hr | Hr].
    + destruct (Ba _ Hr) as (r0 & Hr0 & E).
      apply filter_In in Hr0. exists r0. tauto.
    + apply in_app_or in Hr. destruct Hr as [Hr | Hr].
      * unfold cost_trip_df in Hr.
        apply in_map_iff in Hr. destruct Hr as (r0 & <- & Hr0).
        apply filter_In in Hr0. exists r0.
        split; [tauto | apply cost_trip_row_frame].
      * destruct (Bx _ Hr) as (r0 & Hr0 & E).
        apply filter_In in Hr0. exists r0. tauto.
  - intros r0 Hr0 Hk. rewrite known_linkmode_category in Hk.
    apply orb_true_iff in Hk. destruct Hk as [Hk | Hk];
      [apply orb_true_iff in Hk; destruct Hk as [Hk | Hk]|].
    + destruct (Fa r0) as (r & Hr & E); [apply filter_In; auto|].
      exists r. split; [apply in_or_app; left; exact Hr | exact E].
    + exists (cost_trip_row cfg cols r0). split.
      * apply in_or_app. right. apply in_or_app. left.
        apply in_map. apply filter_In. auto.
      * apply cost_trip_row_frame.
    + destruct (Fx r0) as (r & Hr & E); [apply filter_In; auto|].
      exists r. split; [| exact E].
      apply in_or_app. right. apply in_or_app. right. exact Hr.
  - intros r Hr Hnone.
    apply Z.ltb_ge in Emiss.
    assert (Hm : forall rows,
               In r rows -> (0 < Z.of_nat (List.length (missing rows)))%Z).
    { intros rows Hin.
      assert (In r (missing rows))
        by (apply filter_In; unfold is_none; rewrite Hnone; auto).
      destruct (missing rows); [contradiction | simpl; lia]. }
    apply in_app_or in Hr. destruct Hr as [Hr | Hr];
      [| apply in_app_or in Hr; destruct Hr as [Hr | Hr]];
      apply Hm in Hr; lia.
Qed.

Lemma pathset_links_cost_df_known simulation_iteration links trip_list_df out
      (lc : LinkCostRow) :
  pathset_links_cost_df simulation_iteration links trip_list_df = Ok out ->
  In lc out -> known_linkmode lc = true.
Proof.
  intros H Hin.
  apply (pathset_links_cost_df_In _ _ _ _ lc H) in Hin.
  destruct Hin as (l & t & Hlt & ->).
  unfold pathset_links_cost_df in H.
  destruct (forallb _ _) eqn:Hall; [| discriminate].
  rewrite forallb_forall in Hall.
  specialize (Hall (link_cost_row (l, t)) (in_map link_cost_row _ _ Hlt)).
  cbn [link_cost_row lc_demand_mode fst snd] in Hall.
  assert (Hk : known_linkmode l = true).
  { destruct (known_linkmode l) eqn:Hk; [reflexivity|].
    rewrite (link_demand_mode_missing l t (or_intror Hk)) in Hall.
    discriminate. }
  destruct (simulation_iteration =? 0); exact Hk.
Qed.

(** X7.  When [calculate_cost] returns, every row of its cost frame pairs a
    link of the link frame with a weight row of the link's user class, link
    mode, demand mode and supply mode, and has a variable value. *)
Theorem cost_frame_rows (cfg : Config) (weights : list NumWeightRow)
    (cols : LinkColumns) (iteration simulation_iteration : Z)
    (STOCH_DISPERSION : Q) (frames returned : PathsetFrames)
    (trip_list_df : list TripRow) (transfers_df : TransfersDF)
    (walk_df drive_df : AccessDF) :
  calculate_cost cfg weights cols iteration simulation_iteration
                 STOCH_DISPERSION frames trip_list_df transfers_df
                 walk_df drive_df = Ok returned ->
  exists costs,
    final_cost_df cfg weights cols simulation_iteration
                  (snd (drop_sim_columns frames)) trip_list_df transfers_df
                  walk_df drive_df = Ok costs /\
    forall r : CostRow,
      In r costs ->
      In (lc_link r) (snd (drop_sim_columns frames)) /\
      In (cr_weight r) weights /\
      weights_on r (cr_weight r) = true /\
      exists value, var_value r = Some value.
Proof.
  intros H. apply calculate_cost_frames in H.
  destruct H as (costs & Hcosts & _).
  exists costs. split; [exact Hcosts|].
  intros r Hr.
  destruct (final_cost_df_rows _ _ _ _ _ _ _ _ _ _ Hcosts r Hr) as [Hlink _].
  unfold final_cost_df in Hcosts.
  apply bind_Ok in Hcosts. destruct Hcosts as (lcs & _ & Hres).
  destruct (resolved_cost_df_match _ _ _ _ _ _ _ _ Hres) as (B & _ & V).
  destruct (B r Hr) as (r0 & Hr0 & [El Ew]).
  apply cost_df_In in Hr0. destruct Hr0 as (_ & Hw & Hon & _).
  rewrite El, Ew. repeat split; try assumption.
  - rewrite <- El. exact Hlink.
  - specialize (V r Hr). destruct (var_value r) as [v |]; [eauto | congruence].
Qed.

Lemma cost_frame_rows_witness :
  exists costs,
    final_cost_df Examples.cfg0 Examples.numbered0 Examples.cols0 0
                  Examples.links0 Examples.trips0 Examples.transfers0
                  Examples.walk0 Examples.drive0 = Ok costs /\
    forall r : CostRow,
      In r costs ->
      In (lc_link r) Examples.links0 /\
      In (cr_weight r) Examples.numbered0 /\
      weights_on r (cr_weight r) = true /\
      exists value, var_value r = Some value.
Proof.
  assert (Hrun :
    calculate_cost Examples.cfg0 Examples.numbered0 Examples.cols0 1 0 1%Q
                   (Uncosted Examples.paths0 Examples.links0) Examples.trips0
                   Examples.transfers0 Examples.walk0 Examples.drive0
    = Ok Examples.returned0) by run_example.
  apply (cost_frame_rows _ _ _ _ _ _ _ _ _ _ _ _ Hrun).
Defined.

Lemma cost_trip_row_unknown cfg cols (r : CostRow) :
  transit_weight_name (weight_name (cr_weight r)) = false ->
  var_value (cost_trip_row cfg cols r) = var_value r.
Proof.
  unfold transit_weight_name. intros H.
  apply orb_false_iff in H. destruct H as [H H4].
  apply orb_false_iff in H. destruct H as [H H3].
  apply orb_false_iff in H. destruct H as [H1 H2].
  destruct r as [l w v]. cbn [cr_weight] in *.
  unfold cost_trip_row, loc_set, is_weight. cbn [cr_weight].
  rewrite H1. cbn [cr_weight]. rewrite H2. cbn [cr_weight].
  rewrite H3. cbn [cr_weight]. rewrite H4. cbn [cr_weight].
  rewrite H4. reflexivity.
Qed.

Lemma pathset_links_cost_df_error simulation_iteration links trip_list_df e :
  pathset_links_cost_df simulation_iteration links trip_list_df = Raised e ->
  e = AssertionError.
Proof.
  unfold pathset_links_cost_df.
  destruct (forallb _ _); [discriminate | intros [= <-]; reflexivity].
Qed.

Lemma merge_access_links_error cfg mode_list df rows e :
  merge_access_links cfg mode_list df rows = Raised e -> e = AssertionError.
Proof.
  unfold merge_access_links.
  destruct (_ =? 0); [discriminate|].
  destruct (_ =? 0); [discriminate | intros [= <-]; reflexivity].
Qed.

Lemma cost_accegr_df_error cfg rows trip_list_df walk_df drive_df e :
  cost_accegr_df cfg rows trip_list_df walk_df drive_df = Raised e ->
  e = AssertionError.
Proof.
  unfold cost_accegr_df.
  destruct (merge_access_links cfg (WALK_MODE_NUMS cfg) walk_df rows)
    as [rows1 | e1] eqn:E1; cbn [bind].
  - destruct (merge_access_links cfg (DRIVE_MODE_NUMS cfg) drive_df rows1)
      as [rows2 | e2] eqn:E2; cbn [bind]; [discriminate|].
    intros [= <-]. eapply merge_access_links_error, E2.
  - intros [= <-]. eapply merge_access_links_error, E1.
Qed.

(** X8.  [calculate_cost] does not return when a transit link is matched
    by a weight row whose name is none of "in_vehicle_time_min",
    "wait_time_min", "at_capacity" and "overcap": unless an assertion fails
    first, it raises NotImplementedError for the missing variable value. *)
Theorem calculate_cost_unknown_transit_weight (cfg : Config)
    (weights : list NumWeightRow) (cols : LinkColumns)
    (iteration simulation_iteration : Z) (STOCH_DISPERSION : Q)
    (frames : PathsetFrames) (trip_list_df : list TripRow)
    (transfers_df : TransfersDF) (walk_df drive_df : AccessDF)
    (l : LinkRow) (t : TripRow) (w : NumWeightRow) :
  In l (snd (drop_sim_columns frames)) ->
  In t trip_list_df -> trip_on l t = true ->
  In w weights -> weights_on (link_cost_row (l, Some t)) w = true ->
  linkmode l = STATE_MODE_TRIP ->
  transit_weight_name (weight_name w) = false ->
  let result :=
    calculate_cost cfg weights cols iteration simulation_iteration
                   STOCH_DISPERSION frames trip_list_df transfers_df
                   walk_df drive_df in
  result = Raised AssertionError \/
  result = Raised (NotImplementedError "Missing var_values; See log").
Proof.
  intros Hl Ht Hon Hw Hmatch Hmode Hname result. subst result.
  unfold calculate_cost, final_cost_df.
  destruct (pathset_links_cost_df simulation_iteration
              (snd (drop_sim_columns frames)) trip_list_df)
    as [lcs | e] eqn:Elcs; cbn [bind].
  2: { left. apply pathset_links_cost_df_error in Elcs. subst e. reflexivity. }
  unfold resolved_cost_df.
  destruct (cost_accegr_df cfg (filter is_accegr (cost_df lcs weights))
                           trip_list_df walk_df drive_df)
    as [accegr | e] eqn:Eacc; cbn [bind].
  2: { left. apply cost_accegr_df_error in Eacc. subst e. reflexivity. }
  right.
  set (lc := if simulation_iteration =? 0
             then set_bump_iter (-1) (link_cost_row (l, Some t))
             else link_cost_row (l, Some t)).
  assert (Hlc : In lc lcs).
  { apply (pathset_links_cost_df_In _ _ _ _ lc Elcs).
    exists l, (Some t). split; [| reflexivity].
    apply merge_left_Some. auto. }
  assert (Hlc_on : weights_on lc w = true)
    by (subst lc; destruct (simulation_iteration =? 0); exact Hmatch).
  assert (Hlc_mode : linkmode lc = STATE_MODE_TRIP)
    by (subst lc; destruct (simulation_iteration =? 0); exact Hmode).
  set (r0 := {| cr_link := lc; cr_weight := w; var_value := None |}).
  assert (Hr0 : In r0 (filter is_trip (cost_df lcs weights))).
  { apply filter_In. split.
    - apply cost_df_In. cbn. auto.
    - unfold is_trip. cbn. rewrite Hlc_mode. reflexivity. }
  assert (Hmiss : In (cost_trip_row cfg cols r0)
                     (missing (cost_trip_df cfg cols
                                 (filter is_trip (cost_df lcs weights))))).
  { apply filter_In. split; [apply in_map; exact Hr0|].
    rewrite (cost_trip_row_unknown cfg cols r0 Hname). reflexivity. }
  match goal with
  | |- context [0 <? ?n] => assert (Hpos : (0 <? n) = true)
  end.
  { apply Z.ltb_lt.
    destruct (missing (cost_trip_df cfg cols
                         (filter is_trip (cost_df lcs weights))));
      [destruct Hmiss|].
    cbn [List.length]. lia. }
  rewrite Hpos. reflexivity.
Qed.

Lemma calculate_cost_unknown_transit_weight_witness :
  calculate_cost Examples.cfg0 (MoreExamples.crowding :: Examples.numbered0)
                 Examples.cols0 1 0 1%Q
                 (Uncosted Examples.paths0 Examples.links0) Examples.trips0
                 Examples.transfers0 Examples.walk0 Examples.drive0
  = Raised (NotImplementedError "Missing var_values; See log").
Proof.
  assert (Hl : In Examples.bus_missed
                  (snd (drop_sim_columns
                          (Uncosted Examples.paths0 Examples.links0))))
    by (right; left; reflexivity).
  assert (Ht : In Examples.trip1 Examples.trips0) by (left; reflexivity).
  assert (Hw : In MoreExamples.crowding
                  (MoreExamples.crowding :: Examples.numbered0))
    by (left; reflexivity).
  destruct (calculate_cost_unknown_transit_weight
              Examples.cfg0 (MoreExamples.crowding :: Examples.numbered0)
              Examples.cols0 1 0 1%Q
              (Uncosted Examples.paths0 Examples.links0) Examples.trips0
              Examples.transfers0 Examples.walk0 Examples.drive0
              Examples.bus_missed Examples.trip1 MoreExamples.crowding
              Hl Ht eq_refl Hw eq_refl eq_refl eq_refl)
    as [H | H].
  - exfalso. revert H. vm_compute. discriminate.
  - exact H.
Defined.

Lemma nansum_present {N : Type} (plus : N -> N -> N) (zero : N)
      (l : list (option N)) :
  nansum plus zero l <> None <-> exists x, In (Some x) l.
Proof.
  unfold nansum.
  assert (Hp : forall x, In x (present l) <-> In (Some x) l).
  { intros x. unfold present. rewrite in_flat_map. split.
    - intros ([y |] & Hy & Hx); [| destruct Hx].
      destruct Hx as [-> | []]. exact Hy.
    - intros H. exists (Some x). split; [exact H | left; reflexivity]. }
  destruct (present l) as [| y ys] eqn:E.
  - split; [congruence|]. intros (x & Hx). apply Hp in Hx. destruct Hx.
  - split; [| discriminate]. intros _. exists y. apply Hp. left. reflexivity.
Qed.

Lemma link_cost_present (r : CostRow) :
  var_value r <> None -> link_cost r <> None.
Proof.
  unfold link_cost. intros H.
  destruct (0 <=? lc_bump_iter r); [discriminate|].
  destruct (missed_xfer r =? 1); [discriminate|].
  destruct (var_value r); [discriminate | congruence].
Qed.

Lemma weights_on_trip (l : LinkRow) (t : option TripRow) (b : Z)
      (w : NumWeightRow) :
  weights_on (set_bump_iter b (link_cost_row (l, t))) w
  = weights_on (link_cost_row (l, t)) w.
Proof. reflexivity. Qed.

(** X9.  In the returned link frame a link has a cost exactly when some
    weight row matches it: a link of its (trip_list_id_num, pathnum,
    linknum) whose traveler-trip is in the trip list, and a weight row of
    that trip's user class, the link's mode, its demand mode and its supply
    mode.  A link that no weight row matches has a missing cost. *)
Theorem link_cost_present_iff (cfg : Config) (weights : list NumWeightRow)
    (cols : LinkColumns) (iteration simulation_iteration : Z)
    (STOCH_DISPERSION : Q) (frames : PathsetFrames)
    (trip_list_df : list TripRow) (transfers_df : TransfersDF)
    (walk_df drive_df : AccessDF)
    (paths' : list (PathRow * SimPathCols)) (links' : list (LinkRow * option Q))
    (l : LinkRow) (cost : option Q) :
  calculate_cost cfg weights cols iteration simulation_iteration
                 STOCH_DISPERSION frames trip_list_df transfers_df
                 walk_df drive_df = Ok (Costed paths' links') ->
  In (l, cost) links' ->
  (cost <> None <->
   exists l' t w,
     In l' (snd (drop_sim_columns frames)) /\ link_key l' = link_key l /\
     In t trip_list_df /\ trip_on l' t = true /\
     In w weights /\ weights_on (link_cost_row (l', Some t)) w = true).
Proof.
  intros Hrun Hin.
  apply calculate_cost_frames in Hrun.
  destruct Hrun as (costs & Hcosts & [= _ ->]).
  apply in_map_iff in Hin. destruct Hin as (l0 & [= -> <-] & _).
  unfold final_cost_df in Hcosts.
  apply bind_Ok in Hcosts. destruct Hcosts as (lcs & Hlcs & Hres).
  destruct (resolved_cost_df_match _ _ _ _ _ _ _ _ Hres) as (B & F & V).
  unfold link_sim_cost, rows_of_link.
  rewrite nansum_present. split.
  - intros (q & Hq).
    apply in_map_iff in Hq. destruct Hq as (r & _ & Hr).
    apply filter_In in Hr. destruct Hr as [Hr Hkey].
    apply key3_eqb_eq in Hkey.
    destruct (B r Hr) as (r0 & Hr0 & [El Ew]).
    apply cost_df_In in Hr0. destruct Hr0 as (Hlc & Hw & Hon & _).
    apply (pathset_links_cost_df_In _ _ _ _ _ Hlcs) in Hlc.
    destruct Hlc as (l' & t & Hlt & Elc).
    assert (Hon' : weights_on (link_cost_row (l', t)) (cr_weight r0) = true).
    { rewrite Elc in Hon.
      destruct (simulation_iteration =? 0); [| exact Hon].
      rewrite weights_on_trip in Hon. exact Hon. }
    assert (Hl' : lc_link (cr_link r) = l').
    { rewrite El, Elc. destruct (simulation_iteration =? 0); reflexivity. }
    destruct t as [t |].
    + apply merge_left_Some in Hlt. destruct Hlt as (Hl & Ht & Htrip).
      exists l', t, (cr_weight r0).
      repeat split; try assumption.
      rewrite <- Hl'. symmetry. exact Hkey.
    + unfold weights_on in Hon'. cbn in Hon'. discriminate.
  - intros (l' & t & w & Hl & Hkey & Ht & Htrip & Hw & Hon).
    set (lc := if simulation_iteration =? 0
               then set_bump_iter (-1) (link_cost_row (l', Some t))
               else link_cost_row (l', Some t)).
    assert (Hlc : In lc lcs).
    { apply (pathset_links_cost_df_In _ _ _ _ lc Hlcs).
      exists l', (Some t). split; [| reflexivity].
      apply merge_left_Some. auto. }
    assert (Hlc_on : weights_on lc w = true)
      by (subst lc; destruct (simulation_iteration =? 0); exact Hon).
    assert (Hlc_link : lc_link lc = l')
      by (subst lc; destruct (simulation_iteration =? 0); reflexivity).
    set (r0 := {| cr_link := lc; cr_weight := w; var_value := None |}).
    assert (Hr0 : In r0 (cost_df lcs weights))
      by (apply cost_df_In; cbn; auto).
    destruct (F r0 Hr0 (pathset_links_cost_df_known _ _ _ _ _ Hlcs Hlc))
      as (r & Hr & [El Ew]).
    destruct (link_cost r) as [q |] eqn:Eq.
    + exists q. rewrite <- Eq. apply in_map. apply filter_In.
      split; [exact Hr|]. apply key3_eqb_eq.
      rewrite <- Hkey. unfold link_key at 2.
      rewrite El. cbn [r0 cr_link]. rewrite Hlc_link. reflexivity.
    + exfalso. apply (link_cost_present r (V r Hr)). exact Eq.
Qed.

Lemma link_cost_present_iff_witness :
  In (Examples.bus_missed, Some 39996%Q)
     (links_with_cost Examples.links0 (cost_link_df Examples.final0)) /\
  exists l' t w,
    In l' Examples.links0 /\ link_key l' = link_key Examples.bus_missed /\
    In t Examples.trips0 /\ trip_on l' t = true /\
    In w Examples.numbered0 /\
    weights_on (link_cost_row (l', Some t)) w = true.
Proof.
  assert (Hrun :
    calculate_cost Examples.cfg0 Examples.numbered0 Examples.cols0 1 0 1%Q
                   (Uncosted Examples.paths0 Examples.links0) Examples.trips0
                   Examples.transfers0 Examples.walk0 Examples.drive0
    = Ok Examples.returned0) by run_example.
  assert (Hin : In (Examples.bus_missed, Some 39996%Q)
                   (links_with_cost Examples.links0
                                    (cost_link_df Examples.final0)))
    by in_frame.
  split; [exact Hin|].
  apply (proj1 (link_cost_present_iff _ _ _ _ _ _ _ _ _ _ _ _ _ _ _
                  Hrun Hin)).
  discriminate.
Defined.

Lemma link_cost_unpenalised simulation_iteration (r : CostRow) :
  lc_bump_iter r = (if simulation_iteration =? 0 then -1 else bump_iter r) ->
  penalised simulation_iteration r = false ->
  link_cost r = weighted_value r.
Proof.
  unfold penalised, link_cost, weighted_value. intros Hb Hp.
  apply orb_false_iff in Hp. destruct Hp as [Hm Hp].
  rewrite Hb, Hm.
  destruct (simulation_iteration =? 0); cbn [negb andb] in Hp;
    [reflexivity | rewrite Hp; reflexivity].
Qed.

(** X10.  A link that missed no transfer and is not bumped in the cost
    computation costs the sum, over its rows of the cost frame, of variable
    value times weight value. *)
Theorem unpenalised_link_cost (cfg : Config) (weights : list NumWeightRow)
    (cols : LinkColumns) (iteration simulation_iteration : Z)
    (STOCH_DISPERSION : Q) (frames : PathsetFrames)
    (trip_list_df : list TripRow) (transfers_df : TransfersDF)
    (walk_df drive_df : AccessDF)
    (paths' : list (PathRow * SimPathCols)) (links' : list (LinkRow * option Q))
    (l : LinkRow) (cost : option Q) :
  calculate_cost cfg weights cols iteration simulation_iteration
                 STOCH_DISPERSION frames trip_list_df transfers_df
                 walk_df drive_df = Ok (Costed paths' links') ->
  In (l, cost) links' ->
  (forall l', In l' (snd (drop_sim_columns frames)) ->
              link_key l' = link_key l ->
              penalised simulation_iteration l' = false) ->
  exists costs,
    final_cost_df cfg weights cols simulation_iteration
                  (snd (drop_sim_columns frames)) trip_list_df transfers_df
                  walk_df drive_df = Ok costs /\
    cost = nansum Qplus 0%Q (map weighted_value (rows_of_link costs l)).
Proof.
  intros Hrun Hin Hpen.
  apply calculate_cost_frames in Hrun.
  destruct Hrun as (costs & Hcosts & [= _ ->]).
  exists costs. split; [exact Hcosts|].
  apply in_map_iff in Hin. destruct Hin as (l0 & [= -> <-] & _).
  unfold link_sim_cost. f_equal.
  apply map_ext_in. intros r Hr. unfold rows_of_link in Hr.
  apply filter_In in Hr. destruct Hr as [Hr Hkey].
  apply key3_eqb_eq in Hkey.
  destruct (final_cost_df_rows _ _ _ _ _ _ _ _ _ _ Hcosts r Hr)
    as [Hlink Hbump].
  apply (link_cost_unpenalised simulation_iteration r Hbump).
  apply Hpen; [exact Hlink | symmetry; exact Hkey].
Qed.

Lemma unpenalised_link_cost_witness :
  In (Examples.transfer_at_stop, Some 1%Q)
     (links_with_cost Examples.links0 (cost_link_df Examples.final0)) /\
  exists costs,
    final_cost_df Examples.cfg0 Examples.numbered0 Examples.cols0 0
                  Examples.links0 Examples.trips0 Examples.transfers0
                  Examples.walk0 Examples.drive0 = Ok costs /\
    Some 1%Q
    = nansum Qplus 0%Q
             (map weighted_value (rows_of_link costs Examples.transfer_at_stop)).
Proof.
  assert (Hrun :
    calculate_cost Examples.cfg0 Examples.numbered0 Examples.cols0 1 0 1%Q
                   (Uncosted Examples.paths0 Examples.links0) Examples.trips0
                   Examples.transfers0 Examples.walk0 Examples.drive0
    = Ok Examples.returned0) by run_example.
  assert (Hin : In (Examples.transfer_at_stop, Some 1%Q)
                   (links_with_cost Examples.links0
                                    (cost_link_df Examples.final0)))
    by in_frame.
  split; [exact Hin|].
  apply (unpenalised_link_cost _ _ _ _ _ _ _ _ _ _ _ _ _ _ _ Hrun Hin).
  intros l' Hl' Hkey. cbn [drop_sim_columns snd Examples.links0] in Hl'.
  repeat (destruct Hl' as [<- | Hl'];
          [first [discriminate Hkey | reflexivity]|]).
  destruct Hl'.
Defined.

(* ================================================================== *)
(** * Probabilities of the paths of a traveler-trip *)

Lemma sumR_nonneg (l : list R) :
  (forall x, In x l -> 0 <= x)%R ->
  forall e, In e l -> (0 <= e <= sumR l)%R.
Proof.
  induction l as [| x l IH]; intros Hpos e He; [destruct He|].
  assert (Hx : (0 <= x)%R) by (apply Hpos; left; reflexivity).
  assert (Hl : (0 <= sumR l)%R).
  { destruct l as [| y l']; [simpl; lra|].
    assert (0 <= y <= sumR (y :: l'))%R
      by (apply IH; [intros; apply Hpos; right; assumption
                    | left; reflexivity]).
    lra. }
  simpl. destruct He as [-> | He]; [lra|].
  assert (0 <= e <= sumR l)%R
    by (apply IH; [intros; apply Hpos; right; assumption | exact He]).
  lra.
Qed.

Lemma sumR_scaled (l : list R) (k : R) :
  sumR (map (fun e => e / k)%R l) = (sumR l / k)%R.
Proof.
  induction l as [| x l IH]; simpl; [unfold Rdiv; ring|].
  rewrite IH. unfold Rdiv. ring.
Qed.

Lemma sumR_ones (l : list R) :
  (forall e, In e l -> e = 1%R) -> sumR l = INR (List.length l).
Proof.
  induction l as [| x l IH]; intros H; [reflexivity|].
  cbn [sumR fold_right List.length]. fold (sumR l).
  rewrite S_INR, IH, (H x) by (intros; try apply H; simpl; auto). ring.
Qed.

Lemma present_In {N : Type} (l : list (option N)) (x : N) :
  In x (present l) <-> In (Some x) l.
Proof.
  unfold present. rewrite in_flat_map. split.
  - intros ([y |] & Hy & Hx); [| destruct Hx].
    destruct Hx as [-> | []]. exact Hy.
  - intros H. exists (Some x). split; [exact H | left; reflexivity].
Qed.

Lemma finite_values_In (l : list float64) (x : R) :
  In x (finite_values l) <-> In (Finite x) l.
Proof.
  unfold finite_values. rewrite in_flat_map. split.
  - intros ([y |] & Hy & Hx); [| destruct Hx].
    destruct Hx as [-> | []]. exact Hy.
  - intros H. exists (Finite x). split; [exact H | left; reflexivity].
Qed.

Lemma finite_values_length (l : list float64) :
  forallb is_finite l = true ->
  List.length (finite_values l) = List.length l.
Proof.
  induction l as [| [x |] l IH]; simpl; intros H;
    [reflexivity | rewrite IH by exact H; reflexivity | discriminate].
Qed.

(** The weights of a trip: the weight of each of its paths that has a
    cost. *)
Lemma trip_components_In d costs paths (p : PathRow) (c : Q) :
  In p paths ->
  path_sim_cost costs p = Some c ->
  In (numpy_exp (-1 * d * c))
     (trip_components d costs paths (p_trip_list_id_num p)).
Proof.
  intros Hin Hc. unfold trip_components. apply present_In.
  change (Some (numpy_exp (-1 * d * c)))
    with (logsum_component_of d (Some c)).
  rewrite <- Hc.
  apply (in_map (fun p0 => logsum_component_of d (path_sim_cost costs p0))).
  apply filter_In. split; [exact Hin | apply Z.eqb_refl].
Qed.

Lemma trip_components_weight d costs paths trip (w : float64) :
  In w (trip_components d costs paths trip) ->
  exists p c, In p (paths_of_trip trip paths) /\
              path_sim_cost costs p = Some c /\ w = numpy_exp (-1 * d * c).
Proof.
  unfold trip_components. rewrite present_In, in_map_iff.
  intros (p & Hp & Hin).
  destruct (path_sim_cost costs p) as [c |] eqn:Ec; [| discriminate].
  injection Hp as <-. eauto.
Qed.

Lemma trip_components_nonneg d costs paths trip (x : R) :
  In x (finite_values (trip_components d costs paths trip)) -> (0 <= x)%R.
Proof.
  rewrite finite_values_In. intros H.
  apply trip_components_weight in H. destruct H as (p & c & _ & _ & H).
  symmetry in H. apply (numpy_exp_nonneg _ _ H).
Qed.

Lemma trip_components_length d costs paths trip :
  List.length (trip_components d costs paths trip)
  = List.length (filter (fun p => is_some (path_sim_cost costs p))
                        (paths_of_trip trip paths)).
Proof.
  unfold trip_components, present.
  induction (paths_of_trip trip paths) as [| p l IH]; [reflexivity|].
  cbn [map flat_map filter]. rewrite length_app, IH.
  destruct (path_sim_cost costs p); reflexivity.
Qed.

(** The logsum of a trip is the sum of its weights: infinite when one of
    them is, NaN when the trip has no path with a cost. *)
Lemma trip_logsum_components d costs paths trip :
  trip_logsum d costs paths trip
  = match trip_components d costs paths trip with
    | [] => None
    | ws => Some (if forallb is_finite ws
                  then Finite (sumR (finite_values ws))
                  else Infinity)
    end.
Proof.
  unfold trip_logsum, nansum. fold (trip_components d costs paths trip).
  destruct (trip_components d costs paths trip) as [| w ws];
    [reflexivity|].
  rewrite fold_add_Finite, Rplus_0_l. reflexivity.
Qed.

(** A finite logsum: every weight of the trip is finite, and the logsum is
    their sum. *)
Lemma trip_logsum_Finite d costs paths trip (total : R) :
  trip_logsum d costs paths trip = Some (Finite total) ->
  forallb is_finite (trip_components d costs paths trip) = true /\
  total = sumR (finite_values (trip_components d costs paths trip)).
Proof.
  rewrite trip_logsum_components.
  destruct (trip_components d costs paths trip) as [| w ws] eqn:E;
    [discriminate|].
  cbv zeta.
  destruct (forallb is_finite (w :: ws));
    intros H; [injection H as H | discriminate H].
  split; [reflexivity | symmetry; exact H].
Qed.

Lemma divide_Infinity (w : float64) :
  divide (Some w) (Some Infinity)
  = match w with
    | Finite _ => Some (Finite 0)
    | Infinity => None
    end.
Proof. destruct w; reflexivity. Qed.

(** The returned rows of a trip, from the rows of the path frame. *)
Lemma returned_trip_rows d costs paths trip :
  returned_trip trip (map (fun p => (p, path_columns d costs paths p)) paths)
  = map (fun p => (p, path_columns d costs paths p))
        (paths_of_trip trip paths).
Proof. unfold returned_trip, paths_of_trip. apply filter_map_swap. Qed.

Lemma costed_paths_rows d costs paths trip :
  costed_paths
    (returned_trip trip (map (fun p => (p, path_columns d costs paths p)) paths))
  = List.length (filter (fun p => is_some (path_sim_cost costs p))
                        (paths_of_trip trip paths)).
Proof.
  unfold costed_paths. rewrite returned_trip_rows.
  rewrite filter_map_swap, length_map. reflexivity.
Qed.

(** X11.  Every returned path that has a cost has a weight, the float64
    exponential of -dispersion * cost, and its traveler-trip has a logsum,
    which is not negative.  When the logsum is finite and not zero the
    probability is the weight over the logsum and lies between 0 and 1;
    when the logsum is 0.0, every weight of the trip having underflowed,
    the probability is NaN; when the logsum is infinite the probability is
    0.0, or NaN for a path whose own weight is infinite. *)
Theorem path_probability_bounds (cfg : Config) (weights : list NumWeightRow)
    (cols : LinkColumns) (iteration simulation_iteration : Z)
    (STOCH_DISPERSION : Q) (frames : PathsetFrames)
    (trip_list_df : list TripRow) (transfers_df : TransfersDF)
    (walk_df drive_df : AccessDF)
    (paths' : list (PathRow * SimPathCols)) (links' : list (LinkRow * option Q))
    (p : PathRow) (s : SimPathCols) (cost : Q) :
  calculate_cost cfg weights cols iteration simulation_iteration
                 STOCH_DISPERSION frames trip_list_df transfers_df
                 walk_df drive_df = Ok (Costed paths' links') ->
  In (p, s) paths' ->
  sim_cost s = Some cost ->
  exists w L,
    logsum_component s = Some w /\
    w = numpy_exp (-1 * STOCH_DISPERSION * cost) /\
    logsum s = Some L /\
    match L with
    | Finite total =>
        (0 <= total)%R /\
        (total <> 0%R ->
         exists x q,
           w = Finite x /\ q = (x / total)%R /\
           probability s = Some (Finite q) /\ (0 <= q <= 1)%R) /\
        (total = 0%R -> probability s = None)
    | Infinity =>
        probability s = match w with
                        | Finite _ => Some (Finite 0)
                        | Infinity => None
                        end
    end.
Proof.
  intros Hrun Hin Hcost.
  apply calculate_cost_frames in Hrun.
  destruct Hrun as (costs & _ & [= -> _]).
  apply in_map_iff in Hin. destruct Hin as (p0 & [= -> <-] & Hp).
  rewrite sim_cost_path_columns in Hcost.
  rewrite probability_path_columns, logsum_path_columns.
  unfold path_columns at 1. cbn [logsum_component].
  rewrite Hcost. cbn [logsum_component_of option_map].
  set (paths := fst (drop_sim_columns frames)) in *.
  set (w := numpy_exp (-1 * STOCH_DISPERSION * cost)).
  pose proof (trip_components_In STOCH_DISPERSION costs paths p cost Hp Hcost)
    as Hw. fold w in Hw.
  rewrite trip_logsum_components.
  destruct (trip_components STOCH_DISPERSION costs paths
                            (p_trip_list_id_num p)) as [| w0 ws] eqn:Ews;
    [destruct Hw|].
  cbv zeta. rewrite <- Ews in *. clear Ews w0 ws.
  exists w. eexists. split; [reflexivity|]. split; [reflexivity|].
  split; [reflexivity|].
  destruct (forallb is_finite
              (trip_components STOCH_DISPERSION costs paths
                               (p_trip_list_id_num p))) eqn:Efin.
  - rewrite forallb_forall in Efin. pose proof (Efin w Hw) as Hfw.
    destruct w as [x |] eqn:Ex; [| discriminate]. clear Hfw.
    assert (Hx : In x (finite_values
                         (trip_components STOCH_DISPERSION costs paths
                                          (p_trip_list_id_num p))))
      by (apply finite_values_In; exact Hw).
    pose proof (sumR_nonneg _ (trip_components_nonneg STOCH_DISPERSION costs
                                 paths (p_trip_list_id_num p)) x Hx) as Hb.
    set (total := sumR _) in *.
    split; [lra|]. split.
    + intros Hnz. exists x, (x / total)%R.
      split; [reflexivity|]. split; [reflexivity|].
      split; [apply divide_Finite, Hnz|].
      assert (Hpos : (0 < total)%R) by lra.
      split.
      * apply Rmult_le_pos; [lra|]. left. apply Rinv_0_lt_compat, Hpos.
      * apply (Rmult_le_reg_r total); [exact Hpos|].
        unfold Rdiv. rewrite Rmult_assoc, Rinv_l by lra. lra.
    + intros Hz. assert (x = 0%R) by lra. subst x. rewrite Hz.
      apply divide_zero.
  - apply divide_Infinity.
Qed.

(** The logsum of trip 1 of the example, whose first path misses a
    transfer: the weight of the second path. *)
Lemma returned0_logsum (p : PathRow) :
  p_trip_list_id_num p = 1 ->
  logsum (path_columns 1 Examples.final0 Examples.paths0 p)
  = Some (Finite (exp (Q2R (-1 * 1 * (353376000000000000000000000000000000
                                     # 17280000000000000000000000000000000)))))
  /\ exp (Q2R (-1 * 1 * (353376000000000000000000000000000000
                        # 17280000000000000000000000000000000))) <> 0%R.
Proof.
  intros Htrip.
  assert (Hc1 : path_sim_cost Examples.final0 (Examples.path 1 1)
                = Some (353376000000000000000000000000000000
                        # 17280000000000000000000000000000000))
    by (vm_compute; reflexivity).
  assert (Hc2 : path_sim_cost Examples.final0 (Examples.path 1 0)
                = Some (864275616000000000000000000000000000000
                        # 17280000000000000000000000000000000))
    by (vm_compute; reflexivity).
  destruct (numpy_exp_moderate
              (-1 * 1 * (353376000000000000000000000000000000
                         # 17280000000000000000000000000000000)))
    as [E Hnz]; [vm_compute; discriminate | vm_compute; discriminate |].
  split; [| exact Hnz].
  rewrite logsum_path_columns, Htrip.
  rewrite (trip_logsum_two 1 Examples.final0 Examples.paths0 1
             (Examples.path 1 0) (Examples.path 1 1) _ _ eq_refl Hc2 Hc1).
  rewrite E, numpy_exp_underflow by (vm_compute; discriminate).
  rewrite Rplus_0_l. reflexivity.
Qed.

Lemma path_probability_bounds_witness :
  exists s cost,
    In (Examples.path 1 0, s)
       (paths_with_probability 1
          (paths_with_cost Examples.paths0
             (cost_path_df (cost_link_df Examples.final0)))) /\
    sim_cost s = Some cost /\
    exists w L,
      logsum_component s = Some w /\
      w = numpy_exp (-1 * 1 * cost) /\
      logsum s = Some L /\
      match L with
      | Finite total =>
          (0 <= total)%R /\
          (total <> 0%R ->
           exists x q,
             w = Finite x /\ q = (x / total)%R /\
             probability s = Some (Finite q) /\ (0 <= q <= 1)%R) /\
          (total = 0%R -> probability s = None)
      | Infinity =>
          probability s = match w with
                          | Finite _ => Some (Finite 0)
                          | Infinity => None
                          end
      end.
Proof.
  exists (path_columns 1 Examples.final0 Examples.paths0 (Examples.path 1 0)).
  eexists.
  assert (Hrun :
    calculate_cost Examples.cfg0 Examples.numbered0 Examples.cols0 1 0 1%Q
                   (Uncosted Examples.paths0 Examples.links0) Examples.trips0
                   Examples.transfers0 Examples.walk0 Examples.drive0
    = Ok Examples.returned0) by run_example.
  assert (Hin := returned0_paths (Examples.path 1 0) (or_introl eq_refl)).
  assert (Hc : sim_cost (path_columns 1 Examples.final0 Examples.paths0
                                      (Examples.path 1 0))
               = Some (864275616000000000000000000000000000000
                       # 17280000000000000000000000000000000))
    by (rewrite sim_cost_path_columns; vm_compute; reflexivity).
  split; [exact Hin|]. split; [exact Hc|].
  apply (path_probability_bounds _ _ _ _ _ _ _ _ _ _ _ _ _ _ _ _
           Hrun Hin Hc).
Defined.

(** The probabilities of a trip whose logsum is finite and not zero, from
    the weights of its paths. *)
Lemma probabilities_of_components (comps : list (option float64)) (total : R) :
  total <> 0%R ->
  forallb is_finite (present comps) = true ->
  finite_values
    (present (map (fun c => divide c (Some (Finite total))) comps))
  = map (fun x => x / total)%R (finite_values (present comps)).
Proof.
  intros Hnz. unfold present.
  induction comps as [| [[x |] |] comps IH];
    cbn [map flat_map app forallb is_finite andb]; intros Hfin.
  - reflexivity.
  - rewrite divide_Finite by exact Hnz.
    cbn [flat_map app finite_values map]. fold (finite_values).
    f_equal. apply IH, Hfin.
  - discriminate.
  - cbn [divide]. apply IH, Hfin.
Qed.

(** X12.  When the logsum of a traveler-trip is finite and not zero, the
    probabilities of its returned paths add up to 1, and its paths that
    have a probability are its paths that have a cost. *)
Theorem probabilities_sum_to_one (cfg : Config) (weights : list NumWeightRow)
    (cols : LinkColumns) (iteration simulation_iteration : Z)
    (STOCH_DISPERSION : Q) (frames : PathsetFrames)
    (trip_list_df : list TripRow) (transfers_df : TransfersDF)
    (walk_df drive_df : AccessDF)
    (paths' : list (PathRow * SimPathCols)) (links' : list (LinkRow * option Q))
    (p : PathRow) (s : SimPathCols) (total : R) :
  calculate_cost cfg weights cols iteration simulation_iteration
                 STOCH_DISPERSION frames trip_list_df transfers_df
                 walk_df drive_df = Ok (Costed paths' links') ->
  In (p, s) paths' ->
  logsum s = Some (Finite total) ->
  total <> 0%R ->
  sumR (probabilities (returned_trip (p_trip_list_id_num p) paths')) = 1%R /\
  List.length (probabilities (returned_trip (p_trip_list_id_num p) paths'))
  = costed_paths (returned_trip (p_trip_list_id_num p) paths').
Proof.
  intros Hrun Hin Hlogsum Hnz.
  apply calculate_cost_frames in Hrun.
  destruct Hrun as (costs & _ & [= -> _]).
  apply in_map_iff in Hin. destruct Hin as (p0 & [= -> <-] & Hp).
  rewrite logsum_path_columns in Hlogsum.
  set (paths := fst (drop_sim_columns frames)) in *.
  set (trip := p_trip_list_id_num p) in *.
  destruct (trip_logsum_Finite _ _ _ _ _ Hlogsum) as [Hfin Htotal].
  rewrite costed_paths_rows, <- (trip_components_length STOCH_DISPERSION).
  unfold probabilities. rewrite returned_trip_rows, map_map.
  assert (Hmap :
    map (fun x : PathRow =>
           probability (snd (x, path_columns STOCH_DISPERSION costs paths x)))
        (paths_of_trip trip paths)
    = map (fun c => divide c (Some (Finite total)))
          (map (fun x => logsum_component_of STOCH_DISPERSION
                                             (path_sim_cost costs x))
               (paths_of_trip trip paths))).
  { rewrite map_map. apply map_ext_in. intros x Hx. cbn [snd].
    rewrite probability_path_columns.
    assert (Htrip : p_trip_list_id_num x = trip).
    { apply filter_In in Hx. destruct Hx as [_ Hx].
      apply Z.eqb_eq in Hx. auto. }
    rewrite Htrip, Hlogsum. reflexivity. }
  rewrite Hmap. clear Hmap.
  fold (trip_components STOCH_DISPERSION costs paths trip) in *.
  unfold trip_components in Hfin, Htotal |- *.
  rewrite probabilities_of_components by assumption.
  rewrite sumR_scaled, <- Htotal, length_map.
  split.
  - field. exact Hnz.
  - apply finite_values_length, Hfin.
Qed.

Lemma probabilities_sum_to_one_witness :
  sumR (probabilities
          (returned_trip 1
             (paths_with_probability 1
                (paths_with_cost Examples.paths0
                   (cost_path_df (cost_link_df Examples.final0))))))
  = 1%R /\
  List.length
    (probabilities
       (returned_trip 1
          (paths_with_probability 1
             (paths_with_cost Examples.paths0
                (cost_path_df (cost_link_df Examples.final0))))))
  = costed_paths
      (returned_trip 1
         (paths_with_probability 1
            (paths_with_cost Examples.paths0
               (cost_path_df (cost_link_df Examples.final0))))).
Proof.
  assert (Hrun :
    calculate_cost Examples.cfg0 Examples.numbered0 Examples.cols0 1 0 1%Q
                   (Uncosted Examples.paths0 Examples.links0) Examples.trips0
                   Examples.transfers0 Examples.walk0 Examples.drive0
    = Ok Examples.returned0) by run_example.
  assert (Hin := returned0_paths (Examples.path 1 1)
                   (or_intror (or_introl eq_refl))).
  destruct (returned0_logsum (Examples.path 1 1) eq_refl) as [Hlogsum Hnz].
  apply (probabilities_sum_to_one _ _ _ _ _ _ _ _ _ _ _ _ _ _ _ _
           Hrun Hin Hlogsum Hnz).
Defined.

(** X13.  In a traveler-trip whose logsum is finite and not zero, a path
    is never less probable than a path of the trip that costs more, under a
    dispersion that is not negative, and paths of equal cost are equally
    probable, whatever the other paths of the trip are. *)
Theorem path_probability_monotone (cfg : Config) (weights : list NumWeightRow)
    (cols : LinkColumns) (iteration simulation_iteration : Z)
    (STOCH_DISPERSION : Q) (frames : PathsetFrames)
    (trip_list_df : list TripRow) (transfers_df : TransfersDF)
    (walk_df drive_df : AccessDF)
    (paths' : list (PathRow * SimPathCols)) (links' : list (LinkRow * option Q))
    (p1 p2 : PathRow) (s1 s2 : SimPathCols) (c1 c2 : Q) (total : R) :
  calculate_cost cfg weights cols iteration simulation_iteration
                 STOCH_DISPERSION frames trip_list_df transfers_df
                 walk_df drive_df = Ok (Costed paths' links') ->
  In (p1, s1) paths' ->
  In (p2, s2) paths' ->
  p_trip_list_id_num p1 = p_trip_list_id_num p2 ->
  sim_cost s1 = Some c1 ->
  sim_cost s2 = Some c2 ->
  logsum s1 = Some (Finite total) ->
  total <> 0%R ->
  exists q1 q2,
    probability s1 = Some (Finite q1) /\ probability s2 = Some (Finite q2) /\
    ((0 <= STOCH_DISPERSION)%Q -> (c1 <= c2)%Q -> (q2 <= q1)%R) /\
    ((c1 == c2)%Q -> q1 = q2).
Proof.
  intros Hrun Hin1 Hin2 Htrip Hc1 Hc2 Hlogsum Hnz.
  apply calculate_cost_frames in Hrun.
  destruct Hrun as (costs & _ & [= -> _]).
  apply in_map_iff in Hin1. destruct Hin1 as (p & [= -> <-] & Hp1).
  apply in_map_iff in Hin2. destruct Hin2 as (p & [= -> <-] & Hp2).
  rewrite sim_cost_path_columns in Hc1, Hc2.
  rewrite logsum_path_columns in Hlogsum.
  rewrite !probability_path_columns, <- Htrip, Hlogsum, Hc1, Hc2.
  cbn [logsum_component_of option_map].
  set (paths := fst (drop_sim_columns frames)) in *.
  destruct (trip_logsum_Finite _ _ _ _ _ Hlogsum) as [Hfin Htotal].
  rewrite forallb_forall in Hfin.
  pose proof (Hfin _ (trip_components_In STOCH_DISPERSION costs paths p1 c1
                        Hp1 Hc1)) as H1.
  pose proof (trip_components_In STOCH_DISPERSION costs paths p2 c2 Hp2 Hc2)
    as H2.
  rewrite <- Htrip in H2. apply Hfin in H2.
  destruct (numpy_exp (-1 * STOCH_DISPERSION * c1)) as [x1 |] eqn:E1;
    [| discriminate].
  destruct (numpy_exp (-1 * STOCH_DISPERSION * c2)) as [x2 |] eqn:E2;
    [| discriminate].
  rewrite !divide_Finite by exact Hnz.
  do 2 eexists. split; [reflexivity|]. split; [reflexivity|].
  assert (Hpos : (0 < total)%R).
  { assert (Hx : In x1 (finite_values
                          (trip_components STOCH_DISPERSION costs paths
                                           (p_trip_list_id_num p1)))).
    { apply finite_values_In. rewrite <- E1.
      apply trip_components_In; assumption. }
    pose proof (sumR_nonneg _ (trip_components_nonneg STOCH_DISPERSION costs
                                 paths (p_trip_list_id_num p1)) x1 Hx) as Hb.
    rewrite <- Htotal in Hb. lra. }
  split.
  - intros Hd Hle.
    assert (Harg : (Q2R (-1 * STOCH_DISPERSION * c2)
                    <= Q2R (-1 * STOCH_DISPERSION * c1))%R).
    { rewrite !Q2R_scaled. apply Qle_Rle in Hle, Hd.
      rewrite Q2R_0 in Hd. nra. }
    pose proof (numpy_exp_le _ _ _ _ Harg E2 E1) as Hx.
    unfold Rdiv. apply Rmult_le_compat_r; [| exact Hx].
    left. apply Rinv_0_lt_compat, Hpos.
  - intros Heq.
    assert (Hsame : numpy_exp (-1 * STOCH_DISPERSION * c1)
                    = numpy_exp (-1 * STOCH_DISPERSION * c2)).
    { apply numpy_exp_eq. rewrite Heq. reflexivity. }
    rewrite E1, E2 in Hsame. injection Hsame as ->. reflexivity.
Qed.

Lemma path_probability_monotone_witness :
  exists s1 s2 q1 q2 c1 c2,
    In (Examples.path 1 1, s1)
       (paths_with_probability 1
          (paths_with_cost Examples.paths0
             (cost_path_df (cost_link_df Examples.final0)))) /\
    In (Examples.path 1 0, s2)
       (paths_with_probability 1
          (paths_with_cost Examples.paths0
             (cost_path_df (cost_link_df Examples.final0)))) /\
    sim_cost s1 = Some c1 /\ sim_cost s2 = Some c2 /\
    probability s1 = Some (Finite q1) /\ probability s2 = Some (Finite q2) /\
    ((0 <= 1)%Q -> (c1 <= c2)%Q -> (q2 <= q1)%R) /\
    ((c1 == c2)%Q -> q1 = q2).
Proof.
  exists (path_columns 1 Examples.final0 Examples.paths0 (Examples.path 1 1)).
  exists (path_columns 1 Examples.final0 Examples.paths0 (Examples.path 1 0)).
  assert (Hrun :
    calculate_cost Examples.cfg0 Examples.numbered0 Examples.cols0 1 0 1%Q
                   (Uncosted Examples.paths0 Examples.links0) Examples.trips0
                   Examples.transfers0 Examples.walk0 Examples.drive0
    = Ok Examples.returned0) by run_example.
  assert (Hin1 := returned0_paths (Examples.path 1 1)
                    (or_intror (or_introl eq_refl))).
  assert (Hin2 := returned0_paths (Examples.path 1 0) (or_introl eq_refl)).
  assert (Hc1 : sim_cost (path_columns 1 Examples.final0 Examples.paths0
                                       (Examples.path 1 1))
                = Some (353376000000000000000000000000000000
                        # 17280000000000000000000000000000000))
    by (rewrite sim_cost_path_columns; vm_compute; reflexivity).
  assert (Hc2 : sim_cost (path_columns 1 Examples.final0 Examples.paths0
                                       (Examples.path 1 0))
                = Some (864275616000000000000000000000000000000
                        # 17280000000000000000000000000000000))
    by (rewrite sim_cost_path_columns; vm_compute; reflexivity).
  destruct (returned0_logsum (Examples.path 1 1) eq_refl) as [Hlogsum Hnz].
  destruct (path_probability_monotone _ _ _ _ _ _ _ _ _ _ _ _ _ _ _ _ _ _ _ _
              Hrun Hin1 Hin2 eq_refl Hc1 Hc2 Hlogsum Hnz)
    as (q1 & q2 & Hq1 & Hq2 & H).
  exists q1, q2. do 2 eexists.
  split; [exact Hin1|]. split; [exact Hin2|].
  split; [exact Hc1|]. split; [exact Hc2|].
  split; [exact Hq1|]. split; [exact Hq2|]. exact H.
Defined.

(** X14.  With a dispersion of zero the costs do not matter: each returned
    path that has a cost has probability 1/n, where n is the number of
    paths of its traveler-trip that have a cost, and the trip's logsum
    is n. *)
Theorem zero_dispersion_probability (cfg : Config)
    (weights : list NumWeightRow)
    (cols : LinkColumns) (iteration simulation_iteration : Z)
    (STOCH_DISPERSION : Q) (frames : PathsetFrames)
    (trip_list_df : list TripRow) (transfers_df : TransfersDF)
    (walk_df drive_df : AccessDF)
    (paths' : list (PathRow * SimPathCols)) (links' : list (LinkRow * option Q))
    (p : PathRow) (s : SimPathCols) (cost : Q) :
  calculate_cost cfg weights cols iteration simulation_iteration
                 STOCH_DISPERSION frames trip_list_df transfers_df
                 walk_df drive_df = Ok (Costed paths' links') ->
  (STOCH_DISPERSION == 0)%Q ->
  In (p, s) paths' ->
  sim_cost s = Some cost ->
  logsum s
  = Some (Finite
            (INR (costed_paths
                    (returned_trip (p_trip_list_id_num p) paths')))) /\
  probability s
  = Some (Finite
            (1 / INR (costed_paths
                        (returned_trip (p_trip_list_id_num p) paths')))).
Proof.
  intros Hrun Hzero Hin Hcost.
  apply calculate_cost_frames in Hrun.
  destruct Hrun as (costs & _ & [= -> _]).
  rewrite costed_paths_rows.
  apply in_map_iff in Hin. destruct Hin as (p0 & [= -> <-] & Hp).
  rewrite sim_cost_path_columns in Hcost.
  rewrite probability_path_columns, logsum_path_columns, Hcost.
  cbn [logsum_component_of option_map].
  set (paths := fst (drop_sim_columns frames)) in *.
  assert (Hone : forall c, numpy_exp (-1 * STOCH_DISPERSION * c) = Finite 1).
  { intros c. apply numpy_exp_0. rewrite Hzero. ring. }
  pose proof (trip_components_In STOCH_DISPERSION costs paths p cost Hp Hcost)
    as Hw.
  assert (Hall : forall w,
             In w (trip_components STOCH_DISPERSION costs paths
                                   (p_trip_list_id_num p)) ->
             w = Finite 1).
  { intros w Hin. apply trip_components_weight in Hin.
    destruct Hin as (p' & c & _ & _ & ->). apply Hone. }
  assert (Hfin : forallb is_finite
                   (trip_components STOCH_DISPERSION costs paths
                                    (p_trip_list_id_num p)) = true).
  { apply forallb_forall. intros w Hin. rewrite (Hall w Hin). reflexivity. }
  assert (Hsum :
    sumR (finite_values (trip_components STOCH_DISPERSION costs paths
                                         (p_trip_list_id_num p)))
    = INR (List.length
             (filter (fun p0 => is_some (path_sim_cost costs p0))
                     (paths_of_trip (p_trip_list_id_num p) paths)))).
  { rewrite <- (trip_components_length STOCH_DISPERSION).
    rewrite <- (finite_values_length _ Hfin).
    apply sumR_ones. intros e He. apply finite_values_In in He.
    apply Hall in He. injection He as ->. reflexivity. }
  rewrite trip_logsum_components, Hone.
  destruct (trip_components STOCH_DISPERSION costs paths
                            (p_trip_list_id_num p)) as [| w0 ws] eqn:Ews;
    [destruct Hw|].
  cbv zeta. rewrite Hfin, Hsum.
  split; [reflexivity|].
  apply divide_Finite.
  rewrite <- (trip_components_length STOCH_DISPERSION), Ews.
  cbn [List.length]. rewrite S_INR.
  pose proof (pos_INR (List.length ws)). lra.
Qed.

Lemma zero_dispersion_probability_witness :
  exists s cost,
    In (Examples.path 1 0, s)
       (paths_with_probability 0
          (paths_with_cost Examples.paths0
             (cost_path_df (cost_link_df Examples.final0)))) /\
    sim_cost s = Some cost /\
    logsum s = Some (Finite (INR 2)) /\
    probability s = Some (Finite (1 / INR 2)).
Proof.
  exists (path_columns 0 Examples.final0 Examples.paths0 (Examples.path 1 0)).
  eexists.
  assert (Hrun :
    calculate_cost Examples.cfg0 Examples.numbered0 Examples.cols0 1 0 0%Q
                   (Uncosted Examples.paths0 Examples.links0) Examples.trips0
                   Examples.transfers0 Examples.walk0 Examples.drive0
    = Ok (Costed
            (paths_with_probability 0
               (paths_with_cost Examples.paths0
                  (cost_path_df (cost_link_df Examples.final0))))
            (links_with_cost Examples.links0 (cost_link_df Examples.final0))))
    by run_example.
  assert (Hin :
    In (Examples.path 1 0,
        path_columns 0 Examples.final0 Examples.paths0 (Examples.path 1 0))
       (paths_with_probability 0
          (paths_with_cost Examples.paths0
             (cost_path_df (cost_link_df Examples.final0))))).
  { rewrite paths_with_cost_rows, paths_with_probability_rows.
    apply (in_map (fun p => (p, path_columns 0 Examples.final0
                                             Examples.paths0 p))).
    left. reflexivity. }
  assert (Hc : sim_cost (path_columns 0 Examples.final0 Examples.paths0
                                      (Examples.path 1 0))
               = Some (864275616000000000000000000000000000000
                       # 17280000000000000000000000000000000))
    by (rewrite sim_cost_path_columns; vm_compute; reflexivity).
  assert (Hn :
    costed_paths
      (returned_trip (p_trip_list_id_num (Examples.path 1 0))
         (paths_with_probability 0
            (paths_with_cost Examples.paths0
               (cost_path_df (cost_link_df Examples.final0)))))
    = 2%nat).
  { rewrite paths_with_cost_rows, paths_with_probability_rows.
    rewrite costed_paths_rows. vm_compute. reflexivity. }
  split; [exact Hin|]. split; [exact Hc|].
  rewrite <- Hn.
  apply (zero_dispersion_probability _ _ _ _ _ _ _ _ _ _ _ _ _ _ _ _
           Hrun (Qeq_refl 0) Hin Hc).
Defined.

(* ================================================================== *)
(** * The access and egress tables *)

Lemma format_access_row_unset cfg (a : AccessRow) :
  isin (acc_supply_mode_num a) (ACCESS_MODE_NUMS cfg) = false ->
  isin (acc_supply_mode_num a) (EGRESS_MODE_NUMS cfg) = false ->
  al_A_id_num (format_access_row cfg a) = -1.
Proof.
  intros Ha He. unfold format_access_row. cbn [al_A_id_num].
  rewrite Ha, He. reflexivity.
Qed.

Lemma merge_access_links_unset cfg mode_list df rows (a : AccessRow) :
  In a (acc_rows df) ->
  isin (acc_supply_mode_num a) (ACCESS_MODE_NUMS cfg) = false ->
  isin (acc_supply_mode_num a) (EGRESS_MODE_NUMS cfg) = false ->
  merge_access_links cfg mode_list df rows = Raised AssertionError.
Proof.
  intros Hin Ha He. unfold merge_access_links.
  assert (Hbad : In (format_access_row cfg a)
                    (filter (fun a0 => al_A_id_num a0 <? 0)
                            (map (format_access_row cfg) (acc_rows df)))).
  { apply filter_In. split; [apply in_map; exact Hin|].
    rewrite (format_access_row_unset cfg a Ha He). reflexivity. }
  destruct (acc_rows df) as [| a0 l0] eqn:E; [destruct Hin|].
  cbn [List.length]. rewrite Nat2Z.inj_succ.
  replace (Z.succ (Z.of_nat (List.length l0)) =? 0) with false
    by (symmetry; apply Z.eqb_neq; lia).
  destruct (filter _ _) as [| b bs]; [destruct Hbad|].
  cbn [List.length]. rewrite Nat2Z.inj_succ.
  replace (Z.succ (Z.of_nat (List.length bs)) =? 0) with false
    by (symmetry; apply Z.eqb_neq; lia).
  reflexivity.
Qed.

(** X15.  [calculate_cost] fails an assertion when the walk or the drive
    access table has a row whose supply mode is neither an access mode nor
    an egress mode, whatever the links are. *)
Theorem calculate_cost_asserts_access_modes (cfg : Config)
    (weights : list NumWeightRow) (cols : LinkColumns)
    (iteration simulation_iteration : Z) (STOCH_DISPERSION : Q)
    (frames : PathsetFrames) (trip_list_df : list TripRow)
    (transfers_df : TransfersDF) (walk_df drive_df : AccessDF)
    (a : AccessRow) :
  In a (acc_rows walk_df) \/ In a (acc_rows drive_df) ->
  isin (acc_supply_mode_num a) (ACCESS_MODE_NUMS cfg) = false ->
  isin (acc_supply_mode_num a) (EGRESS_MODE_NUMS cfg) = false ->
  calculate_cost cfg weights cols iteration simulation_iteration
                 STOCH_DISPERSION frames trip_list_df transfers_df
                 walk_df drive_df = Raised AssertionError.
Proof.
  intros Hin Ha He.
  unfold calculate_cost, final_cost_df.
  destruct (pathset_links_cost_df simulation_iteration
              (snd (drop_sim_columns frames)) trip_list_df)
    as [lcs | e] eqn:Elcs; cbn [bind].
  2: { apply pathset_links_cost_df_error in Elcs. subst e. reflexivity. }
  unfold resolved_cost_df, cost_accegr_df.
  destruct Hin as [Hin | Hin].
  - rewrite (merge_access_links_unset cfg _ walk_df _ a Hin Ha He).
    reflexivity.
  - destruct (merge_access_links cfg (WALK_MODE_NUMS cfg) walk_df
                (filter is_accegr (cost_df lcs weights)))
      as [rows | e] eqn:Ewalk; cbn [bind].
    + rewrite (merge_access_links_unset cfg _ drive_df _ a Hin Ha He).
      reflexivity.
    + apply merge_access_links_error in Ewalk. subst e. reflexivity.
Qed.

Lemma calculate_cost_asserts_access_modes_witness :
  calculate_cost Examples.cfg0 Examples.numbered0 Examples.cols0 1 0 1%Q
                 (Uncosted Examples.paths0 Examples.links0) Examples.trips0
                 Examples.transfers0 MoreExamples.odd_walk Examples.drive0
  = Raised AssertionError.
Proof.
  apply (calculate_cost_asserts_access_modes _ _ _ _ _ _ _ _ _ _ _
           MoreExamples.odd_access).
  - left. cbn. do 4 right. left. reflexivity.
  - reflexivity.
  - reflexivity.
Defined.

(* ================================================================== *)
(** * The cost of a path and the costs of its links *)

Lemma fold_left_Qplus_compat (l : list Q) (a b : Q) :
  (a == b)%Q -> (fold_left Qplus l a == fold_left Qplus l b)%Q.
Proof.
  revert a b. induction l as [| x l IH]; intros a b H; simpl; [exact H|].
  apply IH. rewrite H. reflexivity.
Qed.

Lemma fold_left_Qplus_Permutation (l l' : list Q) :
  Permutation l l' ->
  forall a, (fold_left Qplus l a == fold_left Qplus l' a)%Q.
Proof.
  induction 1 as [| x l l' _ IH | x y l | l l' l'' _ IH1 _ IH2]; intros a.
  - reflexivity.
  - simpl. apply IH.
  - simpl. apply fold_left_Qplus_compat. ring.
  - rewrite IH1. apply IH2.
Qed.

Lemma nansum_Permutation (l l' : list (option Q)) :
  Permutation (present l) (present l') ->
  same_cost (nansum Qplus 0%Q l) (nansum Qplus 0%Q l').
Proof.
  intros H. unfold nansum.
  destruct (present l) as [| x xs] eqn:E.
  - apply Permutation_nil in H. rewrite H. exact I.
  - destruct (present l') as [| y ys] eqn:E'.
    + apply Permutation_sym, Permutation_nil in H. discriminate.
    + apply fold_left_Qplus_Permutation. exact H.
Qed.

Lemma present_filter_some {A N : Type} (v : A -> option N) (l : list A) :
  present (map v l) = present (map v (filter (fun k => is_some (v k)) l)).
Proof.
  unfold present. induction l as [| k l IH]; [reflexivity|].
  cbn [map flat_map filter].
  destruct (v k) as [c |] eqn:E; cbn [is_some].
  - cbn [map flat_map]. rewrite E, IH. reflexivity.
  - exact IH.
Qed.

Lemma NoDup_drop_duplicates {K : Type} (keqb : K -> K -> bool)
      (keqb_eq : forall a b, keqb a b = true <-> a = b) (l : list K) :
  NoDup (drop_duplicates keqb l).
Proof.
  induction l as [| x l IH]; simpl; [constructor|].
  constructor.
  - intros H. apply filter_In in H. destruct H as [_ H].
    rewrite (proj2 (keqb_eq x x) eq_refl) in H. discriminate.
  - apply NoDup_filter. exact IH.
Qed.

Lemma key_cost_some (costs : list CostRow) (k : key3) :
  is_some (key_cost costs k) = true ->
  exists r : CostRow, In r costs /\ link_key r = k.
Proof.
  unfold key_cost, nansum. intros H.
  destruct (filter (fun r : CostRow => key3_eqb k (link_key r)) costs)
    as [| r rs] eqn:E; [discriminate|].
  exists r.
  assert (Hr : In r (filter (fun r : CostRow => key3_eqb k (link_key r))
                            costs)) by (rewrite E; left; reflexivity).
  apply filter_In in Hr. destruct Hr as [Hr Hk].
  apply key3_eqb_eq in Hk. auto.
Qed.

(** The costed link keys of a path are the same in the cost frame and in
    the link frame. *)
Lemma path_link_keys (costs : list CostRow) (links : list LinkRow)
      (f : key3 -> bool) :
  (forall r : CostRow, In r costs -> In (lc_link r) links) ->
  NoDup (map link_key links) ->
  Permutation
    (filter (fun k => is_some (key_cost costs k))
       (filter f
          (sort_values key3_leb
             (drop_duplicates key3_eqb
                (map (fun r : CostRow => link_key r)
                     (sort_values
                        (fun a b : CostRow =>
                           key3_leb (link_key a) (link_key b)) costs))))))
    (filter (fun k => is_some (key_cost costs k))
       (filter f (map link_key links))).
Proof.
  intros Hlinks Hnodup.
  apply NoDup_Permutation.
  - do 2 apply NoDup_filter.
    apply (Permutation_NoDup (sort_values_Permutation key3_leb _)).
    apply NoDup_drop_duplicates. exact key3_eqb_eq.
  - do 2 apply NoDup_filter. exact Hnodup.
  - intros k. rewrite !filter_In. split.
    + intros ((Hk & Hf) & Hc). split; [split|]; auto.
      apply (Permutation_in _
               (Permutation_sym (sort_values_Permutation key3_leb _))) in Hk.
      apply drop_duplicates_In in Hk.
      apply in_map_iff in Hk. destruct Hk as (r & <- & Hr).
      apply (Permutation_in _
               (Permutation_sym (sort_values_Permutation _ _))) in Hr.
      apply (in_map link_key), Hlinks, Hr.
    + intros ((Hk & Hf) & Hc). split; [split|]; auto.
      destruct (key_cost_some costs k Hc) as (r & Hr & <-).
      apply (Permutation_in _ (sort_values_Permutation key3_leb _)).
      apply In_drop_duplicates; [exact key3_eqb_eq|].
      apply (in_map (fun r : CostRow => link_key r)).
      apply (Permutation_in _ (sort_values_Permutation _ _)). exact Hr.
Qed.

Lemma path_sim_cost_keys (costs : list CostRow) (p : PathRow) :
  path_sim_cost costs p
  = nansum Qplus 0%Q
      (map (key_cost costs)
         (filter (fun k : key3 => key2_eqb (path_key p) (fst k))
            (sort_values key3_leb
               (drop_duplicates key3_eqb
                  (map (fun r : CostRow => link_key r)
                       (sort_values
                          (fun a b : CostRow =>
                             key3_leb (link_key a) (link_key b)) costs)))))).
Proof.
  unfold path_sim_cost, group_sum, cost_link_df, groupby_sum.
  rewrite filter_map_swap, map_map. cbn [fst snd].
  f_equal. apply map_ext. intros k.
  unfold key_cost. rewrite sorted_rows_of_link. reflexivity.
Qed.

(** X16.  When the links of the link frame have distinct (trip, path,
    link) numbers, the cost of a returned path is the sum of the costs of
    its links in the returned link frame, links without a cost being
    skipped; the path has no cost exactly when none of its links has. *)
Theorem path_cost_sums_link_costs (cfg : Config) (weights : list NumWeightRow)
    (cols : LinkColumns) (iteration simulation_iteration : Z)
    (STOCH_DISPERSION : Q) (frames : PathsetFrames)
    (trip_list_df : list TripRow) (transfers_df : TransfersDF)
    (walk_df drive_df : AccessDF)
    (paths' : list (PathRow * SimPathCols)) (links' : list (LinkRow * option Q))
    (p : PathRow) (s : SimPathCols) :
  calculate_cost cfg weights cols iteration simulation_iteration
                 STOCH_DISPERSION frames trip_list_df transfers_df
                 walk_df drive_df = Ok (Costed paths' links') ->
  NoDup (map link_key (snd (drop_sim_columns frames))) ->
  In (p, s) paths' ->
  same_cost (sim_cost s)
            (nansum Qplus 0%Q (map snd (returned_links p links'))).
Proof.
  intros Hrun Hnodup Hin.
  apply calculate_cost_frames in Hrun.
  destruct Hrun as (costs & Hfinal & [= -> ->]).
  apply in_map_iff in Hin. destruct Hin as (p0 & [= -> <-] & _).
  unfold path_columns. cbn [sim_cost].
  rewrite path_sim_cost_keys.
  unfold returned_links. rewrite filter_map_swap, map_map. cbn [fst snd].
  assert (Hlinks :
    map (fun l : LinkRow => link_sim_cost costs l)
        (filter (fun l : LinkRow => key2_eqb (path_key p) (fst (link_key l)))
                (snd (drop_sim_columns frames)))
    = map (key_cost costs)
          (filter (fun k : key3 => key2_eqb (path_key p) (fst k))
                  (map link_key (snd (drop_sim_columns frames))))).
  { rewrite filter_map_swap, map_map. reflexivity. }
  rewrite Hlinks.
  apply nansum_Permutation.
  rewrite (present_filter_some (key_cost costs)).
  rewrite (present_filter_some (key_cost costs)
             (filter _ (map link_key _))).
  apply Permutation_flat_map, Permutation_map.
  apply path_link_keys; [| exact Hnodup].
  intros r Hr.
  apply (final_cost_df_rows _ _ _ _ _ _ _ _ _ _ Hfinal r Hr).
Qed.

Lemma path_cost_sums_link_costs_witness :
  NoDup (map link_key Examples.links0) /\
  exists s,
    In (Examples.path 1 0, s)
       (paths_with_probability 1
          (paths_with_cost Examples.paths0
             (cost_path_df (cost_link_df Examples.final0)))) /\
    same_cost (sim_cost s)
              (nansum Qplus 0%Q
                 (map snd
                    (returned_links (Examples.path 1 0)
                       (links_with_cost Examples.links0
                          (cost_link_df Examples.final0))))).
Proof.
  assert (Hrun :
    calculate_cost Examples.cfg0 Examples.numbered0 Examples.cols0 1 0 1%Q
                   (Uncosted Examples.paths0 Examples.links0) Examples.trips0
                   Examples.transfers0 Examples.walk0 Examples.drive0
    = Ok Examples.returned0) by run_example.
  assert (Hnodup : NoDup (map link_key Examples.links0)).
  { vm_compute.
    repeat (constructor;
            [intros H; repeat (destruct H as [H | H]; [discriminate H|]);
             exact H |]).
    constructor. }
  assert (Hin := returned0_paths (Examples.path 1 0) (or_introl eq_refl)).
  split; [exact Hnodup|].
  exists (path_columns 1 Examples.final0 Examples.paths0 (Examples.path 1 0)).
  split; [exact Hin|].
  apply (path_cost_sums_link_costs _ _ _ _ _ _ _ _ _ _ _ _ _ _ _
           Hrun Hnodup Hin).
Defined.

(* ================================================================== *)
(** * Transfers between two stops *)

Lemma merge_left_None {A B : Type} (on : A -> B -> bool) (left : list A)
      (right : list B) (a : A) :
  In (a, None) (merge_left on left right) ->
  forall b, In b right -> on a b = false.
Proof.
  unfold merge_left. rewrite in_flat_map.
  intros (a0 & _ & Hin) b Hb. unfold left_matches in Hin.
  destruct (filter (on a0) right) as [| b0 bs] eqn:E.
  - destruct Hin as [[= ->] | []].
    destruct (on a b) eqn:Hon; [| reflexivity].
    assert (Hf : In b (filter (on a) right)) by (apply filter_In; auto).
    rewrite E in Hf. destruct Hf.
  - apply in_map_iff in Hin. destruct Hin as (b1 & [=] & _).
Qed.

(** X17.  On a transfer between two different stops the variable value of a
    weight is the cell of the transfer table's numeric column of the
    weight's name, when the table has such a column; otherwise it is the
    link time in minutes for "walk_time_min" and missing for any other name.
    A missing "transfer_penalty" is 1.  The row of the transfer table is the
    one from the link's first stop to its second, if there is one. *)
Theorem transfer_values_between_stops (cfg : Config) (links : list LinkCostRow)
    (weights : list NumWeightRow) (transfers_df : TransfersDF)
    (r : CostRow) (x : option TransferRow) :
  In (r, x) (cost_transfer_df cfg (filter is_transfer (cost_df links weights))
                              transfers_df) ->
  A_id_num r <> B_id_num r ->
  var_value r
  = (if existsb (String.eqb (weight_name (cr_weight r)))
                (xf_numeric_columns transfers_df)
     then match transfer_column cfg (weight_name (cr_weight r)) x with
          | Some v => Some v
          | None => if is_weight "transfer_penalty" r then Some 1%Q else None
          end
     else if is_weight "walk_time_min" r
          then Some (minutes (pf_linktime r))
          else if is_weight "transfer_penalty" r then Some 1%Q else None) /\
  match x with
  | Some t => In t (xf_rows transfers_df) /\
              from_stop_num t = A_id_num r /\ to_stop_num t = B_id_num r
  | None => forall t, In t (xf_rows transfers_df) ->
                      from_stop_num t = A_id_num r ->
                      to_stop_num t <> B_id_num r
  end.
Proof.
  unfold cost_transfer_df. intros Hin Hdiff.
  apply in_map_iff in Hin. destruct Hin as ([r0 x0] & Heq & Hin).
  assert (Hlink : cr_link r = cr_link r0 /\ x = x0).
  { pose proof (cost_transfer_row_link cfg (xf_numeric_columns transfers_df)
                                       (r0, x0)) as H.
    rewrite Heq in H. cbn [fst] in H. split; [exact H|].
    revert Heq. unfold cost_transfer_row, transfer_penalty_default,
                  transfer_zero_walk, transfer_walk_time.
    rewrite loc_set2_spec, transfer_columns_spec, !loc_set2_spec.
    intros [= _ <-]. reflexivity. }
  destruct Hlink as [Hlink ->].
  split.
  - pose proof Hin as Hunset.
    apply merge_left_In, filter_In in Hunset. destruct Hunset as [Hunset _].
    apply cost_df_unset in Hunset.
    revert Heq Hdiff. unfold cost_transfer_row, transfer_penalty_default,
                        transfer_zero_walk, transfer_walk_time.
    rewrite loc_set2_spec, transfer_columns_spec, !loc_set2_spec.
    unfold is_weight, is_none.
    cbn [cr_weight cr_link var_value set_var_value].
    intros [= <-]. cbn [cr_weight cr_link var_value set_var_value].
    intros Hdiff. apply Z.eqb_neq in Hdiff. rewrite Hdiff, Hunset.
    rewrite andb_false_r.
    destruct (existsb _ _).
    + destruct (transfer_column cfg _ x0);
        destruct (weight_name (cr_weight r0) =? "transfer_penalty")%string;
        reflexivity.
    + destruct (weight_name (cr_weight r0) =? "walk_time_min")%string;
        destruct (weight_name (cr_weight r0) =? "transfer_penalty")%string;
        reflexivity.
  - rewrite Hlink. destruct x0 as [t |].
    + apply merge_left_Some in Hin. destruct Hin as (_ & Ht & Hon).
      unfold transfer_on in Hon. apply andb_prop in Hon.
      destruct Hon as [HA HB]. apply Z.eqb_eq in HA, HB. auto.
    + intros t Ht HA HB.
      pose proof (merge_left_None _ _ _ _ Hin t Ht) as Hon.
      unfold transfer_on in Hon.
      rewrite <- HA, <- HB, !Z.eqb_refl in Hon. discriminate.
Qed.

Lemma transfer_values_between_stops_witness :
  let frame :=
    cost_transfer_df Examples.cfg0
      (filter is_transfer
              (cost_df (Examples.frame
                          (pathset_links_cost_df 0 [MoreExamples.transfer_walk]
                                                 Examples.trips0))
                       Examples.numbered0))
      Examples.transfers0 in
  let r :=
    set_var_value
      (Some (minutes (pf_linktime MoreExamples.transfer_walk)))
      (Examples.cost_row MoreExamples.transfer_walk Examples.trip1
                         "transfer" "transfer" "transfer"
                         "walk_time_min" 1 2) in
  In (r, Some MoreExamples.stops_10_11) frame /\
  A_id_num r <> B_id_num r /\
  var_value r = Some (minutes (pf_linktime r)).
Proof.
  intros frame r.
  assert (Hin : In (r, Some MoreExamples.stops_10_11) frame) by in_frame.
  assert (Hdiff : A_id_num r <> B_id_num r) by (vm_compute; discriminate).
  split; [exact Hin|]. split; [exact Hdiff|].
  apply (proj1 (transfer_values_between_stops _ _ _ _ _ _ Hin Hdiff)).
Defined.

(* ================================================================== *)
(** * Access and egress links and the access tables *)

Lemma existsb_and_const {A : Type} (b : bool) (f : A -> bool) (l : list A) :
  existsb (fun x => b && f x) l = b && existsb f l.
Proof.
  induction l as [| x l IH]; simpl; [rewrite andb_false_r; reflexivity|].
  rewrite IH. destruct b; reflexivity.
Qed.

Lemma used_columns (name : string) (df : AccessDF) :
  existsb (fun c => negb (is_join_column c) && (name =? c)%string)
          (link_numeric_columns df)
  = existsb (String.eqb name) (acc_numeric_columns df) &&
    negb (is_join_column name).
Proof.
  rewrite (existsb_ext _ (fun c => negb (is_join_column name) &&
                                   (name =? c)%string)).
  2: { intros c. destruct (name =? c)%string eqn:E;
         [apply String.eqb_eq in E; subst c; reflexivity|].
       rewrite !andb_false_r. reflexivity. }
  rewrite existsb_and_const, andb_comm.
  destruct (is_join_column name) eqn:J; [rewrite !andb_false_r; reflexivity|].
  rewrite !andb_true_r. unfold link_numeric_columns.
  unfold is_join_column in J.
  apply orb_false_elim in J. destruct J as [J JB].
  apply orb_false_elim in J. destruct J as [JA JS].
  cbn [existsb]. rewrite existsb_app. cbn [existsb].
  rewrite JA, JS, JB, !orb_false_r. reflexivity.
Qed.

(** The loop over the numeric columns of an access table, on a row of the
    merged frame. *)
Lemma use_access_columns_spec mode_list (m : option AccessLink) columns
      (r : CostRow) :
  fold_left (use_access_column mode_list m) columns r
  = set_var_value
      (if existsb (fun c => negb (is_join_column c) &&
                            (weight_name (cr_weight r) =? c)%string) columns &&
          opt_isin (supply_mode_num (cr_weight r)) mode_list
       then access_cell m r
       else var_value r)
      r.
Proof.
  revert r. induction columns as [| c columns IH]; intros r.
  - cbn [fold_left existsb andb]. rewrite set_var_value_same. reflexivity.
  - cbn [fold_left existsb]. rewrite IH. clear IH.
    unfold use_access_column, loc_set, access_cell.
    destruct (is_join_column c); cbn [negb andb orb]; [reflexivity|].
    destruct (weight_name (cr_weight r) =? c)%string eqn:E; cbn [andb orb].
    + apply String.eqb_eq in E. subst c.
      destruct (opt_isin (supply_mode_num (cr_weight r)) mode_list) eqn:Em;
        cbn [cr_weight set_var_value var_value cr_link].
      * rewrite Em, !andb_true_r.
        destruct (existsb _ columns); reflexivity.
      * rewrite Em, !andb_false_r. reflexivity.
    + reflexivity.
Qed.

Lemma access_match_same cfg df (r r0 : CostRow) m :
  same_match r r0 -> access_match cfg df r0 m -> access_match cfg df r m.
Proof.
  intros [Hl Hw]. unfold access_match, access_on.
  rewrite Hl, Hw. auto.
Qed.

Lemma access_table_uses_same mode_list df (r r0 : CostRow) :
  same_match r r0 ->
  access_table_uses mode_list df r = access_table_uses mode_list df r0.
Proof. intros [_ Hw]. unfold access_table_uses. rewrite Hw. reflexivity. Qed.

Lemma access_cell_same m (r r0 : CostRow) :
  same_match r r0 -> access_cell m r = access_cell m r0.
Proof. intros [_ Hw]. unfold access_cell. rewrite Hw. reflexivity. Qed.

(** One turn of the loop over the access tables. *)
Lemma merge_access_links_values cfg mode_list df rows out (r : CostRow) :
  merge_access_links cfg mode_list df rows = Ok out ->
  In r out ->
  exists r0 m,
    In r0 rows /\ same_match r r0 /\ access_match cfg df r m /\
    var_value r = if access_table_uses mode_list df r
                  then access_cell m r else var_value r0.
Proof.
  unfold merge_access_links, access_table_uses.
  destruct (Z.of_nat (List.length (acc_rows df)) =? 0) eqn:Elen.
  - intros [= <-] Hr. exists r, None.
    split; [exact Hr|]. split; [apply same_match_refl|].
    split; [| reflexivity].
    apply Z.eqb_eq in Elen. unfold access_match.
    destruct (acc_rows df) as [| a0 l0];
      [intros a Ha; contradiction Ha | cbn [List.length] in Elen; lia].
  - destruct (Z.of_nat (List.length (filter _ _)) =? 0); [| discriminate].
    intros [= <-] Hr.
    apply in_map_iff in Hr. destruct Hr as ([r0 m] & <- & Hr).
    match goal with
    | |- context [same_match ?row _] => set (row0 := row)
    end.
    assert (Hsame : same_match row0 r0)
      by apply (use_access_columns_match mode_list m
                  (link_numeric_columns df) r0).
    assert (Hspec : row0 = _)
      by apply (use_access_columns_spec mode_list m
                  (link_numeric_columns df) r0).
    exists r0, m.
    split; [apply (merge_left_In _ _ _ _ _ Hr)|].
    split; [exact Hsame|].
    split.
    + apply (access_match_same _ _ _ r0 _ Hsame).
      destruct m as [a |].
      * apply merge_left_Some in Hr. destruct Hr as (_ & Ha & Hon).
        split; assumption.
      * intros a Ha.
        apply (merge_left_None _ _ _ _ Hr). apply in_map. exact Ha.
    + rewrite (access_cell_same m row0 r0 Hsame).
      destruct Hsame as [_ Hw]. rewrite Hw, Hspec, used_columns.
      cbn [var_value set_var_value negb andb].
      reflexivity.
Qed.

Lemma loc_set2_false {X : Type} mask value (r : CostRow) (x : X) :
  mask r x = false -> loc_set2 mask value (r, x) = (r, x).
Proof. intros H. unfold loc_set2. cbn [fst snd]. rewrite H. reflexivity. Qed.

Lemma preferred_delay_other (p : CostRow * option TripRow) :
  is_weight "preferred_delay_min" (fst p) = false -> preferred_delay p = p.
Proof.
  destruct p as [r t]. cbn [fst]. intros Hw.
  unfold preferred_delay, delay_egress_departure, delay_access_departure,
    delay_egress_arrival, delay_access_arrival.
  do 4 (rewrite loc_set2_false by (unfold delay_mask; rewrite Hw; reflexivity)).
  reflexivity.
Qed.

(** X18.  An access or egress row of the cost frame whose weight is not
    "preferred_delay_min" takes its variable value from the access tables:
    from the drive table when that table has rows, a numeric column of the
    weight's name and the weight's supply mode is a drive mode, else from the
    walk table under the same conditions for walk modes, else it stays
    missing.  The value is the cell of the table row of the link's
    (A_id_num, supply mode, B_id_num), missing when there is no such row. *)
Theorem access_egress_values (cfg : Config) (links : list LinkCostRow)
    (weights : list NumWeightRow) (trip_list_df : list TripRow)
    (walk_df drive_df : AccessDF)
    (out : list (CostRow * option TripRow))
    (r : CostRow) (t : option TripRow) :
  cost_accegr_df cfg (filter is_accegr (cost_df links weights)) trip_list_df
                 walk_df drive_df = Ok out ->
  In (r, t) out ->
  is_weight "preferred_delay_min" r = false ->
  exists mw md,
    access_match cfg walk_df r mw /\ access_match cfg drive_df r md /\
    var_value r
    = if access_table_uses (DRIVE_MODE_NUMS cfg) drive_df r
      then access_cell md r
      else if access_table_uses (WALK_MODE_NUMS cfg) walk_df r
           then access_cell mw r
           else None.
Proof.
  unfold cost_accegr_df. intros H Hin Hname.
  apply bind_Ok in H. destruct H as (rows1 & H1 & H).
  apply bind_Ok in H. destruct H as (rows2 & H2 & H).
  injection H as <-.
  apply in_map_iff in Hin. destruct Hin as ([r2 t2] & Heq & Hin).
  assert (Hw2 : is_weight "preferred_delay_min" r2 = false).
  { destruct (preferred_delay_frame (r2, t2)) as (_ & Hw & _).
    rewrite Heq in Hw. cbn [fst] in Hw.
    unfold is_weight in *. rewrite <- Hw. exact Hname. }
  rewrite (preferred_delay_other (r2, t2) Hw2) in Heq.
  injection Heq as -> ->.
  apply merge_left_In in Hin.
  destruct (merge_access_links_values _ _ _ _ _ _ H2 Hin)
    as (r1 & md & Hin1 & Hs2 & Hmd & Hv2).
  destruct (merge_access_links_values _ _ _ _ _ _ H1 Hin1)
    as (r0 & mw & Hin0 & Hs1 & Hmw & Hv1).
  apply filter_In in Hin0. destruct Hin0 as [Hin0 _].
  apply cost_df_unset in Hin0.
  exists mw, md.
  split; [apply (access_match_same _ _ _ r1 _ Hs2 Hmw)|].
  split; [exact Hmd|].
  rewrite Hv2, Hv1, Hin0.
  rewrite (access_table_uses_same _ walk_df r r1 Hs2).
  rewrite (access_cell_same mw r r1 Hs2).
  reflexivity.
Qed.

Lemma access_egress_values_witness :
  let out :=
    Examples.frame
      (cost_accegr_df Examples.cfg0 Examples.accegr0 Examples.trips0
                      Examples.walk0 Examples.drive0) in
  let r :=
    set_var_value (Some 5%Q)
      (Examples.cost_row MoreExamples.access_walk Examples.trip1
                         "access" "walk" "walk_access" "time_min" 1 1) in
  In (r, Some Examples.trip1) out /\
  exists mw md,
    access_match Examples.cfg0 Examples.walk0 r mw /\
    access_match Examples.cfg0 Examples.drive0 r md /\
    var_value r
    = if access_table_uses (DRIVE_MODE_NUMS Examples.cfg0) Examples.drive0 r
      then access_cell md r
      else if access_table_uses (WALK_MODE_NUMS Examples.cfg0) Examples.walk0 r
           then access_cell mw r
           else None.
Proof.
  intros out r.
  assert (Hrun :
    cost_accegr_df Examples.cfg0
      (filter is_accegr
              (cost_df (Examples.frame
                          (pathset_links_cost_df 0 Examples.links0
                                                 Examples.trips0))
                       Examples.numbered0))
      Examples.trips0 Examples.walk0 Examples.drive0
    = Ok out) by (vm_compute; reflexivity).
  assert (Hin : In (r, Some Examples.trip1) out) by in_frame.
  split; [exact Hin|].
  apply (access_egress_values _ _ _ _ _ _ _ _ _ Hrun Hin eq_refl).
Defined.

(* ================================================================== *)
(** * The file of the experienced times *)

Lemma traveler_trip_eqb_eq (a b : traveler_trip) :
  traveler_trip_eqb a b = true <-> a = b.
Proof.
  destruct a as [p t], b as [p' t']. unfold traveler_trip_eqb. cbn [fst snd].
  rewrite andb_true_iff, String.eqb_eq, Z.eqb_eq.
  split; [intros [-> ->]; reflexivity | intros [= -> ->]; auto].
Qed.

Lemma group_keys_NoDup (df : list PassengerLink) : NoDup (group_keys df).
Proof.
  unfold group_keys.
  apply (Permutation_NoDup (sort_values_Permutation traveler_trip_leb _)).
  apply NoDup_drop_duplicates. exact traveler_trip_eqb_eq.
Qed.

Lemma group_keys_In (df : list PassengerLink) (k : traveler_trip) :
  In k (group_keys df) <-> exists r, In r df /\ pl_key r = k.
Proof.
  unfold group_keys. split.
  - intros H.
    apply (Permutation_in _
             (Permutation_sym (sort_values_Permutation traveler_trip_leb _)))
      in H.
    apply drop_duplicates_In, in_map_iff in H.
    destruct H as (r & <- & Hr). eauto.
  - intros (r & Hr & <-).
    apply (Permutation_in _ (sort_values_Permutation traveler_trip_leb _)).
    apply In_drop_duplicates; [exact traveler_trip_eqb_eq|].
    apply in_map. exact Hr.
Qed.

Lemma every_trip_rides_keys (df : list PassengerLink) :
  every_trip_rides df = true <->
  incl (group_keys df) (group_keys (filter is_transit_link df)).
Proof.
  unfold every_trip_rides. rewrite forallb_forall. split.
  - intros H k Hk. apply group_keys_In in Hk. destruct Hk as (r & Hr & <-).
    apply H, existsb_exists in Hr. destruct Hr as (r' & Hr' & Hon).
    apply andb_prop in Hon. destruct Hon as [Hkey Hmode].
    apply traveler_trip_eqb_eq in Hkey.
    apply group_keys_In. exists r'. split; [| auto].
    apply filter_In. auto.
  - intros H r Hr.
    assert (Hk : In (pl_key r) (group_keys df))
      by (apply group_keys_In; eauto).
    apply H, group_keys_In in Hk. destruct Hk as (r' & Hr' & Hkey).
    apply filter_In in Hr'. destruct Hr' as [Hr' Hmode].
    apply existsb_exists. exists r'. split; [exact Hr'|].
    rewrite Hmode, andb_true_r. apply traveler_trip_eqb_eq. auto.
Qed.

Lemma transit_keys_incl (df : list PassengerLink) :
  incl (group_keys (filter is_transit_link df)) (group_keys df).
Proof.
  intros k Hk. apply group_keys_In in Hk. destruct Hk as (r & Hr & <-).
  apply filter_In in Hr. apply group_keys_In. exists r. tauto.
Qed.

(** The assertion of [write_path_times]. *)
Lemma group_keys_length (df : list PassengerLink) :
  Nat.eqb (List.length (group_keys df))
          (List.length (group_keys (filter is_transit_link df)))
  = every_trip_rides df.
Proof.
  destruct (every_trip_rides df) eqn:E.
  - apply Nat.eqb_eq. apply every_trip_rides_keys in E.
    apply Nat.le_antisymm; apply NoDup_incl_length;
      auto using group_keys_NoDup, transit_keys_incl.
  - apply Nat.eqb_neq. intros Hlen.
    assert (Hincl : incl (group_keys df)
                         (group_keys (filter is_transit_link df))).
    { apply NoDup_length_incl;
        [apply group_keys_NoDup | rewrite Hlen; apply Nat.le_refl
         | apply transit_keys_incl]. }
    apply every_trip_rides_keys in Hincl. congruence.
Qed.

(** X20.  On a frame that is not empty, [write_path_times] writes its file
    exactly when every traveler-trip of the frame has a transit link; a
    traveler-trip that is walked from end to end makes it fail its
    assertion.  The file is "ft_output_passengerTimes.txt", tab-separated,
    under a header line of nine column names. *)
Theorem write_path_times_outcome (datetime64_formatter : option Z -> string)
    (sort_values_by_trip : list TimesRow -> list TimesRow)
    (passengers_df : list PassengerLink) :
  passengers_df <> [] ->
  let result :=
    write_path_times datetime64_formatter sort_values_by_trip passengers_df in
  if every_trip_rides passengers_df
  then exists f,
         result = Ok f /\
         csv_name f = "ft_output_passengerTimes.txt" /\
         csv_sep f = tab /\
         csv_header f
         = Some ["trip_list_id_num"; "person_id"; "originTaz";
                 "destinationTaz"; "startTime"; "endTime"; "arrivalTimes";
                 "boardingTimes"; "alightingTimes"]
  else result = Raised AssertionError.
Proof.
  intros _ result. subst result. unfold write_path_times.
  rewrite group_keys_length.
  destruct (every_trip_rides passengers_df); [| reflexivity].
  eexists. split; [reflexivity|]. repeat split.
Qed.

Lemma write_path_times_outcome_witness :
  OutputExamples.passengers0 <> [] /\
  (exists f,
     write_path_times OutputExamples.formatter0 OutputExamples.sort0
                      OutputExamples.passengers0 = Ok f /\
     csv_name f = "ft_output_passengerTimes.txt" /\
     csv_sep f = tab /\
     csv_header f
     = Some ["trip_list_id_num"; "person_id"; "originTaz";
             "destinationTaz"; "startTime"; "endTime"; "arrivalTimes";
             "boardingTimes"; "alightingTimes"]) /\
  write_path_times OutputExamples.formatter0 OutputExamples.sort0
                   (OutputExamples.passengers0 ++ [OutputExamples.walker])
  = Raised AssertionError.
Proof.
  assert (H0 : OutputExamples.passengers0 <> []) by discriminate.
  assert (H1 : (OutputExamples.passengers0 ++ [OutputExamples.walker])%list
               <> []) by discriminate.
  split; [exact H0|]. split.
  - apply (write_path_times_outcome OutputExamples.formatter0
             OutputExamples.sort0 OutputExamples.passengers0 H0).
  - apply (write_path_times_outcome OutputExamples.formatter0
             OutputExamples.sort0
             (OutputExamples.passengers0 ++ [OutputExamples.walker])%list H1).
Defined.

Lemma times_row_key formatter df (k : traveler_trip) :
  tr_key (times_row formatter df k) = k.
Proof. destruct k. reflexivity. Qed.

(** X21.  The file [write_path_times] writes has one line for each
    traveler-trip of the frame and no other, in the order of the trip
    numbers.  The line of a traveler-trip holds the first stop and time of
    departure and the last stop and time of arrival among all its links, and
    the arrival, boarding and alighting times of its transit links, joined
    by commas in the order of the frame. *)
Theorem write_path_times_rows (datetime64_formatter : option Z -> string)
    (sort_values_by_trip : list TimesRow -> list TimesRow)
    (passengers_df : list PassengerLink) (f : CsvFile) :
  (forall l, Permutation l (sort_values_by_trip l)) ->
  (forall l, Sorted trip_le (sort_values_by_trip l)) ->
  write_path_times datetime64_formatter sort_values_by_trip passengers_df
  = Ok f ->
  exists rows,
    csv_rows f
    = map (fun r => map (fun c => snd c r)
                        (times_columns datetime64_formatter)) rows /\
    Sorted trip_le rows /\
    NoDup (map tr_key rows) /\
    (forall k, In k (map tr_key rows) <->
               exists r, In r passengers_df /\ pl_key r = k) /\
    (forall row, In row rows ->
       let group := group_rows passengers_df (tr_key row) in
       let transit := filter is_transit_link group in
       transit <> [] /\
       tr_A_id row = first_valid (map pl_A_id group) /\
       tr_B_id row = last_valid (map pl_B_id group) /\
       tr_A_time row = first_valid (map pl_A_time group) /\
       tr_B_time row = last_valid (map pl_B_time group) /\
       arrival_time_str row = joined datetime64_formatter pl_A_time transit /\
       board_time_str row
       = joined datetime64_formatter pl_board_time transit /\
       alight_time_str row
       = joined datetime64_formatter pl_alight_time transit).
Proof.
  intros Hperm Hsorted. unfold write_path_times.
  rewrite group_keys_length.
  destruct (every_trip_rides passengers_df) eqn:Erides; [| discriminate].
  intros [= <-]. cbn [to_csv csv_rows].
  set (rows := map (times_row datetime64_formatter passengers_df)
                   (group_keys passengers_df)).
  assert (Hkeys : map tr_key rows = group_keys passengers_df).
  { subst rows. rewrite map_map. rewrite <- (map_id (group_keys _)) at 2.
    apply map_ext. intros k. apply times_row_key. }
  exists (sort_values_by_trip rows).
  split; [reflexivity|]. split; [apply Hsorted|].
  assert (Hp : Permutation (map tr_key rows)
                           (map tr_key (sort_values_by_trip rows)))
    by (apply Permutation_map, Hperm).
  split; [| split].
  - apply (Permutation_NoDup Hp). rewrite Hkeys. apply group_keys_NoDup.
  - intros k. rewrite <- group_keys_In, <- Hkeys. split.
    + apply Permutation_in, Permutation_sym, Hp.
    + apply Permutation_in, Hp.
  - intros row Hrow.
    apply (Permutation_in _ (Permutation_sym (Hperm rows))) in Hrow.
    subst rows. apply in_map_iff in Hrow. destruct Hrow as (k & <- & Hk).
    rewrite times_row_key. cbn zeta.
    split; [| repeat split].
    apply every_trip_rides_keys in Erides.
    apply Erides, group_keys_In in Hk. destruct Hk as (r & Hr & Hkey).
    apply filter_In in Hr. destruct Hr as [Hr Hmode].
    intros Hnil.
    assert (Hin : In r (filter is_transit_link (group_rows passengers_df k))).
    { apply filter_In. split; [| exact Hmode].
      apply filter_In. split; [exact Hr|].
      apply traveler_trip_eqb_eq. auto. }
    rewrite Hnil in Hin. destruct Hin.
Qed.

Lemma Sorted_leb_le (l : list TimesRow) :
  Sorted (fun a b =>
            (tr_trip_list_id_num a <=? tr_trip_list_id_num b) = true) l ->
  Sorted trip_le l.
Proof.
  induction 1 as [| a l _ IH Hhd]; constructor; [exact IH|].
  destruct Hhd as [| b l Hab]; constructor. apply Z.leb_le. exact Hab.
Qed.

Lemma sort0_Sorted (l : list TimesRow) :
  Sorted trip_le (OutputExamples.sort0 l).
Proof.
  apply Sorted_leb_le, sort_values_Sorted.
  intros a b.
  destruct (Z.leb_spec (tr_trip_list_id_num a) (tr_trip_list_id_num b));
    [left; reflexivity | right; apply Z.leb_le; lia].
Qed.

Lemma write_path_times_rows_witness :
  exists f,
    write_path_times OutputExamples.formatter0 OutputExamples.sort0
                     OutputExamples.passengers0 = Ok f /\
    exists rows,
      csv_rows f
      = map (fun r => map (fun c => snd c r)
                          (times_columns OutputExamples.formatter0)) rows /\
      Sorted trip_le rows /\
      NoDup (map tr_key rows) /\
      (forall k, In k (map tr_key rows) <->
                 exists r, In r OutputExamples.passengers0 /\ pl_key r = k) /\
      (forall row, In row rows ->
         let group := group_rows OutputExamples.passengers0 (tr_key row) in
         let transit := filter is_transit_link group in
         transit <> [] /\
         tr_A_id row = first_valid (map pl_A_id group) /\
         tr_B_id row = last_valid (map pl_B_id group) /\
         tr_A_time row = first_valid (map pl_A_time group) /\
         tr_B_time row = last_valid (map pl_B_time group) /\
         arrival_time_str row
         = joined OutputExamples.formatter0 pl_A_time transit /\
         board_time_str row
         = joined OutputExamples.formatter0 pl_board_time transit /\
         alight_time_str row
         = joined OutputExamples.formatter0 pl_alight_time transit).
Proof.
  assert (Hperm : forall l, Permutation l (OutputExamples.sort0 l))
    by (intros l; apply sort_values_Permutation).
  assert (Hrun :
    write_path_times OutputExamples.formatter0 OutputExamples.sort0
                     OutputExamples.passengers0
    = Ok (to_csv (OutputExamples.sort0
                    (map (times_row OutputExamples.formatter0
                                    OutputExamples.passengers0)
                         (group_keys OutputExamples.passengers0)))
                 PATH_TIMES_OUTPUT_FILE
                 (times_columns OutputExamples.formatter0) tab true))
    by (vm_compute; reflexivity).
  eexists. split; [exact Hrun|].
  apply (write_path_times_rows _ _ _ _ Hperm sort0_Sorted Hrun).
Defined.

(* ================================================================== *)
(** * The file of the assigned paths *)

Lemma paths_row_key linktime_formatter df (k : traveler_trip) :
  pr_key (paths_row linktime_formatter df k) = k.
Proof. destruct k. reflexivity. Qed.

Lemma series_at_None {V : Type} (render : V -> string) (rows : list V) :
  series_at render rows = None <-> rows = [].
Proof. destruct rows; simpl; split; congruence. Qed.

(** X22.  The file [write_paths] writes is "ft_output_passengerPaths.txt",
    tab-separated, under a header line of ten column names, with one line
    for each traveler-trip of the frame and no other, in the order of the
    trip numbers.  The boarding stops, boarding trips and alighting stops of
    a line are empty exactly when the traveler-trip has no transit link, and
    its walking times exactly when it has no access, egress or transfer
    link; otherwise they are joined by commas in the order of the frame. *)
Theorem write_paths_rows (datetime64_formatter : option Z -> string)
    (linktime_formatter : Z -> string)
    (sort_values_by_trip : list PathsRow -> list PathsRow)
    (passengers_df : list PassengerLink) (f : CsvFile) :
  (forall l, Permutation l (sort_values_by_trip l)) ->
  (forall l, Sorted path_trip_le (sort_values_by_trip l)) ->
  write_paths datetime64_formatter linktime_formatter sort_values_by_trip
              passengers_df = File f ->
  csv_name f = "ft_output_passengerPaths.txt" /\
  csv_sep f = tab /\
  csv_header f
  = Some ["trip_list_id_num"; "person_id"; "mode"; "originTaz";
          "destinationTaz"; "startTime"; "boardingStops"; "boardingTrips";
          "alightingStops"; "walkingTimes"] /\
  exists rows,
    csv_rows f
    = map (fun r => map (fun c => snd c r)
                        (paths_columns datetime64_formatter)) rows /\
    Sorted path_trip_le rows /\
    NoDup (map pr_key rows) /\
    (forall k, In k (map pr_key rows) <->
               exists r, In r passengers_df /\ pl_key r = k) /\
    (forall row, In row rows ->
       let group := group_rows passengers_df (pr_key row) in
       let transit := filter is_transit_link group in
       let walk := filter is_walk_link group in
       row = paths_row linktime_formatter passengers_df (pr_key row) /\
       (board_stop_str row = None <-> transit = []) /\
       (board_trip_str row = None <-> transit = []) /\
       (alight_stop_str row = None <-> transit = []) /\
       (linktime_str row = None <-> walk = []) /\
       (forall r, In r transit -> joinable r = true)).
Proof.
  intros Hperm Hsorted. unfold write_paths.
  destruct (forallb joinable (filter is_transit_link passengers_df))
    eqn:Ejoin; [| discriminate].
  intros [= <-]. cbn [to_csv csv_rows csv_name csv_sep csv_header].
  split; [reflexivity|]. split; [reflexivity|]. split; [reflexivity|].
  set (rows := map (paths_row linktime_formatter passengers_df)
                   (group_keys passengers_df)).
  assert (Hkeys : map pr_key rows = group_keys passengers_df).
  { subst rows. rewrite map_map. rewrite <- (map_id (group_keys _)) at 2.
    apply map_ext. intros k. apply paths_row_key. }
  exists (sort_values_by_trip rows).
  split; [reflexivity|]. split; [apply Hsorted|].
  assert (Hp : Permutation (map pr_key rows)
                           (map pr_key (sort_values_by_trip rows)))
    by (apply Permutation_map, Hperm).
  split; [| split].
  - apply (Permutation_NoDup Hp). rewrite Hkeys. apply group_keys_NoDup.
  - intros k. rewrite <- group_keys_In, <- Hkeys. split.
    + apply Permutation_in, Permutation_sym, Hp.
    + apply Permutation_in, Hp.
  - intros row Hrow.
    apply (Permutation_in _ (Permutation_sym (Hperm rows))) in Hrow.
    subst rows. apply in_map_iff in Hrow. destruct Hrow as (k & <- & Hk).
    rewrite paths_row_key. cbn zeta.
    split; [reflexivity|].
    cbn [paths_row board_stop_str board_trip_str alight_stop_str
         linktime_str].
    rewrite !series_at_None.
    split; [reflexivity|]. split; [reflexivity|]. split; [reflexivity|].
    split; [reflexivity|].
    intros r Hr. apply filter_In in Hr. destruct Hr as [Hr Hmode].
    apply filter_In in Hr. destruct Hr as [Hr _].
    rewrite forallb_forall in Ejoin. apply Ejoin.
    apply filter_In. auto.
Qed.

Lemma Sorted_leb_path_le (l : list PathsRow) :
  Sorted (fun a b =>
            (pr_trip_list_id_num a <=? pr_trip_list_id_num b) = true) l ->
  Sorted path_trip_le l.
Proof.
  induction 1 as [| a l _ IH Hhd]; constructor; [exact IH|].
  destruct Hhd as [| b l Hab]; constructor. apply Z.leb_le. exact Hab.
Qed.

Lemma sort1_Sorted (l : list PathsRow) :
  Sorted path_trip_le (OutputExamples.sort1 l).
Proof.
  apply Sorted_leb_path_le, sort_values_Sorted.
  intros a b.
  destruct (Z.leb_spec (pr_trip_list_id_num a) (pr_trip_list_id_num b));
    [left; reflexivity | right; apply Z.leb_le; lia].
Qed.

Lemma write_paths_rows_witness :
  exists f,
    write_paths OutputExamples.formatter0 OutputExamples.minutes0
                OutputExamples.sort1 OutputExamples.passengers0 = File f /\
    csv_name f = "ft_output_passengerPaths.txt" /\
    csv_sep f = tab /\
    csv_header f
    = Some ["trip_list_id_num"; "person_id"; "mode"; "originTaz";
            "destinationTaz"; "startTime"; "boardingStops"; "boardingTrips";
            "alightingStops"; "walkingTimes"] /\
    csv_rows f
    = [ [CInt 1; CStr "p1"; CStr "walk-transit-walk"; CStr "z1"; CStr "z9";
         CStr "time"; CStr "s1"; CStr "bus5"; CStr "s2"; CStr "min,min"];
        [CInt 2; CStr "p2"; CStr "walk-transit-walk"; CStr "z2"; CStr "z8";
         CStr "time"; CStr "s3,s4"; CStr "bus7,bus9"; CStr "s4,s5";
         CStr "min,min,min"] ].
Proof.
  assert (Hperm : forall l, Permutation l (OutputExamples.sort1 l))
    by (intros l; apply sort_values_Permutation).
  assert (Hrun :
    write_paths OutputExamples.formatter0 OutputExamples.minutes0
                OutputExamples.sort1 OutputExamples.passengers0
    = File (to_csv (OutputExamples.sort1
                      (map (paths_row OutputExamples.minutes0
                                      OutputExamples.passengers0)
                           (group_keys OutputExamples.passengers0)))
                   PATHS_OUTPUT_FILE
                   (paths_columns OutputExamples.formatter0) tab true))
    by (vm_compute; reflexivity).
  destruct (write_paths_rows _ _ _ _ _ Hperm sort1_Sorted Hrun)
    as (Hname & Hsep & Hheader & _).
  eexists. split; [exact Hrun|].
  split; [exact Hname|]. split; [exact Hsep|]. split; [exact Hheader|].
  vm_compute. reflexivity.
Defined.

(** X23.  A traveler-trip that is walked from end to end stops
    [write_path_times] at its assertion, while [write_paths] writes the
    file and gives the traveler-trip a line whose boarding stops, boarding
    trips and alighting stops are empty. *)
Theorem walked_trip_outputs (datetime64_formatter : option Z -> string)
    (linktime_formatter : Z -> string)
    (sort_times : list TimesRow -> list TimesRow)
    (sort_paths : list PathsRow -> list PathsRow)
    (passengers_df : list PassengerLink) (r : PassengerLink) :
  (forall l, Permutation l (sort_paths l)) ->
  In r passengers_df ->
  (forall r', In r' passengers_df -> pl_key r' = pl_key r ->
              is_transit_link r' = false) ->
  forallb joinable (filter is_transit_link passengers_df) = true ->
  write_path_times datetime64_formatter sort_times passengers_df
  = Raised AssertionError /\
  exists f row,
    write_paths datetime64_formatter linktime_formatter sort_paths
                passengers_df = File f /\
    In (map (fun c => snd c row) (paths_columns datetime64_formatter))
       (csv_rows f) /\
    pr_key row = pl_key r /\
    board_stop_str row = None /\ board_trip_str row = None /\
    alight_stop_str row = None.
Proof.
  intros Hperm Hr Hwalk Hjoin. split.
  - unfold write_path_times. rewrite group_keys_length.
    destruct (every_trip_rides passengers_df) eqn:E; [| reflexivity].
    unfold every_trip_rides in E. rewrite forallb_forall in E.
    apply E, existsb_exists in Hr. destruct Hr as (r' & Hr' & Hon).
    apply andb_prop in Hon. destruct Hon as [Hkey Hmode].
    apply traveler_trip_eqb_eq in Hkey.
    rewrite (Hwalk r' Hr' (eq_sym Hkey)) in Hmode. discriminate.
  - unfold write_paths. rewrite Hjoin.
    eexists. exists (paths_row linktime_formatter passengers_df (pl_key r)).
    split; [reflexivity|]. cbn [to_csv csv_rows].
    assert (Hnone : filter is_transit_link
                           (group_rows passengers_df (pl_key r)) = []).
    { destruct (filter is_transit_link (group_rows passengers_df (pl_key r)))
        as [| x xs] eqn:Ex; [reflexivity|].
      assert (Hx : In x (filter is_transit_link
                                (group_rows passengers_df (pl_key r))))
        by (rewrite Ex; left; reflexivity).
      apply filter_In in Hx. destruct Hx as [Hx Hmode].
      apply filter_In in Hx. destruct Hx as [Hx Hkey].
      apply traveler_trip_eqb_eq in Hkey.
      rewrite (Hwalk x Hx (eq_sym Hkey)) in Hmode. discriminate. }
    split; [| split; [apply paths_row_key|]].
    + apply (in_map (fun r0 => map (fun c => snd c r0)
                                   (paths_columns datetime64_formatter))).
      apply (Permutation_in _ (Hperm _)).
      apply in_map. apply group_keys_In. eauto.
    + cbn [paths_row board_stop_str board_trip_str alight_stop_str].
      rewrite Hnone. auto.
Qed.

Lemma walked_trip_outputs_witness :
  write_path_times OutputExamples.formatter0 OutputExamples.sort0
                   (OutputExamples.passengers0 ++ [OutputExamples.walker])
  = Raised AssertionError /\
  exists f row,
    write_paths OutputExamples.formatter0 OutputExamples.minutes0
                OutputExamples.sort1
                (OutputExamples.passengers0 ++ [OutputExamples.walker])
    = File f /\
    In (map (fun c => snd c row) (paths_columns OutputExamples.formatter0))
       (csv_rows f) /\
    pr_key row = pl_key OutputExamples.walker /\
    board_stop_str row = None /\ board_trip_str row = None /\
    alight_stop_str row = None.
Proof.
  apply (walked_trip_outputs OutputExamples.formatter0 OutputExamples.minutes0
           OutputExamples.sort0 OutputExamples.sort1
           (OutputExamples.passengers0 ++ [OutputExamples.walker])%list
           OutputExamples.walker).
  - intros l. apply sort_values_Permutation.
  - apply in_or_app. right. left. reflexivity.
  - intros r' Hr' Hkey. apply in_app_or in Hr'.
    destruct Hr' as [Hr' | [<- | []]]; [| reflexivity].
    cbn in Hr'.
    repeat (destruct Hr' as [<- | Hr']; [discriminate Hkey|]).
    destruct Hr'.
  - reflexivity.
Defined.
